(** * A shallow embedding of the telegram-md-bot variants

    The repository holds six near-duplicate variants of one Telegraf bot:

    - [IndexJs]   : src/index.js
    - [Part001]   : src/unnamed/part_001
    - [Part000a]  : src/unnamed/part_000, lines 1-338   (personal bot, /connect)
    - [Part000b]  : src/unnamed/part_000, lines 339-719 (group bot, /mute)
    - [Part002a]  : src/unnamed/part_002, lines 1-128   (minimal bot, /connect)
    - [Part002b]  : src/unnamed/part_002, lines 128-541 (personal bot, /autoreact)

    JavaScript strings are modelled as [string] (sequences of bytes, UTF-8).
    The string operations of the handlers look for ASCII characters, which
    never occur inside a multi-byte sequence; [trim] alone knows white space
    beyond ASCII, by its bytes.  Numbers are modelled as [Z]; every statement
    that depends on a number being exact keeps it below 2^53, and the linking
    code, computed from a random fraction, is rounded as doubles are. *)

From Stdlib Require Import ZArith Ascii DecimalString.
From stdpp Require Import base option list gmap strings.

Local Open Scope Z_scope.

(** ** JavaScript string primitives *)

Module Js.

(** [s.startsWith(p)] *)
Fixpoint startsWith (p s : string) : bool :=
  match p, s with
  | EmptyString, _ => true
  | String a p', String b s' => if decide (a = b) then startsWith p' s' else false
  | String _ _, EmptyString => false
  end.

(** [s.split(c)] for a one-character separator: never the empty array. *)
Fixpoint split (sep : ascii) (s : string) : list string :=
  match s with
  | EmptyString => [EmptyString]
  | String c s' =>
      if decide (c = sep) then EmptyString :: split sep s'
      else match split sep s' with
           | h :: t => String c h :: t
           | [] => [String c EmptyString]
           end
  end.

(** [a.pop()], as far as its result goes: the last element, [None] for
    [undefined]. *)
Definition pop (a : list string) : option string := last a.

(** [x || d] on strings: the empty string is falsy. *)
Definition or_else (x d : string) : string :=
  match x with EmptyString => d | _ => x end.

(** Does the character occur in the string? *)
Fixpoint has_char (c : ascii) (s : string) : bool :=
  match s with
  | EmptyString => false
  | String a s' => if decide (a = c) then true else has_char c s'
  end.

(** A value read from [process.env] is truthy when set and not empty. *)
Definition truthy (v : option string) : bool :=
  match v with
  | Some (String _ _) => true
  | _ => false
  end.


Definition nl : string := String "010" EmptyString.

(** The double quote. *)
Definition quote : string := String "034" EmptyString.

(** [n.toString()] for an integer. *)
Definition toString (n : Z) : string := NilZero.string_of_int (Z.to_int n).

Fixpoint drop_chars (n : nat) (s : string) : string :=
  match n, s with
  | O, _ => s
  | S n', String _ s' => drop_chars n' s'
  | S _, EmptyString => EmptyString
  end.

(** [s.replace(pat, rep)] with a string pattern: the first occurrence only.
    The replacements in the sources are all [''], so the [$]-patterns of
    the replacement text do not arise. *)
Fixpoint replace (pat rep s : string) : string :=
  if startsWith pat s then rep +:+ drop_chars (String.length pat) s
  else match s with
       | EmptyString => EmptyString
       | String c s' => String c (replace pat rep s')
       end.

(** The third byte of U+2000 to U+200A, U+2028, U+2029 and U+202F after the
    bytes 226 and 128. *)
Definition is_general_space (c : ascii) : bool :=
  let n := nat_of_ascii c in
  ((Nat.leb 128 n && Nat.leb n 138) || Nat.eqb n 168 || Nat.eqb n 169 || Nat.eqb n 175)%bool.

(** [s.trimStart()].  JavaScript strips the white space and the line
    terminators of ECMAScript: the six of ASCII and, in UTF-8, U+00A0
    (194 160), U+1680 (225 154 128), U+2000 to U+200A, U+2028, U+2029 and
    U+202F (226 128 ...), U+205F (226 129 159), U+3000 (227 128 128) and
    U+FEFF (239 187 191). *)
Fixpoint trimStart (s : string) : string :=
  match s with
  | EmptyString => EmptyString
  | String c s1 =>
      if Ascii.is_space c then trimStart s1
      else if Ascii.eqb c "194" then
        match s1 with
        | String c2 s2 => if Ascii.eqb c2 "160" then trimStart s2 else s
        | _ => s
        end
      else if Ascii.eqb c "225" then
        match s1 with
        | String c2 (String c3 s3) =>
            if (Ascii.eqb c2 "154" && Ascii.eqb c3 "128")%bool then trimStart s3 else s
        | _ => s
        end
      else if Ascii.eqb c "226" then
        match s1 with
        | String c2 (String c3 s3) =>
            if ((Ascii.eqb c2 "128" && is_general_space c3)
                || (Ascii.eqb c2 "129" && Ascii.eqb c3 "159"))%bool
            then trimStart s3 else s
        | _ => s
        end
      else if Ascii.eqb c "227" then
        match s1 with
        | String c2 (String c3 s3) =>
            if (Ascii.eqb c2 "128" && Ascii.eqb c3 "128")%bool then trimStart s3 else s
        | _ => s
        end
      else if Ascii.eqb c "239" then
        match s1 with
        | String c2 (String c3 s3) =>
            if (Ascii.eqb c2 "187" && Ascii.eqb c3 "191")%bool then trimStart s3 else s
        | _ => s
        end
      else s
  end.

(** [s.trimEnd()]: what is white space up to the end goes. *)
Fixpoint trimEnd (s : string) : string :=
  match s with
  | EmptyString => EmptyString
  | String c s' =>
      match trimStart s with
      | EmptyString => EmptyString
      | _ => String c (trimEnd s')
      end
  end.

(** [s.trim()] *)
Definition trim (s : string) : string := trimEnd (trimStart s).

(** [hay.includes(needle)] *)
Fixpoint includes (needle hay : string) : bool :=
  if startsWith needle hay then true
  else match hay with
       | EmptyString => false
       | String _ hay' => includes needle hay'
       end.

Definition lower (c : ascii) : ascii :=
  let n := nat_of_ascii c in
  if (Nat.leb 65 n && Nat.leb n 90)%bool then ascii_of_nat (n + 32) else c.

(** [s.toLowerCase()] on the ASCII letters.  No character outside ASCII
    lower-cases to a letter of [on] or [off], the only words compared. *)
Fixpoint toLowerCase (s : string) : string :=
  match s with
  | EmptyString => EmptyString
  | String c s' => String (lower c) (toLowerCase s')
  end.

Definition upper (c : ascii) : ascii :=
  let n := nat_of_ascii c in
  if (Nat.leb 97 n && Nat.leb n 122)%bool then ascii_of_nat (n - 32) else c.

(** [s.toUpperCase()], applied in the sources to [on] and [off] only. *)
Fixpoint toUpperCase (s : string) : string :=
  match s with
  | EmptyString => EmptyString
  | String c s' => String (upper c) (toUpperCase s')
  end.

Definition is_word (c : ascii) : bool :=
  let n := nat_of_ascii c in
  ((Nat.leb 48 n && Nat.leb n 57) || (Nat.leb 65 n && Nat.leb n 90)
   || (Nat.leb 97 n && Nat.leb n 122) || Nat.eqb n 95)%bool.

Fixpoint take_word (s : string) : string :=
  match s with
  | String c s' => if is_word c then String c (take_word s') else EmptyString
  | EmptyString => EmptyString
  end.

(** What follows the word [take_word] takes. *)
Fixpoint drop_word (s : string) : string :=
  match s with
  | String c s' => if is_word c then drop_word s' else s
  | EmptyString => EmptyString
  end.

Definition is_digit (c : ascii) : bool := bool_decide (is_Some (Ascii.is_nat c)).

(** [parseInt(ds)] for a string of decimal digits, as the exact integer.
    JavaScript rounds a number past 2^53 and the products made of it; the
    statements that read the number keep it and what is computed from it
    below that bound. *)
Definition parseInt (ds : string) : Z :=
  let fix go (acc : Z) (s : string) : Z :=
    match s with
    | EmptyString => acc
    | String c s' =>
        match Ascii.is_nat c with
        | Some d => go (10 * acc + Z.of_nat d) s'
        | None => acc
        end
    end in
  go 0 ds.

(** [a.join(sep)] *)
Fixpoint join (sep : string) (a : list string) : string :=
  match a with
  | [] => EmptyString
  | [x] => x
  | x :: a' => x +:+ sep +:+ join sep a'
  end.

(** [s.endsWith(c)] for a one-character suffix. *)
Fixpoint endsWith (c : ascii) (s : string) : bool :=
  match s with
  | EmptyString => false
  | String a EmptyString => bool_decide (a = c)
  | String _ s' => endsWith c s'
  end.

(** The value of a character as a digit in the given radix. *)
Definition digit_value (radix : Z) (c : ascii) : option Z :=
  let n := Z.of_nat (nat_of_ascii c) in
  let v := if (48 <=? n) && (n <=? 57) then Some (n - 48)
           else if (97 <=? n) && (n <=? 122) then Some (n - 87)
           else if (65 <=? n) && (n <=? 90) then Some (n - 55)
           else None in
  match v with
  | Some d => if d <? radix then Some d else None
  | None => None
  end.

(** The number the longest prefix of digits denotes; [None] without a digit. *)
Fixpoint digits_prefix (radix : Z) (acc : option Z) (s : string) : option Z :=
  match s with
  | EmptyString => acc
  | String c s' =>
      match digit_value radix c with
      | Some d => digits_prefix radix (Some (radix * default 0 acc + d)) s'
      | None => acc
      end
  end.

(** [parseInt(s)] with no radix given: white space is skipped, then a sign,
    then [0x] or [0X] selects base 16, then the longest prefix of digits
    counts; [None] is [NaN]. *)
Definition parseIntOf (s : string) : option Z :=
  let s1 := trimStart s in
  let signed := match s1 with
                | String "-" r => (true, r)
                | String "+" r => (false, r)
                | _ => (false, s1)
                end in
  let based := if startsWith "0x" (snd signed) || startsWith "0X" (snd signed)
               then (16, drop_chars 2 (snd signed))
               else (10, snd signed) in
  match digits_prefix (fst based) None (snd based) with
  | Some n => Some (if fst signed then - n else n)
  | None => None
  end.

(** The double nearest to a number that is not negative, ties to the even
    mantissa (IEEE 754 binary64, the rounding of every arithmetic operation
    of JavaScript).  Numbers are counted in a fixed power of two as unit, so
    [m] is an integer; a double has 53 significant bits, and [m] has
    [Z.log2 m + 1].  The numbers rounded here are far from the subnormal
    and the infinite ones. *)
Definition round_double (m : Z) : Z :=
  let excess := Z.log2 m - 52 in
  if excess <=? 0 then m
  else
    let ulp := 2 ^ excess in
    let q := m / ulp in
    let r := m mod ulp in
    if (ulp <? 2 * r) || ((ulp =? 2 * r) && Z.odd q) then (q + 1) * ulp else q * ulp.

End Js.

Arguments Js.round_double : simpl never.

(** ** The database name taken from the connection string

    index.js:48, part_000:45, part_001:35, part_002:32 and part_002:169 all read
    [mongoUri.split('/').pop().split('?')[0] || 'telegram_md_bot']. *)

Definition default_dbName : string := "telegram_md_bot".

Definition dbName (mongoUri : string) : string :=
  match Js.pop (Js.split "/" mongoUri) with
  | Some seg =>
      match head (Js.split "?" seg) with
      | Some name => Js.or_else name default_dbName
      | None => default_dbName
      end
  | None => default_dbName
  end.

(** ** Configuration, updates, store and platform *)

(** [process.env], the variables the variants read. *)
Record Env := {
  BOT_TOKEN : option string;
  MONGO_URL : option string;
  MONGODB_URI : option string;
  MONGO_URI : option string;
  ADMINS : option string;
}.

(** A platform user, as in [ctx.from] and [reply_to_message.from]. *)
Record User := {
  user_id : Z;
  username : option string;
  first_name : string;
}.

(** [ctx.message]; of the message replied to only [from] is ever read. *)
Record Message := {
  text : option string;
  reply_to_message : option User;
  new_chat_members : list User;
}.

(** [ctx.me] is the user name of the bot. *)
Record Ctx := {
  from : User;
  chat_id : Z;
  message : Message;
  me : string;
}.

(** Outbound calls on the platform client. *)
Inductive Call :=
| reply (markdown : bool) (body : string)
| sendMessage (chat : Z) (body : string)
| react (emoji : option string)
| restrictChatMember (chat user : Z) (until_date : option Z) (can_send_messages : bool).

Global Instance Call_eq_dec : EqDecision Call.
Proof. solve_decision. Defined.

(** Documents of the collections. *)
Record UserDoc := { _id : Z; doc_first_name : string }.

Record LinkDoc := { code : string; linkedAt : Z }.

(** The settings document; a field a variant does not write reads as
    [undefined], which is [false] wherever it is tested. *)
Record Settings := {
  autoreact : bool;
  autoreact_emojis : list string;
  welcome_message : bool;
  antispam : bool;
}.

(** The handles [connectDB] assigns; [false] is [undefined]. *)
Record Handles := {
  usersCollection : bool;
  groupsCollection : bool;
  sessionsCollection : bool;
  settingsCollection : bool;
  linksCollection : bool;
}.

Definition no_handles : Handles := Build_Handles false false false false false.
Definition all_handles : Handles := Build_Handles true true true true true.

(** The world a handler runs in: the store, the platform with the calls
    issued so far and their outcomes, and the sources of time and chance.
    [platform] tells, from the calls so far, whether the next call succeeds;
    [random n] is the numerator over 2^53 of the n-th [Math.random()]. *)
Record World := {
  users : list UserDoc;
  groups : list Z;
  sessions : list Z;
  settings : gmap string Settings;
  links : gmap Z LinkDoc;
  muted : gmap (Z * Z) Z;
  trace : list (Call * bool);
  platform : list (Call * bool) → Call → bool;
  random : nat → Z;
  drawn : nat;
  now : Z;
  uptime : Z;
  locale_date : string;
}.

Definition set_trace (t : list (Call * bool)) (w : World) : World :=
  Build_World (users w) (groups w) (sessions w) (settings w) (links w) (muted w)
    t (platform w) (random w) (drawn w) (now w) (uptime w) (locale_date w).

Definition set_muted (m : gmap (Z * Z) Z) (w : World) : World :=
  Build_World (users w) (groups w) (sessions w) (settings w) (links w) m
    (trace w) (platform w) (random w) (drawn w) (now w) (uptime w) (locale_date w).

Definition set_settings (s : gmap string Settings) (w : World) : World :=
  Build_World (users w) (groups w) (sessions w) s (links w) (muted w)
    (trace w) (platform w) (random w) (drawn w) (now w) (uptime w) (locale_date w).

Definition set_links (l : gmap Z LinkDoc) (w : World) : World :=
  Build_World (users w) (groups w) (sessions w) (settings w) l (muted w)
    (trace w) (platform w) (random w) (drawn w) (now w) (uptime w) (locale_date w).

Definition set_drawn (n : nat) (w : World) : World :=
  Build_World (users w) (groups w) (sessions w) (settings w) (links w) (muted w)
    (trace w) (platform w) (random w) n (now w) (uptime w) (locale_date w).

(** ** Handlers as state-and-exception computations *)

Inductive JsError := TypeError | PlatformError.

(** How a handler ends.  [Throw] is an exception a [catch] block of the
    handler can still see.  [Rejected] is the rejection of a promise the
    handler has returned ([return ctx.reply(...)]): the handler's own promise
    rejects with it, and no [catch] block of the handler sees it. *)
Inductive Result (A : Type) :=
| Ok (a : A)
| Throw (e : JsError)
| Rejected (e : JsError).
Arguments Ok {A} a.
Arguments Throw {A} e.
Arguments Rejected {A} e.

Definition M (A : Type) : Type := World → Result A * World.

Definition ret {A} (a : A) : M A := fun w => (Ok a, w).

Definition throw {A} (e : JsError) : M A := fun w => (Throw e, w).

Definition bind {A B} (m : M A) (k : A → M B) : M B :=
  fun w => match m w with
           | (Ok a, w') => k a w'
           | (Throw e, w') => (Throw e, w')
           | (Rejected e, w') => (Rejected e, w')
           end.

(** [try { body } catch (error) { handler }] *)
Definition try_catch {A} (body : M A) (handler : JsError → M A) : M A :=
  fun w => match body w with
           | (Ok a, w') => (Ok a, w')
           | (Throw e, w') => handler e w'
           | (Rejected e, w') => (Rejected e, w')
           end.

Declare Scope js_scope.
Delimit Scope js_scope with js.
Notation "'let*' x ':=' m 'in' k" := (bind m (fun x => k))
  (at level 10, x name, m at level 100, k at level 200) : js_scope.
Local Open Scope js_scope.

Definition get {A} (f : World → A) : M A := fun w => (Ok (f w), w).

Definition modify (f : World → World) : M unit := fun w => (Ok tt, f w).

(** What the platform does with a call it accepts: only restrictions change
    a chat member. *)
Definition apply_call (c : Call) (w : World) : World :=
  match c with
  | restrictChatMember chat user (Some until) false =>
      set_muted (<[(chat, user) := until]> (muted w)) w
  | restrictChatMember chat user _ true => set_muted (delete (chat, user) (muted w)) w
  | _ => w
  end.

Definition issue (c : Call) (w : World) : bool * World :=
  let ok := platform w (trace w) c in
  (ok, set_trace (trace w ++ [(c, ok)]) (if ok then apply_call c w else w)).

(** [await client.call(...)]: a rejected call throws into the handler. *)
Definition await (c : Call) : M unit :=
  fun w => let '(ok, w') := issue c w in
           (if ok then Ok tt else Throw PlatformError, w').

(** [return client.call(...)]: the handler ends with the promise of the call. *)
Definition return_call (c : Call) : M unit :=
  fun w => let '(ok, w') := issue c w in
           (if ok then Ok tt else Rejected PlatformError, w').

(** [client.call(...)] without [await] or [return]: the call is issued and
    the handler goes on; its outcome is never observed by the handler.  What
    the runtime does with a rejection that nothing handles is outside this
    model. *)
Definition detached (c : Call) : M unit :=
  fun w => (Ok tt, snd (issue c w)).

Arguments issue : simpl never.
Arguments await : simpl never.
Arguments return_call : simpl never.
Arguments detached : simpl never.

(** [for (const x of xs) { body }] with the loop-carried locals as [s]. *)
Fixpoint for_of {A S} (xs : list A) (body : A → S → M S) (s : S) : M S :=
  match xs with
  | [] => ret s
  | x :: xs' => let* s' := body x s in for_of xs' body s'
  end.

(** [ctx.message.text.method(...)]: a method call on [undefined] throws. *)
Definition message_text (ctx : Ctx) : M string :=
  match text (message ctx) with
  | Some t => ret t
  | None => throw TypeError
  end.

(** [Math.random()]: the next fraction of the world, as its numerator over
    2^53. *)
Definition math_random : M Z :=
  fun w => (Ok (random w (drawn w)), set_drawn (S (drawn w)) w).

(** [Math.floor(Math.random() * n)]: the product is a double; in units of
    2^-53 it is the rounded [k * n]. *)
Definition random_below (n : Z) : M Z :=
  let* k := math_random in
  ret (Js.round_double (k * n) / 2 ^ 53).

(** The calls a handler added to the trace. *)
Definition issued (w w' : World) : list (Call * bool) :=
  drop (length (trace w)) (trace w').

Definition exec {A} (m : M A) (w : World) : World := snd (m w).

(** ** The middleware chain of Telegraf

    Handlers run in the order of their registration.  A handler that does
    not call [next()] ends the chain.  [bot.use(session())], first in every
    variant, always calls [next()] and is left out. *)

Inductive Flow := Next | Stop.

Definition Middleware : Type := Ctx → M Flow.

(** The command a text opens with: what the platform marks as a
    [bot_command] entity at offset 0, without the [/] and without a suffix
    [@botname]. *)
Definition command_of (t : string) : option string :=
  match t with
  | String "/" rest =>
      match Js.take_word rest with
      | EmptyString => None
      | name => Some name
      end
  | _ => None
  end.

(** The bot a command is addressed to: the name after an [@] that follows
    the command word directly; empty when there is none. *)
Definition addressee (t : string) : string :=
  match t with
  | String "/" rest =>
      match Js.drop_word rest with
      | String "@" name => Js.take_word name
      | _ => EmptyString
      end
  | _ => EmptyString
  end.

(** Telegraf 4, whose [ctx.react] the sources call, passes a command on when
    it is addressed to another bot:
    [if (to && to.toLowerCase() !== ctx.me.toLowerCase()) return next()]. *)
Definition for_another_bot (ctx : Ctx) (t : string) : bool :=
  match addressee t with
  | EmptyString => false
  | to => negb (bool_decide (Js.toLowerCase to = Js.toLowerCase (me ctx)))
  end.

(** The command an update carries for this bot, if any. *)
Definition update_command (ctx : Ctx) : option string :=
  let t := default EmptyString (text (message ctx)) in
  if for_another_bot ctx t then None else command_of t.

(** [bot.command(name, handler)]: the handlers of the sources take no
    [next], so a command that matches ends the chain. *)
Definition command (name : string) (handler : Ctx → M unit) : Middleware :=
  fun ctx =>
    if bool_decide (update_command ctx = Some name)
    then let* _ := handler ctx in ret Stop
    else ret Next.

(** [bot.on('new_chat_members', handler)] *)
Definition on_new_chat_members (handler : Ctx → M unit) : Middleware :=
  fun ctx =>
    match new_chat_members (message ctx) with
    | [] => ret Next
    | _ => let* _ := handler ctx in ret Stop
    end.

(** [bot.handleUpdate] for a message update. *)
Fixpoint handleUpdate (chain : list Middleware) (ctx : Ctx) : M unit :=
  match chain with
  | [] => ret tt
  | m :: chain' =>
      let* flow := m ctx in
      match flow with
      | Next => handleUpdate chain' ctx
      | Stop => ret tt
      end
  end.

(** ** Start-up

    What the process does before it serves updates: the network connections
    it attempts, in order, and how the start-up ends. *)

Inductive NetEvent :=
| MongoConnect (uri : string)
| TelegramLaunch (token : string).

(** [Exit code]: [process.exit(code)], or an exception no one catches while
    the module loads (exit code 1).  [Serving h]: the bot polls for updates
    with the handles [h].  [Idle]: the start-up failed, the error was logged,
    nothing was launched.  [Unhandled]: the promise of [bot.launch()]
    rejected and nothing handles the rejection. *)
Inductive Outcome :=
| Exit (code : Z)
| Serving (h : Handles)
| Idle
| Unhandled.

Record Boot := { net : list NetEvent; outcome : Outcome }.

(** Which servers answer. *)
Record Network := { mongo_up : string → bool; telegram_up : string → bool }.

(** [bot.launch()]: the client checks the token when it builds its first
    request; without a token the request is never sent. *)
Definition launch (n : Network) (token : option string) : list NetEvent * bool :=
  match token with
  | Some (String c t) => ([TelegramLaunch (String c t)], telegram_up n (String c t))
  | _ => ([], false)
  end.

(** [a || b] on two variables of the environment. *)
Definition env_or (a b : option string) : option string :=
  if Js.truthy a then a else b.

(** ** Code the variants share word for word *)

(** [isAdmin], index.js:86, part_000:85, part_002:208:
    [process.env.ADMINS ? process.env.ADMINS.split(',') : []], then
    [admins.includes(ctx.from.id.toString())]. *)
Definition isAdmin (env : Env) (ctx : Ctx) : bool :=
  let admins := if Js.truthy (ADMINS env)
                then Js.split "," (default EmptyString (ADMINS env))
                else [] in
  bool_decide (Js.toString (user_id (from ctx)) ∈ admins).

Definition broadcast_body (message0 : string) : string :=
  "📢 *BROADCAST FROM ADMIN:*" +:+ Js.nl +:+ Js.nl +:+ message0.

Definition broadcast_report (successCount failCount : Z) : string :=
  "✅ Broadcast completed!" +:+ Js.nl +:+
  "Success: " +:+ Js.toString successCount +:+ Js.nl +:+
  "Failed: " +:+ Js.toString failCount.

(** One send of the loop, part_000:267-274: the locals [successCount] and
    [failCount] are the pair carried along.  The pause after a send,
    [await new Promise(r => setTimeout(r, 100))], cannot fail and touches
    nothing. *)
Definition broadcast_send (message0 : string) (user : UserDoc) (counts : Z * Z) : M (Z * Z) :=
  try_catch
    (let* _ := await (sendMessage (_id user) (broadcast_body message0)) in
     ret (fst counts + 1, snd counts))
    (fun _ => ret (fst counts, snd counts + 1)).

(** The pass over the users, part_000:260-277, part_000:474-492 and
    part_002:438-455: [usersCollection.find({}).toArray()], the notice, the
    loop, the report. *)
Definition broadcast_pass (message0 : string) : M unit :=
  let* us := get users in
  let* _ := detached (reply false ("📢 Starting broadcast to " +:+
                        Js.toString (Z.of_nat (length us)) +:+ " users...")) in
  let* counts := for_of us (broadcast_send message0) (0, 0) in
  detached (reply false (broadcast_report (fst counts) (snd counts))).

(** [ctx.message.text.replace('/broadcast', '').trim()] *)
Definition broadcast_message (t : string) : string :=
  Js.trim (Js.replace "/broadcast" "" t).

Definition only_admins : string := "❌ This command is only available for admins.".
Definition no_message : string :=
  "Please provide a message to broadcast. Usage: /broadcast Your message here".
Definition no_database : string := "❌ Database not available for broadcast.".
Definition broadcast_failed : string := "❌ An error occurred during broadcast.".

(** [formatUptime], index.js:162, part_000:90, part_000:691, part_002:214.
    [process.uptime()] is taken in whole seconds: the three [Math.floor]
    see no difference. *)
Definition formatUptime (seconds : Z) : string :=
  Js.toString (seconds / (3600 * 24)) +:+ "d " +:+
  Js.toString ((seconds mod (3600 * 24)) / 3600) +:+ "h " +:+
  Js.toString ((seconds mod 3600) / 60) +:+ "m".

Definition memory_mode (env : Env) : string :=
  if negb (Js.truthy (MONGO_URL env))
  then Js.nl +:+ "⚠️ *Running in memory mode (no database)*"
  else EmptyString.

(** [settings.autoreact_emojis[Math.floor(Math.random() * length)]]; an
    index out of range reads [undefined]. *)
Definition pick_emoji (s : Settings) : M (option string) :=
  let* i := random_below (Z.of_nat (length (autoreact_emojis s))) in
  ret (autoreact_emojis s !! Z.to_nat i).

(** Is [ctx.message.text] there and not empty? *)
Definition has_text (ctx : Ctx) : bool := Js.truthy (text (message ctx)).

Definition is_command_text (ctx : Ctx) : bool :=
  has_text ctx && Js.startsWith "/" (default EmptyString (text (message ctx))).

(** [bot.on('message', ...)] of part_000:100-123 and part_002:225-249:
    registered first, it passes commands on before it looks at the settings. *)
Definition on_message (h : Handles) : Middleware :=
  fun ctx =>
    if is_command_text ctx then ret Next
    else
      let* _ :=
        try_catch
          (if settingsCollection h then
             let* found := get (fun w => settings w !! "global") in
             match found with
             | Some s =>
                 if autoreact s && has_text ctx then
                   let* randomEmoji := pick_emoji s in
                   try_catch (await (react randomEmoji)) (fun _ => ret tt)
                 else ret tt
             | None => ret tt
             end
           else ret tt)
          (fun _ => ret tt) in
      ret Next.

(** [Math.floor(100000 + Math.random() * 900000).toString()]: the product
    is rounded to a double, and so is the sum; both in units of 2^-53. *)
Definition linking_code : M string :=
  let* k := math_random in
  let product := Js.round_double (k * 900000) in
  let sum := Js.round_double (100000 * 2 ^ 53 + product) in
  ret (Js.toString (sum / 2 ^ 53)).

Definition database_required : string :=
  "❌ Database connection required for linking your device.".

(** [linksCollection.updateOne({ userId }, { $set: { userId, code, linkedAt } },
    { upsert: true })] *)
Definition store_link (userId : Z) (linkingCode : string) : M unit :=
  let* ms := get now in
  modify (fun w => set_links (<[userId := Build_LinkDoc linkingCode ms]> (links w)) w).

(** [connectDB] of the variants that make the store optional: no connection
    string, or a failed [mongoClient.connect()], leaves every handle
    [undefined]. *)
Definition connectDB (n : Network) (mongoUri : option string) : list NetEvent * Handles :=
  match mongoUri with
  | Some (String c u) =>
      ([MongoConnect (String c u)],
       if mongo_up n (String c u) then all_handles else no_handles)
  | _ => ([], no_handles)
  end.

(** The connection string is missing or the server does not answer. *)
Definition store_unavailable (n : Network) (mongoUri : option string) : Prop :=
  match mongoUri with
  | Some (String c u) => mongo_up n (String c u) = false
  | _ => True
  end.

(** The counters of /stats start as the text [N/A] and are overwritten with
    the counts when both collections are there.  A count that fails inside
    the [try] would leave its counter as it is; the store of this model
    answers every request made through a handle. *)
Definition not_available : string := "N/A".

Definition count_both (first second : bool) (n1 n2 : World → nat) : M (string * string) :=
  if first && second then
    try_catch
      (let* c1 := get n1 in
       let* c2 := get n2 in
       ret (Js.toString (Z.of_nat c1), Js.toString (Z.of_nat c2)))
      (fun _ => ret (not_available, not_available))
  else ret (not_available, not_available).

(** The statistics text of part_000:297-306 and part_002:484-493. *)
Definition personal_statsText (env : Env) (ctx : Ctx) (today userCount sessionCount : string)
    (up : Z) : string :=
  Js.nl +:+ "📊 *YOUR STATISTICS*" +:+ Js.nl +:+ Js.nl +:+
  "👤 Your ID: " +:+ Js.toString (user_id (from ctx)) +:+ Js.nl +:+
  "📅 Joined: " +:+ today +:+ Js.nl +:+
  "👥 Total Users: " +:+ userCount +:+ Js.nl +:+
  "🔗 Active Sessions: " +:+ sessionCount +:+ Js.nl +:+
  "⚡ Uptime: " +:+ formatUptime up +:+ Js.nl +:+
  memory_mode env +:+ Js.nl +:+ "  ".

(** [bot.command('stats', ...)] of part_000:284-309 and part_002:471-496. *)
Definition personal_stats (env : Env) (h : Handles) (ctx : Ctx) : M unit :=
  let* counts := count_both (usersCollection h) (sessionsCollection h)
                   (fun w => length (users w)) (fun w => length (sessions w)) in
  let* today := get locale_date in
  let* up := get uptime in
  detached (reply true (personal_statsText env ctx today (fst counts) (snd counts) up)).

(** [initSettings] of part_000:65-83 and part_002:187-205; the fields
    [max_sessions] and [allow_broadcast] of the document are never read. *)
Definition personal_defaults : Settings :=
  Build_Settings true ["👍"; "❤️"; "🔥"] false false.

Definition initSettings (h : Handles) : M unit :=
  if negb (settingsCollection h) then ret tt
  else
    try_catch
      (let* found := get (fun w => settings w !! "global") in
       match found with
       | Some _ => ret tt
       | None => modify (fun w => set_settings (<["global" := personal_defaults]> (settings w)) w)
       end)
      (fun _ => ret tt).

(** [settingsCollection.updateOne({ _id: 'global' }, { $set: { autoreact } })]:
    no upsert, a missing document stays missing. *)
Definition set_autoreact (b : bool) (s : Settings) : Settings :=
  Build_Settings b (autoreact_emojis s) (welcome_message s) (antispam s).

Definition update_autoreact (b : bool) : M unit :=
  modify (fun w => set_settings (alter (set_autoreact b) "global" (settings w)) w).

Definition on_off (b : bool) : string := if b then "ON" else "OFF".

Definition specify_on_off : string :=
  "Please specify " +:+ Js.quote +:+ "on" +:+ Js.quote +:+ " or " +:+
  Js.quote +:+ "off" +:+ Js.quote +:+ ". Usage: /autoreact on".

(** ** Handlers beyond the ones above *)

Definition set_users (us : list UserDoc) (w : World) : World :=
  Build_World us (groups w) (sessions w) (settings w) (links w) (muted w)
    (trace w) (platform w) (random w) (drawn w) (now w) (uptime w) (locale_date w).

(** [usersCollection.updateOne({ _id }, { $set: {...} }, { upsert: true })]:
    the first document with the id is rewritten, and without one the
    document is added at the end.  Of the fields set, [first_name] is the
    one the document of this model keeps; none of them is ever read back. *)
Fixpoint upsert_user (d : UserDoc) (us : list UserDoc) : list UserDoc :=
  match us with
  | [] => [d]
  | x :: us' => if decide (_id x = _id d) then d :: us' else x :: upsert_user d us'
  end.

Definition save_user (u : User) : M unit :=
  modify (fun w => set_users (upsert_user (Build_UserDoc (user_id u) (first_name u)) (users w)) w).

(** [bot.start(...)] of part_001:53-70 and part_002:49-66: the write is
    awaited outside any [try]. *)
Definition minimal_start (h : Handles) (ctx : Ctx) : M unit :=
  let* _ := if usersCollection h then save_user (from ctx) else ret tt in
  detached (reply false ("Hello, " +:+ first_name (from ctx) +:+
                         "! Welcome to the bot. Use /help to get commands.")).

(** [bot.start(...)] of part_000:127-153 and part_002:254-287, which differ
    in the welcome text only: the write is inside a [try] whose [catch]
    logs. *)
Definition personal_start (welcome : string → string) (h : Handles) (ctx : Ctx) : M unit :=
  let* _ := if usersCollection h
            then try_catch (save_user (from ctx)) (fun _ => ret tt)
            else ret tt in
  detached (reply true (welcome (first_name (from ctx)))).

(** ** src/index.js *)

Module IndexJs.

Definition mongoUri (env : Env) : option string := env_or (MONGO_URL env) (MONGODB_URI env).

(** index.js:138-145 *)
Definition statsText (env : Env) (userCount groupCount : string) (up : Z) : string :=
  Js.nl +:+ "📊 *BOT STATISTICS*" +:+ Js.nl +:+ Js.nl +:+
  "👥 Users: " +:+ userCount +:+ Js.nl +:+
  "👥 Groups: " +:+ groupCount +:+ Js.nl +:+
  "⚡ Uptime: " +:+ formatUptime up +:+ Js.nl +:+
  memory_mode env +:+ Js.nl +:+ "  ".

(** index.js:125-148, [bot.command('stats', ...)] *)
Definition command_stats (env : Env) (h : Handles) (ctx : Ctx) : M unit :=
  let* counts := count_both (usersCollection h) (groupsCollection h)
                   (fun w => length (users w)) (fun w => length (groups w)) in
  let* up := get uptime in
  detached (reply true (statsText env (fst counts) (snd counts) up)).

(** index.js:6-9 and 189-217: the token test, then [startBot];
    [bot.launch().then(...)] is not awaited. *)
Definition boot (env : Env) (n : Network) : Boot :=
  if negb (Js.truthy (BOT_TOKEN env)) then Build_Boot [] (Exit 1)
  else
    let db := connectDB n (mongoUri env) in
    let tg := launch n (BOT_TOKEN env) in
    Build_Boot (fst db ++ fst tg) (if snd tg then Serving (snd db) else Unhandled).

End IndexJs.

(** ** src/unnamed/part_001 *)

Module Part001.

(** part_001:45-50: commands and other messages alike are passed on. *)
Definition on_message : Middleware :=
  fun ctx => if is_command_text ctx then ret Next else ret Next.

(** part_001:5-8 and 89-99: [await bot.launch()] inside [try]; the [catch]
    logs and does not exit. *)
Definition boot (env : Env) (n : Network) : Boot :=
  if negb (Js.truthy (BOT_TOKEN env)) then Build_Boot [] (Exit 1)
  else
    let db := connectDB n (MONGO_URL env) in
    let tg := launch n (BOT_TOKEN env) in
    Build_Boot (fst db ++ fst tg) (if snd tg then Serving (snd db) else Idle).

Definition start : Handles → Ctx → M unit := minimal_start.

End Part001.

(** ** The personal bot of part_000, lines 1-338 *)

Module Part000a.

(** part_000:245-282, [bot.command('broadcast', ...)] *)
Definition command_broadcast (env : Env) (h : Handles) (ctx : Ctx) : M unit :=
  if negb (isAdmin env ctx) then return_call (reply false only_admins)
  else if negb (usersCollection h) then return_call (reply false no_database)
  else
    let* t := message_text ctx in
    let message0 := broadcast_message t in
    if decide (message0 = EmptyString) then return_call (reply false no_message)
    else try_catch (broadcast_pass message0)
           (fun _ => detached (reply false broadcast_failed)).

Definition command_stats : Env → Handles → Ctx → M unit := personal_stats.

(** part_000:201-224, [bot.command('connect', ...)] *)
Definition command_connect (h : Handles) (ctx : Ctx) : M unit :=
  if negb (linksCollection h) then return_call (reply false database_required)
  else
    let* existingLink := get (fun w => links w !! user_id (from ctx)) in
    match existingLink with
    | Some _ => return_call (reply false "🔗 Your device is already linked!")
    | None =>
        let* linkingCode := linking_code in
        let* _ := store_link (user_id (from ctx)) linkingCode in
        detached (reply true
          ("🔗 Your device linking code is:" +:+ Js.nl +:+ Js.nl +:+
           "*" +:+ linkingCode +:+ "*" +:+ Js.nl +:+ Js.nl +:+
           "Use this code in your app or website to link your device with this bot."))
    end.

(** part_000:6-9 and 315-338: [await bot.launch()] inside [try]; the [catch]
    ends in [process.exit(1)]. *)
Definition boot (env : Env) (n : Network) : Boot :=
  if negb (Js.truthy (BOT_TOKEN env)) then Build_Boot [] (Exit 1)
  else
    let db := connectDB n (MONGO_URL env) in
    let tg := launch n (BOT_TOKEN env) in
    Build_Boot (fst db ++ fst tg) (if snd tg then Serving (snd db) else Exit 1).

(** part_000:148-152 *)
Definition welcome (name : string) : string :=
  "👋 Welcome " +:+ name +:+ "! I'm your personal MD bot for Telegram." +:+ Js.nl +:+ Js.nl +:+
  "Use /help to see all available commands.".

Definition start : Handles → Ctx → M unit := personal_start welcome.

End Part000a.

(** ** The minimal bot of part_002, lines 1-128 *)

Module Part002a.

(** part_002:43-47 *)
Definition on_message : Middleware :=
  fun ctx => if is_command_text ctx then ret Next else ret Next.

(** part_002:84-113, [bot.command('connect', ...)]; the notice for a user
    already linked is returned, not awaited, so the [catch] does not see it
    fail. *)
Definition command_connect (h : Handles) (ctx : Ctx) : M unit :=
  if negb (linksCollection h) then return_call (reply false database_required)
  else
    try_catch
      (let* existing := get (fun w => links w !! user_id (from ctx)) in
       match existing with
       | Some doc =>
           return_call (reply true ("🔗 You are already linked! Your code: *" +:+
                                    code doc +:+ "*"))
       | None =>
           let* linkingCode := linking_code in
           let* _ := store_link (user_id (from ctx)) linkingCode in
           await (reply true
             ("🔗 Your device linking code has been generated:" +:+ Js.nl +:+ Js.nl +:+
              "*" +:+ linkingCode +:+ "*" +:+ Js.nl +:+ Js.nl +:+
              "Use this code in your app or website to link your device with this bot."))
       end)
      (fun _ => detached (reply false "❌ Failed to generate linking code.")).

(** part_002:5-8 and 115-125 *)
Definition boot (env : Env) (n : Network) : Boot :=
  if negb (Js.truthy (BOT_TOKEN env)) then Build_Boot [] (Exit 1)
  else
    let db := connectDB n (MONGO_URL env) in
    let tg := launch n (BOT_TOKEN env) in
    Build_Boot (fst db ++ fst tg) (if snd tg then Serving (snd db) else Idle).

Definition start : Handles → Ctx → M unit := minimal_start.

End Part002a.

(** ** The personal bot of part_002, lines 128-541 *)

Module Part002b.

(** part_002:426-463, [bot.command('broadcast', ...)] *)
Definition command_broadcast (env : Env) (h : Handles) (ctx : Ctx) : M unit :=
  if negb (isAdmin env ctx) then return_call (reply false only_admins)
  else
    let* t := message_text ctx in
    let message0 := broadcast_message t in
    if decide (message0 = EmptyString) then return_call (reply false no_message)
    else try_catch
           (if usersCollection h then broadcast_pass message0
            else detached (reply false no_database))
           (fun _ => detached (reply false broadcast_failed)).

Definition command_stats : Env → Handles → Ctx → M unit := personal_stats.

Definition mongoUri (env : Env) : option string := env_or (MONGO_URL env) (MONGODB_URI env).

(** part_002:336-356, [bot.command('autoreact', ...)].  Asked for the state,
    the handler reads through the handle without a test ([findOne] on
    [undefined] throws) and reads [settings?.autoreact]; asked to switch,
    it writes only when the handle is there. *)
Definition command_autoreact (h : Handles) (ctx : Ctx) : M unit :=
  let* t := message_text ctx in
  let args := Js.split " " t in
  if bool_decide (length args < 2)%nat then
    let* found := if settingsCollection h then get (fun w => settings w !! "global")
                  else throw TypeError in
    return_call (reply false
      ("Auto-reactions are currently " +:+
       on_off (from_option autoreact false found) +:+
       ". Use /autoreact on or /autoreact off"))
  else
    let state := Js.toLowerCase (default EmptyString (args !! 1%nat)) in
    if bool_decide (state ≠ "on" ∧ state ≠ "off") then
      return_call (reply false specify_on_off)
    else
      let* _ := if settingsCollection h then update_autoreact (bool_decide (state = "on"))
                else ret tt in
      detached (reply false ("✅ Auto-reactions have been turned " +:+
                             Js.toUpperCase state +:+ ".")).

(** The handlers in the order of their registration, part_002:225-515.
    [body] stands for the handlers no property below reads: start, help,
    schedule, font, tts, ping and session. *)
Definition bot (body : string → Ctx → M unit) (env : Env) (h : Handles) : list Middleware :=
  [ on_message h;
    command "start" (body "start");
    command "help" (body "help");
    command "autoreact" (command_autoreact h);
    command "schedule" (body "schedule");
    command "font" (body "font");
    command "tts" (body "tts");
    command "broadcast" (command_broadcast env h);
    command "ping" (body "ping");
    command "stats" (command_stats env h);
    command "session" (body "session") ].

(** part_002:133-136 and 519-542 *)
Definition boot (env : Env) (n : Network) : Boot :=
  if negb (Js.truthy (BOT_TOKEN env)) then Build_Boot [] (Exit 1)
  else
    let db := connectDB n (mongoUri env) in
    let tg := launch n (BOT_TOKEN env) in
    Build_Boot (fst db ++ fst tg) (if snd tg then Serving (snd db) else Exit 1).

(** part_002:275-286 *)
Definition welcome (name : string) : string :=
  "👋 Welcome " +:+ name +:+ "! I'm your personal MD bot for Telegram." +:+ Js.nl +:+ Js.nl +:+
  "I can help you automate tasks, manage messages, and more!" +:+ Js.nl +:+ Js.nl +:+
  "🔧 *Available Features:*" +:+ Js.nl +:+
  "• Auto-reply to messages" +:+ Js.nl +:+
  "• Auto-reactions to posts" +:+ Js.nl +:+
  "• Message scheduling" +:+ Js.nl +:+
  "• Chat management" +:+ Js.nl +:+
  "• And much more!" +:+ Js.nl +:+ Js.nl +:+
  "Use /help to see all available commands.".

Definition start : Handles → Ctx → M unit := personal_start welcome.

(** A timer registered with [setTimeout]: the delay asked for in
    milliseconds ([None] is [NaN]) and what runs when it fires. *)
Record Timer := { delay : option Z; fires : M unit }.

(** part_002:368-377: the unit is the last character of the word, the
    number is whatever [parseInt] reads at its start. *)
Definition schedule_delay (time : string) : option (option Z) :=
  if Js.endsWith "s" time then Some (n ← Js.parseIntOf time; Some (n * 1000))
  else if Js.endsWith "m" time then Some (n ← Js.parseIntOf time; Some (n * 60 * 1000))
  else if Js.endsWith "h" time then Some (n ← Js.parseIntOf time; Some (n * 60 * 60 * 1000))
  else None.

Definition schedule_usage : string :=
  "Please specify time and message. Usage: /schedule 5m Hello world!".
Definition schedule_units : string :=
  "Please specify time with unit (s, m, h). Example: 5m, 1h, 30s".

(** part_002:359-388, [bot.command('schedule', ...)]; the handler gives back
    the timer it has registered, if any. *)
Definition command_schedule (ctx : Ctx) : M (option Timer) :=
  let* t := message_text ctx in
  let args := Js.split " " t in
  if bool_decide (length args < 3)%nat then
    let* _ := return_call (reply false schedule_usage) in ret None
  else
    let time := default EmptyString (args !! 1%nat) in
    let message0 := Js.join " " (drop 2 args) in
    match schedule_delay time with
    | None => let* _ := return_call (reply false schedule_units) in ret None
    | Some milliseconds =>
        let* _ := detached (reply false ("✅ Message scheduled to be sent in " +:+ time +:+ ".")) in
        ret (Some (Build_Timer milliseconds
                     (try_catch (await (reply false ("⏰ Scheduled message: " +:+ message0)))
                        (fun _ => ret tt))))
    end.

(** The commands of part_002:254-515 with their handlers, in the order of
    their registration. *)
Definition commands (body : string → Ctx → M unit) (env : Env) (h : Handles)
    : list (string * (Ctx → M unit)) :=
  [ ("start", body "start");
    ("help", body "help");
    ("autoreact", command_autoreact h);
    ("schedule", body "schedule");
    ("font", body "font");
    ("tts", body "tts");
    ("broadcast", command_broadcast env h);
    ("ping", body "ping");
    ("stats", command_stats env h);
    ("session", body "session") ].

End Part002b.

(** ** The group bot of part_000, lines 339-719 *)

Module Part000b.

Definition is_unit (c : ascii) : bool :=
  bool_decide (c = "m"%char ∨ c = "h"%char ∨ c = "d"%char).

(** [text.match(/(\d+)(m|h|d)/)], the two groups of the leftmost match.
    A match can only start at the first digit of a run of digits, and the
    greedy [\d+] takes the whole run: the scan keeps the run read so far in
    [run] and succeeds at the first run that a unit letter follows. *)
Fixpoint match_duration (run s : string) : option (string * ascii) :=
  match s with
  | EmptyString => None
  | String c s' =>
      if Js.is_digit c then match_duration (run +:+ String c EmptyString) s'
      else if (negb (bool_decide (run = EmptyString)) && is_unit c)%bool then Some (run, c)
      else match_duration EmptyString s'
  end.

(** part_000:509-518 *)
Definition muteTime (timeMatch : option (string * ascii)) : Z :=
  match timeMatch with
  | Some (digits, unit) =>
      let value := Js.parseInt digits in
      if decide (unit = "m"%char) then value
      else if decide (unit = "h"%char) then value * 60
      else if decide (unit = "d"%char) then value * 60 * 24
      else 60
  | None => 60
  end.

(** [repliedUser.username || repliedUser.first_name] *)
Definition display_name (u : User) : string :=
  match username u with
  | Some (String c n) => String c n
  | _ => first_name u
  end.

(** part_000:502-534, [bot.command('mute', ...)] *)
Definition command_mute (ctx : Ctx) : M unit :=
  match reply_to_message (message ctx) with
  | None => return_call (reply false "Please reply to a user to mute them.")
  | Some repliedUser =>
      let* t := message_text ctx in
      let timeMatch := match_duration EmptyString t in
      let minutes := muteTime timeMatch in
      try_catch
        (let* ms := get now in
         let untilDate := ms / 1000 + minutes * 60 in
         let* _ := await (restrictChatMember (chat_id ctx) (user_id repliedUser)
                            (Some untilDate) false) in
         detached (reply true ("🔇 User @" +:+ display_name repliedUser +:+
                               " has been muted for " +:+ Js.toString minutes +:+
                               " minutes.")))
        (fun _ => detached (reply false "❌ I need admin permissions to mute users."))
  end.

(** part_000:379-382: [process.env.ADMINS.split(',')] with no test that the
    variable is set; a method call on [undefined] throws. *)
Definition isAdmin (env : Env) (ctx : Ctx) : M bool :=
  match ADMINS env with
  | Some list =>
      ret (bool_decide (Js.toString (user_id (from ctx)) ∈ Js.split "," list))
  | None => throw TypeError
  end.

(** part_000:463-497, [bot.command('broadcast', ...)] *)
Definition command_broadcast (env : Env) (h : Handles) (ctx : Ctx) : M unit :=
  let* admin := isAdmin env ctx in
  if negb admin then return_call (reply false only_admins)
  else
    let* t := message_text ctx in
    let message0 := broadcast_message t in
    if decide (message0 = EmptyString) then return_call (reply false no_message)
    else try_catch
           (if usersCollection h then broadcast_pass message0 else throw TypeError)
           (fun _ => detached (reply false broadcast_failed)).

(** [settingsCollection.findOne({ _id: 'global' })] through a handle that is
    never tested. *)
Definition find_settings (h : Handles) : M (option Settings) :=
  if settingsCollection h then get (fun w => settings w !! "global") else throw TypeError.

(** part_000:562-580, [bot.command('autoreact', ...)] *)
Definition command_autoreact (h : Handles) (ctx : Ctx) : M unit :=
  let* t := message_text ctx in
  let args := Js.split " " t in
  if bool_decide (length args < 2)%nat then
    let* found := find_settings h in
    match found with
    | Some s =>
        return_call (reply false ("Autoreact is currently " +:+ on_off (autoreact s) +:+
                                  ". Use /autoreact on or /autoreact off"))
    | None => throw TypeError
    end
  else
    let state := Js.toLowerCase (default EmptyString (args !! 1%nat)) in
    if bool_decide (state ≠ "on" ∧ state ≠ "off") then
      return_call (reply false specify_on_off)
    else
      let* _ := if settingsCollection h then update_autoreact (bool_decide (state = "on"))
                else throw TypeError in
      detached (reply false ("✅ Autoreact has been turned " +:+
                             Js.toUpperCase state +:+ ".")).

(** part_000:608-627, [bot.on('message', ...)]: no test for a command, no
    [next()]. *)
Definition on_message (h : Handles) : Middleware :=
  fun ctx =>
    let* _ :=
      try_catch
        (let* found := find_settings h in
         match found with
         | Some s =>
             if autoreact s && has_text ctx then
               let* randomEmoji := pick_emoji s in
               try_catch (await (react randomEmoji)) (fun _ => ret tt)
             else ret tt
         | None => throw TypeError
         end)
        (fun _ => ret tt) in
    ret Stop.

(** part_000:668-679 *)
Definition statsText (userCount groupCount : string) (up : Z) (s : Settings) : string :=
  Js.nl +:+ "📊 *BOT STATISTICS*" +:+ Js.nl +:+ Js.nl +:+
  "👥 Users: " +:+ userCount +:+ Js.nl +:+
  "👥 Groups: " +:+ groupCount +:+ Js.nl +:+
  "⚡ Uptime: " +:+ formatUptime up +:+ Js.nl +:+ Js.nl +:+
  "🔧 *SETTINGS STATUS*" +:+ Js.nl +:+
  "Autoreact: " +:+ on_off (autoreact s) +:+ Js.nl +:+
  "Welcome Messages: " +:+ on_off (welcome_message s) +:+ Js.nl +:+
  "Anti-Spam: " +:+ on_off (antispam s) +:+ Js.nl +:+ "  ".

(** part_000:663-682, [bot.command('stats', ...)]: the counts are read
    through the handles without a test and without a [try]. *)
Definition command_stats (h : Handles) (ctx : Ctx) : M unit :=
  let* userCount := if usersCollection h then get (fun w => length (users w))
                    else throw TypeError in
  let* groupCount := if groupsCollection h then get (fun w => length (groups w))
                     else throw TypeError in
  let* found := find_settings h in
  match found with
  | Some s =>
      let* up := get uptime in
      detached (reply true (statsText (Js.toString (Z.of_nat userCount))
                              (Js.toString (Z.of_nat groupCount)) up s))
  | None => throw TypeError
  end.

(** The handlers in the order of their registration, part_000:387-687.
    [body] stands for the handlers no property below reads: start, help,
    unmute, public, new_chat_members and ping. *)
Definition bot (body : string → Ctx → M unit) (env : Env) (h : Handles) : list Middleware :=
  [ command "start" (body "start");
    command "help" (body "help");
    command "broadcast" (command_broadcast env h);
    command "mute" command_mute;
    command "unmute" (body "unmute");
    command "autoreact" (command_autoreact h);
    command "public" (body "public");
    on_message h;
    on_new_chat_members (body "new_chat_members");
    command "stats" (command_stats h);
    command "ping" (body "ping") ].

(** part_000:343-361 and 702-719.  There is no test of the token:
    [new Telegraf(undefined)] only keeps it.  [new MongoClient(...)] without
    a connection string throws while the module loads (drivers before 4.0
    reject in [connect()] instead; nothing is launched either way).  A failed [connect()] is
    caught by [startBot], which logs it and launches nothing.
    [bot.launch().then(...)] is not awaited. *)
Definition boot (env : Env) (n : Network) : Boot :=
  match MONGO_URI env with
  | Some (String c u) =>
      let uri := String c u in
      if mongo_up n uri then
        let tg := launch n (BOT_TOKEN env) in
        Build_Boot (MongoConnect uri :: fst tg)
          (if snd tg then Serving all_handles else Unhandled)
      else Build_Boot [MongoConnect uri] Idle
  | _ => Build_Boot [] (Exit 1)
  end.

(** part_000:537-557, [bot.command('unmute', ...)] *)
Definition command_unmute (ctx : Ctx) : M unit :=
  match reply_to_message (message ctx) with
  | None => return_call (reply false "Please reply to a user to unmute them.")
  | Some repliedUser =>
      try_catch
        (let* _ := await (restrictChatMember (chat_id ctx) (user_id repliedUser) None true) in
         detached (reply true ("🔊 User @" +:+ display_name repliedUser +:+
                               " has been unmuted.")))
        (fun _ => detached (reply false "❌ I need admin permissions to unmute users."))
  end.

End Part000b.

(** ** Vocabulary of the properties *)

(** The restriction calls, the reaction calls and the sends among the calls of
    a trace. *)
Definition is_restriction (c : Call * bool) : bool :=
  match fst c with restrictChatMember _ _ _ _ => true | _ => false end.

Definition is_reaction (c : Call * bool) : bool :=
  match fst c with react _ => true | _ => false end.

Definition is_send (c : Call * bool) : bool :=
  match fst c with sendMessage _ _ => true | _ => false end.

Definition restrictions (tr : list (Call * bool)) : list (Call * bool) :=
  List.filter is_restriction tr.

Definition reactions (tr : list (Call * bool)) : list (Call * bool) :=
  List.filter is_reaction tr.

Definition sends (tr : list (Call * bool)) : list (Call * bool) :=
  List.filter is_send tr.

(** The entries of the comma-separated ADMINS list; none when the variable
    is absent or empty. *)
Definition admin_list (env : Env) : list string :=
  match ADMINS env with
  | Some (String c s) => Js.split "," (String c s)
  | _ => []
  end.

(** A handler invoked once per context, one invocation after the other. *)
Definition invoke_all (handler : Ctx → M unit) (ctxs : list Ctx) (w : World) : World :=
  foldl (fun w ctx => exec (handler ctx) w) w ctxs.

(** A repeated /connect answers with the code in store: its one call is a
    reply whose text holds the code. *)
Definition returns_stored_code (command_connect : Handles → Ctx → M unit) : Prop :=
  ∀ (w : World) (ctx : Ctx) (doc : LinkDoc),
    links w !! user_id (from ctx) = Some doc →
    ∃ md body ok,
      issued w (exec (command_connect all_handles ctx) w) = [(reply md body, ok)]
      ∧ Js.includes (code doc) body = true.

(** The text shows the sentinel for the count under [label]. *)
Definition shows_not_available (label body : string) : bool :=
  Js.includes (label +:+ ": N/A") body.

(** The start-up ended before any connection was attempted, with a status
    that is not zero. *)
Definition exits_before_network (b : Boot) : Prop :=
  net b = [] ∧ ∃ code, outcome b = Exit code ∧ code ≠ 0.

(** A call the platform rejected. *)
Definition failed (c : Call * bool) : bool := negb (snd c).

(** [Number.isSafeInteger]: the integers a JavaScript number holds exactly. *)
Definition safe_integer (n : Z) : Prop := - 2 ^ 53 < n < 2 ^ 53.

(** A digit directly followed by one of the letters m, h, d occurs in [s]:
    the condition under which [/(\d+)(m|h|d)/] matches somewhere in [s]. *)
Fixpoint has_duration (s : string) : bool :=
  match s with
  | String d (String u _ as s') =>
      (Js.is_digit d && Part000b.is_unit u) || has_duration s'
  | _ => false
  end.

Fixpoint all_digits (s : string) : bool :=
  match s with
  | EmptyString => true
  | String c s' => Js.is_digit c && all_digits s'
  end.

Fixpoint ends_in_digit (s : string) : bool :=
  match s with
  | EmptyString => false
  | String c EmptyString => Js.is_digit c
  | String _ s' => ends_in_digit s'
  end.

(** Minutes in a unit of the duration suffix. *)
Definition unit_minutes (u : ascii) : Z :=
  if decide (u = "m"%char) then 1
  else if decide (u = "h"%char) then 60
  else if decide (u = "d"%char) then 1440
  else 0.

(** ** Concrete inputs *)

Definition alice : User := Build_User 1001 (Some "alice") "Alice".
Definition bob : User := Build_User 1002 None "Bob".

Definition plain_ctx (u : User) (t : string) : Ctx :=
  Build_Ctx u (-100500) (Build_Message (Some t) None []) "md_bot".

Definition reply_ctx (u target : User) (t : string) : Ctx :=
  Build_Ctx u (-100500) (Build_Message (Some t) (Some target) []) "md_bot".

Definition default_settings : Settings :=
  Build_Settings true ["👍"; "❤️"; "🔥"] true true.

(** A world whose platform accepts every call. *)
Definition calm_world : World :=
  Build_World [Build_UserDoc 1001 "Alice"; Build_UserDoc 1002 "Bob"; Build_UserDoc 1003 "Carol"]
    [] [] {[ "global" := default_settings ]} ∅ ∅ []
    (fun _ _ => true) (fun _ => 2 ^ 52) 0 1700000000000 93784 "11/2/2026".

(** A configuration with a token, a store and two admins. *)
Definition full_env : Env :=
  Build_Env (Some "123456:token") (Some "mongodb://db.example:27017/bot") None
    (Some "mongodb://db.example:27017/bot") (Some "1001,1002").

(** The same world, on a platform where user 1002 has blocked the bot. *)
Definition blocked_world : World :=
  Build_World (users calm_world) [] [] (settings calm_world) ∅ ∅ []
    (fun _ c => match c with sendMessage 1002 _ => false | _ => true end)
    (fun _ => 2 ^ 52) 0 1700000000000 93784 "11/2/2026".

(** A configuration without the ADMINS variable. *)
Definition no_admins_env : Env :=
  Build_Env (Some "123456:token") (Some "mongodb://db.example:27017/bot") None
    (Some "mongodb://db.example:27017/bot") None.

(** A world in which Alice is linked already. *)
Definition linked_world : World :=
  set_links {[ 1001 := Build_LinkDoc "123456" 1690000000000 ]} calm_world.

(** Stand-ins for the handler bodies that are parameters of the chains. *)
Definition silent : string → Ctx → M unit := fun _ _ => ret tt.

(** A configuration without a token. *)
Definition tokenless_env : Env :=
  Build_Env None (Some "mongodb://db.example:27017/bot") None
    (Some "mongodb://db.example:27017/bot") (Some "1001").

(** A network in which every server answers, and one without the database. *)
Definition online : Network := Build_Network (fun _ => true) (fun _ => true).
Definition database_down : Network := Build_Network (fun _ => false) (fun _ => true).

(** ** Vocabulary of the further properties *)

(** The collections and the chat members are the same in both worlds. *)
Definition same_store (w w' : World) : Prop :=
  users w' = users w ∧ groups w' = groups w ∧ sessions w' = sessions w
  ∧ settings w' = settings w ∧ links w' = links w ∧ muted w' = muted w.

(** The code a first /connect draws in the world [w]. *)
Definition drawn_code (w : World) : Z :=
  Js.round_double (100000 * 2 ^ 53 + Js.round_double (random w (drawn w) * 900000)) / 2 ^ 53.

(** A world whose platform accepts nothing. *)
Definition deaf_world : World :=
  Build_World (users calm_world) [] [] (settings calm_world) ∅ ∅ []
    (fun _ _ => false) (fun _ => 2 ^ 52) 0 1700000000000 93784 "11/2/2026".

Definition is_reply (c : Call * bool) : bool :=
  match fst c with reply _ _ => true | _ => false end.

(** What a broadcast may issue in the world [w]: a reply to the caller, or a
    message to a user of the collection. *)
Definition broadcast_call (w : World) (c : Call * bool) : Prop :=
  is_reply c = true ∨ ∃ u body, u ∈ users w ∧ fst c = sendMessage (_id u) body.

(** Nothing but ASCII white space. *)
Fixpoint all_space (s : string) : bool :=
  match s with
  | EmptyString => true
  | String c s' => Ascii.is_space c && all_space s'
  end.

(** From [w] to [w'] the store is as it was and at most one call was
    issued, a reaction. *)
Definition at_most_a_reaction (w w' : World) : Prop :=
  same_store w w'
  ∧ (length (issued w w') ≤ 1)%nat
  ∧ reactions (issued w w') = issued w w'.

(** The handler registered first under a name. *)
Fixpoint registered (name : string) (table : list (string * (Ctx → M unit)))
    : option (Ctx → M unit) :=
  match table with
  | [] => None
  | (n, handler) :: table' =>
      if decide (n = name) then Some handler else registered name table'
  end.

(** A context in which a user has joined the chat. *)
Definition join_ctx (u : User) : Ctx :=
  Build_Ctx u (-100500) (Build_Message None None [u]) "md_bot".

(** Milliseconds in a unit of /schedule. *)
Definition unit_milliseconds (u : ascii) : Z :=
  if decide (u = "s"%char) then 1000
  else if decide (u = "m"%char) then 60 * 1000
  else if decide (u = "h"%char) then 60 * 60 * 1000
  else 0.

Definition is_schedule_unit (u : ascii) : bool :=
  bool_decide (u = "s"%char ∨ u = "m"%char ∨ u = "h"%char).

(** The multiples of [2 ^ j] below [2 ^ (j + 53)] are doubles. *)
Definition is_double (d j : Z) : Prop := 0 ≤ j ∧ 0 ≤ d < 2 ^ (j + 53) ∧ (2 ^ j | d).

(** A configuration without a connection string. *)
Definition storeless_env : Env :=
  Build_Env (Some "123456:token") None None None (Some "1001,1002").

(** * Properties *)

Example dbName_atlas :
  dbName "mongodb+srv://u:p@c0.mongodb.net/mybot?retryWrites=true&w=majority" = "mybot".
Proof. reflexivity. Qed.

Example dbName_trailing_slash : dbName "mongodb://localhost:27017/" = default_dbName.
Proof. reflexivity. Qed.

Example dbName_only_query : dbName "mongodb://h/?tls=true" = default_dbName.
Proof. reflexivity. Qed.

Example dbName_no_path : dbName "mongodb://localhost:27017" = "localhost:27017".
Proof. reflexivity. Qed.

Example replace_broadcast :
  Js.trim (Js.replace "/broadcast" "" "/broadcast  hello all ") = "hello all".
Proof. reflexivity. Qed.

(** U+00A0, the no-break space, is white space to [trim]; U+200B is not. *)
Example trim_no_break_space :
  broadcast_message ("/broadcast " +:+ String "194" (String "160" EmptyString)) = EmptyString.
Proof. reflexivity. Qed.

Example trim_zero_width_space :
  Js.trim (String "226" (String "128" (String "139" " a ")))
  = String "226" (String "128" (String "139" " a")).
Proof. reflexivity. Qed.

(** The product and the sum of the linking code are rounded: the fraction
    246366915615510 / 2^53 gives 124617, where the exact quotient would
    give 124616. *)
Example round_double_linking_code :
  Js.round_double (100000 * 2 ^ 53 + Js.round_double (246366915615510 * 900000)) / 2 ^ 53
  = 124617
  ∧ 100000 + (246366915615510 * 900000) / 2 ^ 53 = 124616.
Proof. split; reflexivity. Qed.

Example toString_id : Js.toString 5012345678 = "5012345678".
Proof. reflexivity. Qed.

Example parseInt_leading_zero : Js.parseInt "007" = 7.
Proof. reflexivity. Qed.

Example toLowerCase_ON : Js.toLowerCase "ON" = "on".
Proof. reflexivity. Qed.

Example match_duration_minutes :
  Part000b.match_duration EmptyString "/mute 90m" = Some ("90", "m"%char).
Proof. reflexivity. Qed.

Example match_duration_leftmost :
  Part000b.match_duration EmptyString "/mute 5m 2h" = Some ("5", "m"%char).
Proof. reflexivity. Qed.

Example match_duration_inside_word :
  Part000b.match_duration EmptyString "/mute 10minutes" = Some ("10", "m"%char).
Proof. reflexivity. Qed.

Example match_duration_absent :
  Part000b.match_duration EmptyString "/mute 15 spam" = None.
Proof. reflexivity. Qed.

Example muteTime_days : Part000b.muteTime (Some ("2", "d"%char)) = 2880.
Proof. reflexivity. Qed.

Example command_of_ping : command_of "/ping" = Some "ping".
Proof. reflexivity. Qed.

Example command_of_argument : command_of "/autoreact on" = Some "autoreact".
Proof. reflexivity. Qed.

Example command_of_text : command_of "good morning" = None.
Proof. reflexivity. Qed.

Example formatUptime_day : formatUptime 93784 = "1d 2h 3m".
Proof. reflexivity. Qed.

Lemma append_assoc (a b c : string) : (a +:+ b) +:+ c = a +:+ (b +:+ c).
Proof.
  induction a as [|x a IH]; [done|].
  change (String x ((a +:+ b) +:+ c) = String x (a +:+ (b +:+ c))). by rewrite IH.
Qed.

Section split_facts.

Variable sep : ascii.

Lemma split_not_nil s : Js.split sep s ≠ [].
Proof.
  destruct s as [|c s]; simpl; [done|].
  case_decide; [done|]. by destruct (Js.split sep s).
Qed.

(** Without the separator there is one piece, the string itself. *)
Lemma split_absent s : Js.has_char sep s = false → Js.split sep s = [s].
Proof.
  induction s as [|c s IH]; simpl; [done|].
  case_decide; [done|]. intros Hs. by rewrite (IH Hs).
Qed.

(** [(a + sep + b).split(sep)] is [a.split(sep).concat(b.split(sep))]. *)
Lemma split_app a b :
  Js.split sep (a +:+ String sep b) = Js.split sep a ++ Js.split sep b.
Proof.
  induction a as [|c a IH].
  - change (EmptyString +:+ String sep b) with (String sep b). simpl.
    by rewrite decide_True.
  - change (String c a +:+ String sep b) with (String c (a +:+ String sep b)).
    simpl. rewrite IH. case_decide; [done|].
    pose proof (split_not_nil a). by destruct (Js.split sep a).
Qed.

(** The first piece is what stands before the first separator. *)
Lemma split_head_app a b :
  Js.has_char sep a = false →
  head (Js.split sep (a +:+ String sep b)) = Some a.
Proof. intros Ha. by rewrite split_app, (split_absent _ Ha). Qed.

(** The last piece is what stands after the last separator. *)
Lemma split_last_app a b :
  Js.has_char sep b = false →
  last (Js.split sep (a +:+ String sep b)) = Some b.
Proof. intros Hb. by rewrite split_app, (split_absent _ Hb), last_snoc. Qed.

End split_facts.

(** ** The database name *)

(** C10 — the database name is the last [/]-separated piece of the connection
    string ([seg]: the whole string when it has no [/]) up to its first [?]
    ([name]); when that is empty the name is [telegram_md_bot]. *)
Theorem dbName_last_segment (mongoUri pre seg name query : string) :
  (mongoUri = seg ∨ mongoUri = pre +:+ String "/" seg) →
  Js.has_char "/" seg = false →
  (seg = name ∨ seg = name +:+ String "?" query) →
  Js.has_char "?" name = false →
  dbName mongoUri = if decide (name = EmptyString) then "telegram_md_bot" else name.
Proof.
  intros Huri Hseg Hname Hq. unfold dbName, Js.pop.
  assert (last (Js.split "/" mongoUri) = Some seg) as ->.
  { destruct Huri as [->| ->]; [by rewrite (split_absent _ _ Hseg)|].
    by apply split_last_app. }
  assert (head (Js.split "?" seg) = Some name) as ->.
  { destruct Hname as [->| ->]; [by rewrite (split_absent _ _ Hq)|].
    by apply split_head_app. }
  by destruct name.
Qed.

Lemma dbName_last_segment_witness :
  Js.has_char "/" "bot?retryWrites=true" = false
  ∧ Js.has_char "?" "bot" = false
  ∧ dbName "mongodb://db.example:27017/bot?retryWrites=true" = "bot"
  ∧ dbName "mongodb://db.example:27017/?retryWrites=true" = "telegram_md_bot".
Proof.
  split; [reflexivity|]. split; [reflexivity|]. split.
  - apply (dbName_last_segment "mongodb://db.example:27017/bot?retryWrites=true"
             "mongodb://db.example:27017" "bot?retryWrites=true" "bot" "retryWrites=true");
      [by right | reflexivity | by right | reflexivity].
  - apply (dbName_last_segment "mongodb://db.example:27017/?retryWrites=true"
             "mongodb://db.example:27017" "?retryWrites=true" EmptyString "retryWrites=true");
      [by right | reflexivity | by right | reflexivity].
Defined.

(** ** Traces *)

(** A call that is no restriction changes the trace only. *)
Lemma issue_plain c w :
  is_restriction (c, true) = false →
  issue c w = (platform w (trace w) c,
               set_trace (trace w ++ [(c, platform w (trace w) c)]) w).
Proof.
  intros Hc. unfold issue. destruct (platform w (trace w) c); [|done].
  by destruct c.
Qed.

Lemma detached_reply md body w :
  detached (reply md body) w =
    (Ok tt, set_trace (trace w ++ [(reply md body, platform w (trace w) (reply md body))]) w).
Proof. unfold detached, issue. cbn. by destruct (platform w (trace w) _). Qed.

Lemma return_reply md body w :
  return_call (reply md body) w =
    (if platform w (trace w) (reply md body) then Ok tt else Rejected PlatformError,
     set_trace (trace w ++ [(reply md body, platform w (trace w) (reply md body))]) w).
Proof. unfold return_call, issue. cbn. by destruct (platform w (trace w) _). Qed.

(** Runs the plumbing of a handler: binds, reads and writes of the world. *)
Ltac run_monad :=
  cbv beta iota zeta delta
    [bind ret get modify throw try_catch linking_code store_link random_below
     math_random message_text pick_emoji update_autoreact].

(** ** /mute *)

(** C8 — without a message replied to, /mute answers with the usage notice
    and nothing else: no restriction call is issued and no chat member
    changes. *)
Theorem mute_without_reply (ctx : Ctx) (w : World) :
  reply_to_message (message ctx) = None →
  let w' := exec (Part000b.command_mute ctx) w in
  map fst (issued w w') = [reply false "Please reply to a user to mute them."]
  ∧ restrictions (issued w w') = []
  ∧ muted w' = muted w.
Proof.
  intros Hno. unfold exec, Part000b.command_mute. rewrite Hno.
  unfold return_call, issued, issue. cbn.
  destruct (platform w (trace w) _); cbn; by rewrite drop_app_length.
Qed.

Lemma mute_without_reply_witness :
  reply_to_message (message (plain_ctx alice "/mute 5m")) = None
  ∧ restrictions (issued calm_world
       (exec (Part000b.command_mute (plain_ctx alice "/mute 5m")) calm_world)) = [].
Proof.
  split; [reflexivity|].
  apply (mute_without_reply (plain_ctx alice "/mute 5m") calm_world). reflexivity.
Defined.

Section duration_facts.

Import Part000b.

Lemma has_duration_tail c s : has_duration s = true → has_duration (String c s) = true.
Proof.
  intros Hs. destruct s as [|u s]; [done|].
  change (Js.is_digit c && is_unit u || has_duration (String u s) = true).
  by rewrite Hs, orb_true_r.
Qed.

Lemma has_duration_head d u s :
  Js.is_digit d = true → is_unit u = true →
  has_duration (String d (String u s)) = true.
Proof. intros Hd Hu. simpl. by rewrite Hd, Hu. Qed.

(** The scan condition, said with the pieces of the string. *)
Lemma has_duration_spec s :
  has_duration s = true ↔
  ∃ a d u b, s = a +:+ String d (String u b)
             ∧ Js.is_digit d = true ∧ is_unit u = true.
Proof.
  split.
  - induction s as [|c s IH]; [done|]. destruct s as [|u s]; [done|].
    intros Hcs.
    change (Js.is_digit c && is_unit u || has_duration (String u s) = true) in Hcs.
    apply orb_true_iff in Hcs as [[Hd Hu]%andb_true_iff|Hs].
    + by exists EmptyString, c, u, s.
    + destruct (IH Hs) as (a & d & u' & b & Heq & Hd & Hu).
      exists (String c a), d, u', b. split; [|done].
      change (String c (String u s) = String c (a +:+ String d (String u' b))).
      by rewrite Heq.
  - intros (a & d & u & b & -> & Hd & Hu). induction a as [|c a IH].
    + by apply has_duration_head.
    + by apply has_duration_tail.
Qed.

Lemma digit_not_unit c : Js.is_digit c = true → is_unit c = false.
Proof.
  unfold Js.is_digit, is_unit. intros Hd.
  apply bool_decide_eq_true in Hd. apply bool_decide_eq_false.
  intros [->|[->| ->]]; by destruct Hd.
Qed.

Lemma unit_not_digit c : is_unit c = true → Js.is_digit c = false.
Proof.
  intros Hu. destruct (Js.is_digit c) eqn:Hd; [|done].
  by rewrite (digit_not_unit c Hd) in Hu.
Qed.

Lemma append_snoc_not_empty run c : run +:+ String c EmptyString ≠ EmptyString.
Proof. destruct run; cbv; discriminate. Qed.

(** Where no digit is followed by a unit letter the scan finds nothing,
    provided the run in hand is not about to be closed by the next letter. *)
Lemma match_duration_none s : ∀ run,
  has_duration s = false →
  (run = EmptyString ∨ match s with String c _ => is_unit c = false | _ => True end) →
  match_duration run s = None.
Proof.
  induction s as [|c s IH]; intros run Hno Hrun; [done|].
  assert (has_duration s = false) as Hs.
  { destruct (has_duration s) eqn:Hs; [|done].
    by rewrite (has_duration_tail c s Hs) in Hno. }
  simpl. destruct (Js.is_digit c) eqn:Hd.
  - apply IH; [done|]. right.
    destruct s as [|u s]; [done|].
    destruct (is_unit u) eqn:Hu; [|done].
    by rewrite (has_duration_head c u s Hd Hu) in Hno.
  - destruct Hrun as [->|Hc].
    + rewrite bool_decide_eq_true_2 by done. simpl. apply IH; [done|by left].
    + rewrite Hc, andb_false_r. apply IH; [done|by left].
Qed.

(** A stretch without a match that does not end in a digit leaves the scan
    with an empty run. *)
Lemma match_duration_skip pre : ∀ run rest,
  pre ≠ EmptyString → has_duration pre = false → ends_in_digit pre = false →
  (run = EmptyString ∨ match pre with String c _ => is_unit c = false | _ => True end) →
  match_duration run (pre +:+ rest) = match_duration EmptyString rest.
Proof.
  induction pre as [|c pre IH]; intros run rest Hne Hno Hend Hrun; [done|].
  assert (has_duration pre = false) as Hpre.
  { destruct (has_duration pre) eqn:Hs; [|done].
    by rewrite (has_duration_tail c pre Hs) in Hno. }
  change (String c pre +:+ rest) with (String c (pre +:+ rest)). simpl.
  destruct pre as [|c' pre'].
  - simpl in Hend. rewrite Hend. change (EmptyString +:+ rest) with rest.
    destruct Hrun as [->|Hc]; [done|]. by rewrite Hc, andb_false_r.
  - destruct (Js.is_digit c) eqn:Hd.
    + apply IH; [done|done|done|]. right.
      destruct (is_unit c') eqn:Hu; [|done].
      by rewrite (has_duration_head c c' pre' Hd Hu) in Hno.
    + destruct Hrun as [->|Hc].
      * rewrite bool_decide_eq_true_2 by done. simpl. apply IH; [done|done|done|by left].
      * rewrite Hc, andb_false_r. apply IH; [done|done|done|by left].
Qed.

(** A run of digits is read into the run in hand; the unit letter after it
    closes the match. *)
Lemma match_duration_run ds : ∀ run u post,
  all_digits ds = true → ds ≠ EmptyString → is_unit u = true →
  match_duration run (ds +:+ String u post) = Some (run +:+ ds, u).
Proof.
  induction ds as [|c ds IH]; intros run u post Hds Hne Hu; [done|].
  change (String c ds +:+ String u post) with (String c (ds +:+ String u post)).
  simpl in Hds. apply andb_true_iff in Hds as [Hc Hds].
  simpl. rewrite Hc. destruct ds as [|c' ds'].
  - change (EmptyString +:+ String u post) with (String u post). simpl.
    rewrite (unit_not_digit u Hu), Hu.
    by rewrite bool_decide_eq_false_2 by apply append_snoc_not_empty.
  - rewrite IH by done. by rewrite append_assoc.
Qed.

Lemma match_duration_found pre ds u post :
  has_duration pre = false → ends_in_digit pre = false →
  ds ≠ EmptyString → all_digits ds = true → is_unit u = true →
  match_duration EmptyString (pre +:+ ds +:+ String u post) = Some (ds, u).
Proof.
  intros Hpre Hend Hne Hds Hu. destruct pre as [|c pre].
  - change (EmptyString +:+ ds +:+ String u post) with (ds +:+ String u post).
    by rewrite match_duration_run.
  - rewrite match_duration_skip by (done || by left).
    by rewrite match_duration_run.
Qed.

Lemma muteTime_unit ds u :
  is_unit u = true → muteTime (Some (ds, u)) = Js.parseInt ds * unit_minutes u.
Proof.
  unfold is_unit. intros Hu%bool_decide_eq_true.
  unfold muteTime, unit_minutes.
  destruct Hu as [->|[->| ->]]; repeat (case_decide; try done); lia.
Qed.

(** The one restriction call of a /mute that has a message replied to. *)
Lemma command_mute_restriction (ctx : Ctx) (w : World) (target : User) (t : string) :
  reply_to_message (message ctx) = Some target →
  text (message ctx) = Some t →
  let call := restrictChatMember (chat_id ctx) (user_id target)
                (Some (now w / 1000 + muteTime (match_duration EmptyString t) * 60)) false in
  restrictions (issued w (exec (command_mute ctx) w)) = [(call, platform w (trace w) call)].
Proof.
  intros Hto Ht. unfold exec, command_mute, message_text. rewrite Hto, Ht.
  unfold bind, try_catch, ret, get, await, detached, issue, issued. cbn.
  destruct (platform w (trace w) _); cbn;
    rewrite <- !app_assoc, drop_app_length; reflexivity.
Qed.

End duration_facts.

(** C9 — a /mute with a message replied to issues one restriction.  Without a
    digit followed by m, h or d in the text it runs until 3600 seconds after
    the current time.  Otherwise the first run of digits followed by such a
    letter gives N and the unit, and it runs for N, 60 N or 1440 N minutes;
    [pre] is the text before that run.  The last two hypotheses keep the
    numbers where JavaScript computes them exactly. *)
Theorem mute_duration (ctx : Ctx) (w : World) (target : User) (t : string) :
  reply_to_message (message ctx) = Some target →
  text (message ctx) = Some t →
  let w' := exec (Part000b.command_mute ctx) w in
  let applied (seconds : Z) :=
    ∃ ok, restrictions (issued w w') =
            [(restrictChatMember (chat_id ctx) (user_id target)
                (Some (now w / 1000 + seconds)) false, ok)] in
  (has_duration t = false → applied 3600)
  ∧ (∀ pre ds u post,
       t = pre +:+ ds +:+ String u post →
       has_duration pre = false → ends_in_digit pre = false →
       ds ≠ EmptyString → all_digits ds = true → Part000b.is_unit u = true →
       0 ≤ now w →
       safe_integer (now w / 1000 + Js.parseInt ds * unit_minutes u * 60) →
       applied (Js.parseInt ds * unit_minutes u * 60)).
Proof.
  intros Hto Ht w' applied. subst w' applied. split.
  - intros Hno. eexists. rewrite (command_mute_restriction ctx w target t Hto Ht).
    by rewrite match_duration_none by (done || by left).
  - intros pre ds u post -> Hpre Hend Hne Hds Hu _ _. eexists.
    rewrite (command_mute_restriction ctx w target _ Hto Ht).
    by rewrite match_duration_found, muteTime_unit.
Qed.

Lemma mute_duration_witness :
  let ctx := reply_ctx alice bob "/mute 2h spam" in
  ∃ ok, restrictions (issued calm_world (exec (Part000b.command_mute ctx) calm_world)) =
          [(restrictChatMember (-100500) 1002 (Some (1700000000 + 7200)) false, ok)].
Proof.
  pose proof (mute_duration (reply_ctx alice bob "/mute 2h spam") calm_world bob
                "/mute 2h spam" eq_refl eq_refl) as [_ Hfound].
  apply (Hfound "/mute " "2" "h"%char " spam");
    [reflexivity | reflexivity | reflexivity | discriminate | reflexivity | reflexivity
    | vm_compute; discriminate | split; vm_compute; reflexivity].
Defined.


(** ** /broadcast *)

Section broadcast_facts.

Variable message0 : string.

Lemma sends_only_sends (us : list UserDoc) (new : list (Call * bool)) :
  map fst new = map (λ u, sendMessage (_id u) (broadcast_body message0)) us →
  sends new = new.
Proof.
  revert us. induction new as [|[c ok] new IH]; intros [|u us] Hmap; simplify_eq/=; [done|].
  unfold sends in *. simpl. f_equal. by apply (IH us).
Qed.

(** One turn of the loop: the send is issued and one counter goes up. *)
Lemma broadcast_send_run (u : UserDoc) (s f : Z) (w : World) :
  let c := sendMessage (_id u) (broadcast_body message0) in
  let ok := platform w (trace w) c in
  broadcast_send message0 u (s, f) w =
    (Ok (if ok then (s + 1, f) else (s, f + 1)), set_trace (trace w ++ [(c, ok)]) w).
Proof.
  unfold broadcast_send, try_catch, bind, await, issue, ret. cbn.
  by destruct (platform w (trace w) _).
Qed.

(** The loop attempts every user once, in the stored order, whatever the
    outcome of the sends before; each attempt raises one of the counters. *)
Lemma broadcast_loop (us : list UserDoc) : ∀ (w : World) (s f : Z),
  ∃ new : list (Call * bool),
    for_of us (broadcast_send message0) (s, f) w =
      (Ok (s + Z.of_nat (length new) - Z.of_nat (length (List.filter failed new)),
           f + Z.of_nat (length (List.filter failed new))),
       set_trace (trace w ++ new) w)
    ∧ map fst new = map (λ u, sendMessage (_id u) (broadcast_body message0)) us.
Proof.
  induction us as [|u us IH]; intros w s f.
  - exists []. split; [|done]. simpl. unfold ret. f_equal; [f_equal; f_equal; lia|].
    destruct w; unfold set_trace; simpl. by rewrite app_nil_r.
  - change (for_of (u :: us) (broadcast_send message0) (s, f) w)
      with (bind (broadcast_send message0 u (s, f))
              (λ s', for_of us (broadcast_send message0) s') w).
    unfold bind. rewrite broadcast_send_run.
    set (c := sendMessage (_id u) (broadcast_body message0)).
    set (ok := platform w (trace w) c).
    set (w1 := set_trace (trace w ++ [(c, ok)]) w).
    destruct ok eqn:Hok.
    + destruct (IH w1 (s + 1) f) as (new & -> & Hmap).
      exists ((c, true) :: new). split; [|simpl; by rewrite Hmap].
      f_equal; [f_equal; f_equal; unfold failed; cbn [length List.filter snd negb]; lia|].
      unfold w1, set_trace. cbn. by rewrite <- app_assoc.
    + destruct (IH w1 s (f + 1)) as (new & -> & Hmap).
      exists ((c, false) :: new). split; [|simpl; by rewrite Hmap].
      f_equal; [f_equal; f_equal; unfold failed; cbn [length List.filter snd negb]; lia|].
      unfold w1, set_trace. cbn. by rewrite <- app_assoc.
Qed.

(** The whole pass: the notice, the sends, the report. *)
Lemma broadcast_pass_run (w : World) :
  ∃ (new : list (Call * bool)) (ok1 ok2 : bool),
    let k := Z.of_nat (length (List.filter failed new)) in
    let n := Z.of_nat (length (users w)) in
    fst (broadcast_pass message0 w) = Ok tt
    ∧ issued w (exec (broadcast_pass message0) w) =
        (reply false ("📢 Starting broadcast to " +:+ Js.toString n +:+ " users..."), ok1)
        :: new ++ [(reply false (broadcast_report (n - k) k), ok2)]
    ∧ map fst new = map (λ u, sendMessage (_id u) (broadcast_body message0)) (users w).
Proof.
  unfold exec, broadcast_pass, bind, get. rewrite detached_reply.
  set (c1 := reply false _). set (ok1 := platform w (trace w) c1).
  set (w1 := set_trace _ _).
  destruct (broadcast_loop (users w) w1 0 0) as (new & -> & Hmap).
  rewrite detached_reply, !Z.add_0_l.
  assert (length new = length (users w)) as Hlen.
  { by rewrite <- (length_map fst new), Hmap, length_map. }
  exists new, ok1. eexists. split; [done|]. split; [|done].
  unfold issued, w1. cbn. rewrite <- !app_assoc, drop_app_length. cbn.
  by rewrite Hlen.
Qed.

End broadcast_facts.

Lemma try_catch_ok {A} (body : M A) (handler : JsError → M A) (w : World) (a : A) :
  fst (body w) = Ok a → try_catch body handler w = body w.
Proof. unfold try_catch. destruct (body w) as [[] ?]; by intros [= ->]. Qed.

(** An admin by [isAdmin] is one for the unguarded test of part_000:379 too. *)
Lemma isAdmin_unguarded (env : Env) (ctx : Ctx) (w : World) :
  isAdmin env ctx = true → Part000b.isAdmin env ctx w = (Ok true, w).
Proof.
  unfold isAdmin, Part000b.isAdmin, Js.truthy.
  destruct (ADMINS env) as [[|c s]|]; cbn [default from_option id].
  - intros Hin%bool_decide_eq_true. by apply elem_of_nil in Hin.
  - intros Hin. unfold ret. by rewrite Hin.
  - intros Hin%bool_decide_eq_true. by apply elem_of_nil in Hin.
Qed.

(** What a pass leaves in the trace, read back. *)
Lemma broadcast_pass_outcome (message0 : string) (w : World) :
  let w' := exec (broadcast_pass message0) w in
  let attempts := sends (issued w w') in
  let n := Z.of_nat (length (users w)) in
  let k := Z.of_nat (length (List.filter failed attempts)) in
  fst (broadcast_pass message0 w) = Ok tt
  ∧ map fst attempts = map (λ u, sendMessage (_id u) (broadcast_body message0)) (users w)
  ∧ last (map fst (issued w w')) = Some (reply false (broadcast_report (n - k) k)).
Proof.
  destruct (broadcast_pass_run message0 w) as (new & ok1 & ok2 & Hok & Hissued & Hmap).
  cbn zeta in *. rewrite Hissued.
  assert (sends ((reply false ("📢 Starting broadcast to " +:+
                    Js.toString (Z.of_nat (length (users w))) +:+ " users..."), ok1)
                 :: new ++ [(reply false (broadcast_report
                     (Z.of_nat (length (users w)) - Z.of_nat (length (List.filter failed new)))
                     (Z.of_nat (length (List.filter failed new)))), ok2)]) = new) as ->.
  { unfold sends. cbn. rewrite List.filter_app. cbn. rewrite app_nil_r.
    by apply (sends_only_sends message0 (users w)). }
  split; [done|]. split; [done|].
  cbn [map]. rewrite List.map_app. cbn [map fst]. by rewrite app_comm_cons, last_snoc.
Qed.

(** C1 — in all three variants of /broadcast, once the caller is an admin,
    the users collection is there and the message is not empty: every stored
    user gets one send attempt with the message under its heading, in the
    stored order, whether or not earlier sends failed; with N users and K
    failed sends the handler ends normally and its last call is the report
    [Broadcast completed!] with [Success: N-K] and [Failed: K]. *)
Theorem broadcast_isolates_failures
    (env : Env) (h : Handles) (ctx : Ctx) (w : World) (t : string)
    (handler : Env → Handles → Ctx → M unit) :
  handler = Part000a.command_broadcast ∨ handler = Part002b.command_broadcast
    ∨ handler = Part000b.command_broadcast →
  isAdmin env ctx = true →
  usersCollection h = true →
  text (message ctx) = Some t →
  broadcast_message t ≠ EmptyString →
  let w' := exec (handler env h ctx) w in
  let attempts := sends (issued w w') in
  let n := Z.of_nat (length (users w)) in
  let k := Z.of_nat (length (List.filter failed attempts)) in
  fst (handler env h ctx w) = Ok tt
  ∧ map fst attempts =
      map (λ u, sendMessage (_id u)
                  ("📢 *BROADCAST FROM ADMIN:*" +:+ Js.nl +:+ Js.nl +:+ broadcast_message t))
        (users w)
  ∧ last (map fst (issued w w'))
    = Some (reply false ("✅ Broadcast completed!" +:+ Js.nl +:+
                         "Success: " +:+ Js.toString (n - k) +:+ Js.nl +:+
                         "Failed: " +:+ Js.toString k)).
Proof.
  intros Hh Hadmin Hstore Ht Hmsg.
  pose proof (broadcast_pass_outcome (broadcast_message t) w) as Hpass.
  assert (handler env h ctx w = broadcast_pass (broadcast_message t) w) as Hrun.
  { destruct Hpass as (Hok & _).
    destruct Hh as [->|[->| ->]].
    - unfold Part000a.command_broadcast, message_text.
      rewrite Hadmin, Hstore, Ht. cbn [negb]. unfold bind at 1, ret.
      rewrite decide_False by done. by apply try_catch_ok with tt.
    - unfold Part002b.command_broadcast, message_text.
      rewrite Hadmin, Hstore, Ht. cbn [negb]. unfold bind at 1, ret.
      rewrite decide_False by done. by apply try_catch_ok with tt.
    - unfold Part000b.command_broadcast, message_text. unfold bind at 1.
      rewrite (isAdmin_unguarded env ctx w Hadmin), Hstore, Ht. cbn [negb].
      unfold bind at 1, ret.
      rewrite decide_False by done. by apply try_catch_ok with tt. }
  unfold exec. rewrite Hrun. exact Hpass.
Qed.

Lemma broadcast_isolates_failures_witness :
  let ctx := plain_ctx alice "/broadcast hello" in
  let w' := exec (Part000a.command_broadcast full_env all_handles ctx) blocked_world in
  sends (issued blocked_world w') =
    [(sendMessage 1001 ("📢 *BROADCAST FROM ADMIN:*" +:+ Js.nl +:+ Js.nl +:+ "hello"), true);
     (sendMessage 1002 ("📢 *BROADCAST FROM ADMIN:*" +:+ Js.nl +:+ Js.nl +:+ "hello"), false);
     (sendMessage 1003 ("📢 *BROADCAST FROM ADMIN:*" +:+ Js.nl +:+ Js.nl +:+ "hello"), true)]
  ∧ last (map fst (issued blocked_world w'))
    = Some (reply false ("✅ Broadcast completed!" +:+ Js.nl +:+
                         "Success: 2" +:+ Js.nl +:+ "Failed: 1")).
Proof.
  destruct (broadcast_isolates_failures full_env all_handles
              (plain_ctx alice "/broadcast hello") blocked_world "/broadcast hello"
              Part000a.command_broadcast (or_introl eq_refl) eq_refl eq_refl eq_refl
              ltac:(discriminate)) as (_ & _ & Hreport).
  split; [vm_compute; reflexivity | exact Hreport].
Defined.

(** ** The admin test of /broadcast *)

Lemma isAdmin_admin_list (env : Env) (ctx : Ctx) :
  isAdmin env ctx = bool_decide (Js.toString (user_id (from ctx)) ∈ admin_list env).
Proof. unfold isAdmin, admin_list, Js.truthy. by destruct (ADMINS env) as [[|c s]|]. Qed.

(** In the variants with the guarded [isAdmin], a caller whose id is not in
    the list gets the refusal and nothing is sent; an absent list has no
    entry, so this is every caller. *)
Lemma broadcast_refuses_others (env : Env) (h : Handles) (ctx : Ctx) (w : World)
    (handler : Env → Handles → Ctx → M unit) :
  handler = Part000a.command_broadcast ∨ handler = Part002b.command_broadcast →
  Js.toString (user_id (from ctx)) ∉ admin_list env →
  let ok := platform w (trace w) (reply false only_admins) in
  handler env h ctx w =
    (if ok then Ok tt else Rejected PlatformError,
     set_trace (trace w ++ [(reply false only_admins, ok)]) w).
Proof.
  intros Hh Hout. assert (isAdmin env ctx = false) as Hadmin.
  { rewrite isAdmin_admin_list. by apply bool_decide_eq_false. }
  destruct Hh as [->| ->].
  - unfold Part000a.command_broadcast. rewrite Hadmin. apply return_reply.
  - unfold Part002b.command_broadcast. rewrite Hadmin. apply return_reply.
Qed.

(** X1 — in the variants with the guarded [isAdmin] (part_000:245 and
    part_002:426), when ADMINS is absent every /broadcast, whoever sends it,
    gets the refusal as its only call and nothing is sent. *)
Lemma broadcast_refuses_all_without_list (env : Env) (h : Handles) (ctx : Ctx) (w : World)
    (handler : Env → Handles → Ctx → M unit) :
  handler = Part000a.command_broadcast ∨ handler = Part002b.command_broadcast →
  ADMINS env = None →
  let w' := exec (handler env h ctx) w in
  map fst (issued w w') = [reply false only_admins] ∧ sends (issued w w') = [].
Proof.
  intros Hh Hnone. unfold exec.
  rewrite (broadcast_refuses_others env h ctx w handler Hh).
  - unfold issued. cbn. by rewrite drop_app_length.
  - unfold admin_list. rewrite Hnone. apply not_elem_of_nil.
Qed.

Lemma broadcast_refuses_all_without_list_witness :
  let ctx := plain_ctx alice "/broadcast hi" in
  let w' := exec (Part002b.command_broadcast no_admins_env all_handles ctx) calm_world in
  map fst (issued calm_world w') = [reply false only_admins]
  ∧ sends (issued calm_world w') = [].
Proof.
  apply (broadcast_refuses_all_without_list no_admins_env all_handles
           (plain_ctx alice "/broadcast hi") calm_world Part002b.command_broadcast).
  - by right.
  - reflexivity.
Defined.

(** The unguarded [isAdmin] of part_000:379 without the variable: the handler
    ends in a [TypeError] before it replies or sends. *)
Lemma broadcast_unguarded_throws (env : Env) (h : Handles) (ctx : Ctx) (w : World) :
  ADMINS env = None →
  Part000b.command_broadcast env h ctx w = (Throw TypeError, w).
Proof.
  intros Hnone. unfold Part000b.command_broadcast, Part000b.isAdmin, bind.
  by rewrite Hnone.
Qed.

(** C6 — part_000:463 with ADMINS absent, on the message [/broadcast hi] of
    user 1001: [isAdmin] throws a [TypeError]; the handler issues no call at
    all, neither the refusal nor a send, and ends with the error. *)
Theorem broadcast_absent_admins_throws :
  Part000b.command_broadcast no_admins_env all_handles
    (plain_ctx alice "/broadcast hi") calm_world = (Throw TypeError, calm_world).
Proof. by apply broadcast_unguarded_throws. Qed.

(** ** Doubles *)

Lemma round_double_small (m : Z) : Z.log2 m ≤ 52 → Js.round_double m = m.
Proof.
  intros Hm. unfold Js.round_double.
  by rewrite (proj2 (Z.leb_le (Z.log2 m - 52) 0)) by lia.
Qed.

(** Past 53 bits the rounded number is one of the two multiples of the unit
    in the last place around [m], the nearer one. *)
Lemma round_double_cases (m : Z) :
  52 < Z.log2 m →
  ∃ ulp q r,
    ulp = 2 ^ (Z.log2 m - 52) ∧ q = m / ulp
    ∧ 0 < ulp ∧ m = q * ulp + r ∧ 0 ≤ r < ulp ∧ 2 ^ 52 * ulp ≤ m < 2 ^ 53 * ulp
    ∧ ((Js.round_double m = q * ulp ∧ 2 * r ≤ ulp)
       ∨ (Js.round_double m = (q + 1) * ulp ∧ ulp ≤ 2 * r)).
Proof.
  intros Hm. set (ulp := 2 ^ (Z.log2 m - 52)). set (q := m / ulp). set (r := m mod ulp).
  exists ulp, q, r. split; [done|]. split; [done|].
  assert (0 < ulp) as Hulp by (apply Z.pow_pos_nonneg; lia).
  assert (0 < m) as Hpos by (destruct m; cbn in Hm; lia).
  pose proof (Z.log2_spec m Hpos) as [Hlo Hhi].
  split; [done|]. split; [unfold q, r; rewrite Z.mul_comm; apply Z.div_mod; lia|].
  split; [apply Z.mod_pos_bound; lia|]. split.
  - unfold ulp. rewrite <- !Z.pow_add_r by lia.
    replace (52 + (Z.log2 m - 52)) with (Z.log2 m) by lia.
    replace (53 + (Z.log2 m - 52)) with (Z.succ (Z.log2 m)) by lia. done.
  - unfold Js.round_double.
    rewrite (proj2 (Z.leb_gt (Z.log2 m - 52) 0)) by lia.
    fold ulp. fold q. fold r.
    destruct (ulp <? 2 * r) eqn:Hlt; cbn [orb].
    + right. apply Z.ltb_lt in Hlt. split; [done|lia].
    + apply Z.ltb_ge in Hlt. destruct (ulp =? 2 * r) eqn:Heq; cbn [andb].
      * apply Z.eqb_eq in Heq. destruct (Z.odd q); [right|left]; split; (done || lia).
      * left. split; [done|lia].
Qed.

Lemma unit_divides (m d j : Z) :
  52 < Z.log2 m → is_double d j → m ≤ d → (2 ^ (Z.log2 m - 52) | d).
Proof.
  intros Hm (Hj & [Hd0 Hd] & Hdiv) Hle.
  destruct (round_double_cases m Hm) as (ulp & q & r & -> & _ & Hulp & _ & _ & [Hlo _] & _).
  assert (Z.log2 m - 52 ≤ j) as Hsh.
  { assert (2 ^ (Z.log2 m) < 2 ^ (j + 53)) as Hpow.
    { replace (Z.log2 m) with (52 + (Z.log2 m - 52)) at 1 by lia.
      rewrite Z.pow_add_r by lia. lia. }
    apply Z.pow_lt_mono_r_iff in Hpow; lia. }
  etrans; [|exact Hdiv].
  exists (2 ^ (j - (Z.log2 m - 52))). rewrite <- Z.pow_add_r by lia. f_equal. lia.
Qed.

(** Rounding does not pass a double. *)
Lemma round_double_le (m d j : Z) :
  is_double d j → m ≤ d → Js.round_double m ≤ d.
Proof.
  intros Hd Hle. destruct (Z_le_gt_dec (Z.log2 m) 52) as [Hm|Hm].
  { by rewrite round_double_small. }
  assert (52 < Z.log2 m) as Hm' by lia.
  destruct (unit_divides m d j Hm' Hd Hle) as [c Hc].
  destruct (round_double_cases m Hm')
    as (ulp & q & r & Hu & _ & Hulp & Hdiv & Hr & _ & [[-> _]|[-> Hup]]);
    rewrite <- Hu in Hc.
  - lia.
  - assert (q < c) by nia. nia.
Qed.

Lemma round_double_ge (m d j : Z) :
  is_double d j → d ≤ m → d ≤ Js.round_double m.
Proof.
  intros Hd Hle. destruct (Z_le_gt_dec (Z.log2 m) 52) as [Hm|Hm].
  { by rewrite round_double_small. }
  assert (52 < Z.log2 m) as Hm' by lia.
  destruct (round_double_cases m Hm')
    as (ulp & q & r & Hu & Hq & Hulp & Hdiv & Hr & [Hlo _] & [[-> _]|[-> _]]);
    [|nia].
  destruct Hd as (Hj & [Hd0 Hd] & [c Hc]).
  destruct (Z_le_gt_dec (Z.log2 m - 52) j) as [Hsh|Hsh].
  - assert (2 ^ j = 2 ^ (j - (Z.log2 m - 52)) * ulp) as Hpow.
    { rewrite Hu, <- Z.pow_add_r by lia. f_equal. lia. }
    assert (d = c * 2 ^ (j - (Z.log2 m - 52)) * ulp) as Hd' by (rewrite Hc, Hpow; ring).
    generalize dependent (c * 2 ^ (j - (Z.log2 m - 52))). intros K HK.
    assert (K ≤ q) by nia. nia.
  - assert (2 ^ (j + 53) ≤ 2 ^ 52 * ulp) as Hpow.
    { rewrite Hu, <- Z.pow_add_r by lia. apply Z.pow_le_mono_r; lia. }
    generalize dependent (2 ^ 52). intros B HB Hpow.
    assert (B ≤ q) by nia. nia.
Qed.

(** Within half a unit above a double of full width, rounding gives it. *)
Lemma round_double_near (m d j : Z) :
  is_double d j → 0 < j → 2 ^ (j + 52) ≤ d → d ≤ m → 2 * (m - d) < 2 ^ j →
  Js.round_double m = d.
Proof.
  intros (Hj & [Hd0 Hd] & [c Hc]) Hj' Hfull Hle Hnear.
  assert (0 < 2 ^ j) as Hpos by (apply Z.pow_pos_nonneg; lia).
  assert (2 ^ (j + 53) = 2 ^ 53 * 2 ^ j) as Htop by (rewrite <- Z.pow_add_r by lia; f_equal; lia).
  assert (2 ^ (j + 52) = 2 ^ 52 * 2 ^ j) as Hbot by (rewrite <- Z.pow_add_r by lia; f_equal; lia).
  assert (Z.log2 m = j + 52) as Hlog.
  { apply Z.log2_unique; [lia|]. replace (Z.succ (j + 52)) with (j + 53) by lia.
    split; [lia|]. rewrite Htop.
    assert (c < 2 ^ 53) as Hc53.
    { apply (Z.mul_lt_mono_pos_r (2 ^ j)); [done|]. lia. }
    assert ((c + 1) * 2 ^ j ≤ 2 ^ 53 * 2 ^ j) by (apply Z.mul_le_mono_nonneg_r; lia).
    lia. }
  assert (52 < Z.log2 m) as Hm by lia.
  destruct (round_double_cases m Hm) as (ulp & q & r & Hu & Hq & Hulp & Hdiv & Hr & _ & Hcases).
  replace (Z.log2 m - 52) with j in Hu by lia. subst ulp.
  assert (q = c) as ->.
  { rewrite Hq. symmetry. apply (Z.div_unique_pos m (2 ^ j) c (m - d)); lia. }
  destruct Hcases as [[-> _]|[_ Hup]]; lia.
Qed.

Lemma round_double_nonneg (m : Z) : 0 ≤ m → 0 ≤ Js.round_double m.
Proof.
  intros Hm. apply (round_double_ge m 0 0); [|done].
  split; [done|]. split; [done|]. apply Z.divide_0_r.
Qed.

(** [Math.floor(Math.random() * n)] is an index below [n]. *)
Lemma round_double_index (k n : Z) :
  0 ≤ k < 2 ^ 53 → 0 < n → 0 ≤ Js.round_double (k * n) / 2 ^ 53 < n.
Proof.
  intros Hk Hn. split.
  { apply Z.div_pos; [apply round_double_nonneg; nia|done]. }
  apply Z.div_lt_upper_bound; [done|].
  destruct (Z_le_gt_dec (Z.log2 (k * n)) 52) as [Hm|Hm].
  { rewrite round_double_small by done. nia. }
  assert (52 < Z.log2 (k * n)) as Hm' by lia.
  destruct (round_double_cases (k * n) Hm')
    as (ulp & q & r & _ & _ & Hulp & Hdiv & Hr & [Hlo _] & Hcases).
  assert (k * n ≤ (2 ^ 53 - 1) * n) as Hmax by nia.
  assert (ulp < 2 * n) as Hunit by lia.
  destruct Hcases as [[-> _]|[-> Hup]]; lia.
Qed.

(** [Math.floor(100000 + Math.random() * 900000)] has six digits. *)
Lemma round_double_code (k : Z) :
  0 ≤ k < 2 ^ 53 →
  100000 ≤ Js.round_double (100000 * 2 ^ 53 + Js.round_double (k * 900000)) / 2 ^ 53 ≤ 999999.
Proof.
  intros Hk.
  assert (is_double (900000 * 2 ^ 53 - 2 ^ 20) 20) as Hd2.
  { split; [done|]. split; [done|]. by exists (900000 * 2 ^ 33 - 1). }
  assert (is_double (100000 * 2 ^ 53) 17) as Hd1.
  { split; [done|]. split; [done|]. by exists (100000 * 2 ^ 36). }
  assert (is_double (1000000 * 2 ^ 53 - 2 ^ 20) 20) as Hd3.
  { split; [done|]. split; [done|]. by exists (1000000 * 2 ^ 33 - 1). }
  assert (0 ≤ Js.round_double (k * 900000) ≤ 900000 * 2 ^ 53 - 2 ^ 20) as Hp.
  { split; [apply round_double_nonneg; lia|].
    destruct (Z_le_gt_dec (k * 900000) (900000 * 2 ^ 53 - 2 ^ 20)) as [Hle|Hgt].
    - by apply (round_double_le _ _ 20).
    - rewrite (round_double_near _ _ 20 Hd2); [done|done|done|lia|lia]. }
  set (p := Js.round_double (k * 900000)) in *.
  split.
  - apply Z.div_le_lower_bound; [done|].
    apply (round_double_ge _ _ 17 Hd1). lia.
  - assert (Js.round_double (100000 * 2 ^ 53 + p) ≤ 1000000 * 2 ^ 53 - 2 ^ 20) as Hs.
    { apply (round_double_le _ _ 20 Hd3). lia. }
    assert (Js.round_double (100000 * 2 ^ 53 + p) / 2 ^ 53 < 1000000); [|lia].
    apply Z.div_lt_upper_bound; [done|]. lia.
Qed.

(** ** /connect *)

(** The linking code is a number of six digits. *)
Lemma linking_code_six_digits (w : World) :
  0 ≤ random w (drawn w) < 2 ^ 53 →
  ∃ n, 100000 ≤ n ≤ 999999 ∧ fst (linking_code w) = Ok (Js.toString n).
Proof.
  intros Hk. eexists. split; [|reflexivity]. by apply round_double_code.
Qed.

Section connect_facts.

Variables (h : Handles) (ctx : Ctx).
Hypothesis store : linksCollection h = true.

Let uid := user_id (from ctx).

(** A repeated /connect in part_000 changes nothing but the trace. *)
Lemma connect_repeat_000 (w : World) (doc : LinkDoc) :
  links w !! uid = Some doc →
  let notice := reply false "🔗 Your device is already linked!" in
  let ok := platform w (trace w) notice in
  Part000a.command_connect h ctx w =
    (if ok then Ok tt else Rejected PlatformError,
     set_trace (trace w ++ [(notice, ok)]) w).
Proof.
  intros Hdoc. unfold Part000a.command_connect. rewrite store. cbn [negb].
  unfold bind at 1, get. fold uid. rewrite Hdoc. apply return_reply.
Qed.

(** A repeated /connect in part_002 changes nothing but the trace, and
    answers with the code in store. *)
Lemma connect_repeat_002 (w : World) (doc : LinkDoc) :
  links w !! uid = Some doc →
  let notice := reply true ("🔗 You are already linked! Your code: *" +:+ code doc +:+ "*") in
  let ok := platform w (trace w) notice in
  Part002a.command_connect h ctx w =
    (if ok then Ok tt else Rejected PlatformError,
     set_trace (trace w ++ [(notice, ok)]) w).
Proof.
  intros Hdoc. unfold Part002a.command_connect. rewrite store. cbn [negb].
  unfold try_catch, bind at 1, get. fold uid. rewrite Hdoc, return_reply.
  by destruct (platform w (trace w) _).
Qed.

(** After a /connect the caller has a link. *)
Lemma connect_links (handler : Handles → Ctx → M unit) (w : World) :
  handler = Part000a.command_connect ∨ handler = Part002a.command_connect →
  is_Some (links (exec (handler h ctx) w) !! uid).
Proof.
  intros Hh. destruct (links w !! uid) as [doc|] eqn:Hdoc.
  - destruct Hh as [->| ->]; unfold exec.
    + by rewrite (connect_repeat_000 w doc Hdoc).
    + by rewrite (connect_repeat_002 w doc Hdoc).
  - destruct Hh as [->| ->]; unfold exec.
    + unfold Part000a.command_connect. rewrite store. cbn [negb].
      unfold bind at 1, get. fold uid. rewrite Hdoc.
      run_monad. rewrite detached_reply. cbn. fold uid. by rewrite lookup_insert_eq.
    + unfold Part002a.command_connect. rewrite store. cbn [negb].
      unfold try_catch, bind at 1, get. fold uid. rewrite Hdoc.
      run_monad. unfold await. rewrite issue_plain by done.
      destruct (platform _ _ _); [|rewrite detached_reply]; cbn; fold uid;
        by rewrite lookup_insert_eq.
Qed.

End connect_facts.

Lemma startsWith_app (p s : string) : Js.startsWith p (p +:+ s) = true.
Proof.
  induction p as [|c p IH]; [done|].
  change (String c p +:+ s) with (String c (p +:+ s)). simpl. by rewrite decide_True.
Qed.

Lemma includes_prefix (needle hay : string) :
  Js.startsWith needle hay = true → Js.includes needle hay = true.
Proof. intros Hp. destruct hay; simpl; by rewrite Hp. Qed.

Lemma includes_app (needle pre post : string) :
  Js.includes needle (pre +:+ needle +:+ post) = true.
Proof.
  induction pre as [|c pre IH].
  - change (EmptyString +:+ needle +:+ post) with (needle +:+ post).
    apply includes_prefix, startsWith_app.
  - change (String c pre +:+ needle +:+ post) with (String c (pre +:+ needle +:+ post)).
    cbn [Js.includes]. rewrite IH. by destruct (Js.startsWith _ _).
Qed.

(** Later invocations by a linked user leave the collection as it is and
    add one notice each. *)
Lemma connect_later (handler : Handles → Ctx → M unit) (notice : LinkDoc → Call)
    (h : Handles) (uid : Z) (doc : LinkDoc) (later : list Ctx) :
  (handler = Part000a.command_connect
   ∧ notice = (λ _, reply false "🔗 Your device is already linked!"))
  ∨ (handler = Part002a.command_connect
     ∧ notice = (λ doc, reply true ("🔗 You are already linked! Your code: *" +:+
                                     code doc +:+ "*"))) →
  linksCollection h = true →
  Forall (λ c, user_id (from c) = uid) later →
  ∀ w, links w !! uid = Some doc →
    links (invoke_all (handler h) later w) = links w
    ∧ ∃ new, trace (invoke_all (handler h) later w) = trace w ++ new
             ∧ map fst new = replicate (length later) (notice doc).
Proof.
  intros Hh Hstore Hlater. induction Hlater as [|c later Hc _ IH]; intros w Hdoc.
  - split; [done|]. exists []. by rewrite app_nil_r.
  - assert (∃ ok, exec (handler h c) w = set_trace (trace w ++ [(notice doc, ok)]) w)
      as [ok Hstep].
    { rewrite <- Hc in Hdoc. unfold exec.
      destruct Hh as [[-> ->]|[-> ->]]; eexists.
      - by rewrite (connect_repeat_000 h c Hstore w doc Hdoc).
      - by rewrite (connect_repeat_002 h c Hstore w doc Hdoc). }
    change (invoke_all (handler h) (c :: later) w)
      with (invoke_all (handler h) later (exec (handler h c) w)).
    rewrite Hstep. destruct (IH (set_trace (trace w ++ [(notice doc, ok)]) w)) as (Hl & new & Htr & Hn).
    { done. }
    split; [by rewrite Hl|]. exists ((notice doc, ok) :: new).
    split; [rewrite Htr; cbn; by rewrite <- app_assoc|cbn; by rewrite Hn].
Qed.

(** C2 (amended) — with the links collection there, the code that stands
    for a user after their first /connect is the code after any number of
    further /connect of that user, in part_000 and in part_002: none of them
    writes to the collection.  Each of them issues one notice: in part_002 it
    holds the code in store, in part_000 it only says that the device is
    linked already. *)
Theorem connect_keeps_code (handler : Handles → Ctx → M unit) (notice : LinkDoc → Call)
    (h : Handles) (ctx : Ctx) (later : list Ctx) (w : World) :
  (handler = Part000a.command_connect
   ∧ notice = (λ _, reply false "🔗 Your device is already linked!"))
  ∨ (handler = Part002a.command_connect
     ∧ notice = (λ doc, reply true ("🔗 You are already linked! Your code: *" +:+
                                     code doc +:+ "*"))) →
  linksCollection h = true →
  Forall (λ c, user_id (from c) = user_id (from ctx)) later →
  let w1 := exec (handler h ctx) w in
  let w2 := invoke_all (handler h) later w1 in
  ∃ doc, links w1 !! user_id (from ctx) = Some doc
         ∧ links w2 = links w1
         ∧ map fst (issued w1 w2) = replicate (length later) (notice doc).
Proof.
  intros Hh Hstore Hlater w1 w2.
  assert (is_Some (links w1 !! user_id (from ctx))) as [doc Hdoc].
  { apply connect_links; [done|]. destruct Hh as [[-> _]|[-> _]]; auto. }
  exists doc. split; [done|].
  destruct (connect_later handler notice h _ doc later Hh Hstore Hlater w1 Hdoc)
    as (Hlinks & new & Htrace & Hnew).
  split; [done|]. subst w2. unfold issued. by rewrite Htrace, drop_app_length.
Qed.

Lemma connect_keeps_code_witness :
  let w1 := exec (Part002a.command_connect all_handles (plain_ctx alice "/connect")) calm_world in
  let w2 := invoke_all (Part002a.command_connect all_handles)
              [plain_ctx alice "/connect"; plain_ctx alice "/connect"] w1 in
  ∃ doc, links w1 !! 1001 = Some doc
         ∧ links w2 = links w1
         ∧ map fst (issued w1 w2) =
             replicate 2 (reply true ("🔗 You are already linked! Your code: *" +:+
                                      code doc +:+ "*")).
Proof.
  apply (connect_keeps_code Part002a.command_connect
           (λ doc, reply true ("🔗 You are already linked! Your code: *" +:+ code doc +:+ "*"))
           all_handles (plain_ctx alice "/connect")
           [plain_ctx alice "/connect"; plain_ctx alice "/connect"] calm_world).
  - right. split; reflexivity.
  - reflexivity.
  - repeat constructor.
Defined.

(** The notice of part_002 holds the code in store. *)
Lemma connect_002_returns_stored_code : returns_stored_code Part002a.command_connect.
Proof.
  intros w ctx doc Hdoc. unfold exec.
  rewrite (connect_repeat_002 all_handles ctx eq_refl w doc Hdoc).
  eexists _, _, _. split.
  - unfold issued. cbn. by rewrite drop_app_length.
  - apply includes_app.
Qed.

(** C2 (as stated) fails in part_000: Alice, linked with the code 123456,
    sends /connect again and is told [Your device is already linked!]; the
    code is not in the reply. *)
Lemma connect_000_hides_stored_code :
  issued linked_world
    (exec (Part000a.command_connect all_handles (plain_ctx alice "/connect")) linked_world)
  = [(reply false "🔗 Your device is already linked!", true)]
  ∧ Js.includes "123456" "🔗 Your device is already linked!" = false
  ∧ ¬ returns_stored_code Part000a.command_connect.
Proof.
  split; [by vm_compute|]. split; [by vm_compute|].
  intros Hret.
  destruct (Hret linked_world (plain_ctx alice "/connect")
              (Build_LinkDoc "123456" 1690000000000) eq_refl)
    as (md & body & ok & Hissued & Hcode).
  vm_compute in Hissued. injection Hissued as _ <- _.
  vm_compute in Hcode. discriminate.
Qed.

(** ** The chain *)

Lemma handleUpdate_next (m : Middleware) chain ctx w w' :
  m ctx w = (Ok Next, w') →
  handleUpdate (m :: chain) ctx w = handleUpdate chain ctx w'.
Proof. intros Hm. cbn [handleUpdate]. unfold bind at 1. by rewrite Hm. Qed.

Lemma handleUpdate_stop (m : Middleware) chain ctx w w' :
  m ctx w = (Ok Stop, w') →
  handleUpdate (m :: chain) ctx w = (Ok tt, w').
Proof. intros Hm. cbn [handleUpdate]. unfold bind at 1. by rewrite Hm. Qed.

Section chain_facts.

Variables (ctx : Ctx) (t : string).
Hypothesis Htext : text (message ctx) = Some t.

Lemma update_command_text :
  update_command ctx = (if for_another_bot ctx t then None else command_of t).
Proof. unfold update_command. by rewrite Htext. Qed.

Lemma handleUpdate_miss name handler chain w :
  command_of t ≠ Some name →
  handleUpdate (command name handler :: chain) ctx w = handleUpdate chain ctx w.
Proof.
  intros Hmiss. cbn [handleUpdate]. unfold bind at 1, command.
  rewrite bool_decide_eq_false_2; [done|].
  rewrite update_command_text. by destruct (for_another_bot ctx t).
Qed.

(** A command with no bot named after it is for this bot. *)
Lemma handleUpdate_hit name handler chain w :
  command_of t = Some name →
  addressee t = EmptyString →
  handleUpdate (command name handler :: chain) ctx w = handler ctx w.
Proof.
  intros Hhit Hto. cbn [handleUpdate]. unfold bind, command.
  rewrite bool_decide_eq_true_2
    by (rewrite update_command_text; unfold for_another_bot; by rewrite Hto).
  unfold bind, ret. by destruct (handler ctx w) as [[[]| |] ?].
Qed.

(** A text that opens with [/] passes the first handler of part_000:100 and
    part_002:225 untouched. *)
Lemma on_message_passes_commands h w :
  t ≠ EmptyString → Js.startsWith "/" t = true → on_message h ctx w = (Ok Next, w).
Proof.
  intros Hne Hslash. unfold on_message, is_command_text, has_text.
  rewrite Htext. cbn [default from_option id]. rewrite Hslash.
  by destruct t.
Qed.

Lemma command_of_plain : Js.startsWith "/" t = false → command_of t = None.
Proof.
  destruct t as [|c s]; [done|]. simpl. case_decide as Hc; [done|]. intros _.
  unfold command_of.
  by destruct c as [[] [] [] [] [] [] [] []].
Qed.

End chain_facts.

(** ** Auto-reactions *)

(** [Math.floor(Math.random() * n)] stays below [n]. *)
Lemma random_index_in_range (k : Z) (emojis : list string) :
  0 ≤ k < 2 ^ 53 → emojis ≠ [] →
  ∃ e, emojis !! Z.to_nat (Js.round_double (k * Z.of_nat (length emojis)) / 2 ^ 53) = Some e
       ∧ e ∈ emojis.
Proof.
  intros Hk Hne.
  assert (0 < Z.of_nat (length emojis)) as Hlen by (destruct emojis; [done|simpl; lia]).
  pose proof (round_double_index k (Z.of_nat (length emojis)) Hk Hlen) as Hi.
  destruct (lookup_lt_is_Some_2 emojis
              (Z.to_nat (Js.round_double (k * Z.of_nat (length emojis)) / 2 ^ 53)))
    as [e He]; [lia|].
  exists e. split; [done|]. by apply list_elem_of_lookup_2 in He.
Qed.

Section on_message_facts.

Variables (h : Handles) (ctx : Ctx) (t : string).
Hypothesis Htext : text (message ctx) = Some t.
Hypothesis Hsome : t ≠ EmptyString.
Hypothesis Hplain : Js.startsWith "/" t = false.

Lemma plain_not_command : is_command_text ctx = false.
Proof.
  unfold is_command_text. rewrite Htext. cbn [default from_option id].
  by rewrite Hplain, andb_false_r.
Qed.

Lemma plain_has_text : has_text ctx = true.
Proof. unfold has_text. rewrite Htext. by destruct t. Qed.

(** With the settings at hand and auto-reactions on, a plain text gets one
    reaction, with the emoji the random index selects. *)
Lemma on_message_reacts (w : World) (s : Settings) :
  settingsCollection h = true →
  settings w !! "global" = Some s →
  autoreact s = true →
  let i := Z.to_nat (Js.round_double (random w (drawn w) *
                                        Z.of_nat (length (autoreact_emojis s))) / 2 ^ 53) in
  let c := react (autoreact_emojis s !! i) in
  let w0 := set_drawn (S (drawn w)) w in
  on_message h ctx w =
    (Ok Next, set_trace (trace w ++ [(c, platform w (trace w) c)]) w0).
Proof.
  intros Hstore Hs Hon. unfold on_message.
  rewrite plain_not_command, Hstore, plain_has_text. run_monad.
  rewrite Hs, Hon. cbn [andb]. unfold await. rewrite issue_plain by done.
  cbn. by destruct (platform w (trace w) _).
Qed.

(** Without the handle, without the document or with auto-reactions off, a
    plain text gets no call at all. *)
Lemma on_message_quiet (w : World) :
  settingsCollection h = false
  ∨ settings w !! "global" = None
  ∨ (∃ s, settings w !! "global" = Some s ∧ autoreact s = false) →
  on_message h ctx w = (Ok Next, w).
Proof.
  intros Hquiet. unfold on_message. rewrite plain_not_command. run_monad.
  destruct (settingsCollection h); [|done].
  destruct Hquiet as [?|[Hnone|(s & Hs & Hoff)]]; [done| |].
  - by rewrite Hnone.
  - by rewrite Hs, Hoff.
Qed.

(** A plain text runs through the first handler of part_002 and through
    nothing else. *)
Lemma bot_002_plain body env (w : World) :
  exec (handleUpdate (Part002b.bot body env h) ctx) w = exec (on_message h ctx) w.
Proof.
  assert (∃ w', on_message h ctx w = (Ok Next, w')) as [w' Hrun].
  { unfold on_message. rewrite plain_not_command. run_monad.
    destruct (settingsCollection h); [|by eexists].
    destruct (settings w !! "global") as [s|]; [|by eexists].
    destruct (autoreact s && has_text ctx); [|by eexists].
    unfold await. rewrite issue_plain by done.
    destruct (platform _ _ _); by eexists. }
  unfold exec, Part002b.bot. rewrite (handleUpdate_next _ _ ctx w w' Hrun), Hrun.
  pose proof (command_of_plain ctx t Htext Hplain) as Hnone.
  rewrite !(handleUpdate_miss ctx t Htext) by (rewrite Hnone; discriminate).
  done.
Qed.

End on_message_facts.

Section autoreact_facts.

Variables (h : Handles) (ctx : Ctx) (b : bool).
Hypothesis Htext :
  text (message ctx) = Some (if b then "/autoreact on" else "/autoreact off").

(** /autoreact on and /autoreact off in part_002: the flag of the settings
    document is written when the handle is there; the reply is sent either
    way. *)
Lemma command_autoreact_002 (w : World) :
  let c := reply false (if b then "✅ Auto-reactions have been turned ON."
                        else "✅ Auto-reactions have been turned OFF.") in
  let w0 := if settingsCollection h
            then set_settings (alter (set_autoreact b) "global" (settings w)) w
            else w in
  Part002b.command_autoreact h ctx w =
    (Ok tt, set_trace (trace w ++ [(c, platform w (trace w) c)]) w0).
Proof.
  unfold Part002b.command_autoreact. run_monad. rewrite Htext.
  destruct b.
  - change (Js.split " " "/autoreact on") with ["/autoreact"; "on"].
    rewrite bool_decide_eq_false_2 by (cbn; lia).
    change (Js.toLowerCase (default EmptyString (["/autoreact"; "on"] !! 1%nat)))
      with "on".
    rewrite bool_decide_eq_false_2 by (by intros [? _]).
    rewrite bool_decide_eq_true_2 by done.
    destruct (settingsCollection h); by rewrite detached_reply.
  - change (Js.split " " "/autoreact off") with ["/autoreact"; "off"].
    rewrite bool_decide_eq_false_2 by (cbn; lia).
    change (Js.toLowerCase (default EmptyString (["/autoreact"; "off"] !! 1%nat)))
      with "off".
    rewrite bool_decide_eq_false_2 by (by intros [_ ?]).
    rewrite bool_decide_eq_false_2 by done.
    destruct (settingsCollection h); by rewrite detached_reply.
Qed.

(** The chain of part_002 takes the command to its handler. *)
Lemma bot_002_autoreact body env (w : World) :
  handleUpdate (Part002b.bot body env h) ctx w = Part002b.command_autoreact h ctx w.
Proof.
  unfold Part002b.bot.
  rewrite (handleUpdate_next _ _ ctx w w)
    by (apply (on_message_passes_commands ctx _ Htext); by destruct b).
  rewrite !(handleUpdate_miss ctx _ Htext) by (by destruct b).
  by rewrite (handleUpdate_hit ctx _ Htext) by (by destruct b).
Qed.

End autoreact_facts.

(** [initSettings] leaves a settings document with three emojis behind when
    the handle is there and the collection was empty: the hypotheses of the
    statement below hold from the start of a fresh store. *)
Lemma initSettings_fresh (h : Handles) (w : World) :
  settingsCollection h = true → settings w !! "global" = None →
  settings (exec (initSettings h) w) !! "global" = Some personal_defaults.
Proof.
  intros Hstore Hnone. unfold exec, initSettings. rewrite Hstore. cbn [negb]. run_monad.
  rewrite Hnone. cbn. by rewrite lookup_insert_eq.
Qed.

(** C3 (amended) — in part_002, with the settings collection there, the
    settings document in it and its emoji list not empty: a plain text
    handled right after [/autoreact off] gets no call at all, and a plain text
    handled right after [/autoreact on] gets exactly one call, a reaction
    with an emoji of the list.  The handler reads the document at each
    message. *)
Theorem autoreact_toggle_next_message
    (body : string → Ctx → M unit) (env : Env) (h : Handles)
    (command plain : Ctx) (t : string) (s : Settings) (w : World) (b : bool) :
  settingsCollection h = true →
  settings w !! "global" = Some s →
  autoreact_emojis s ≠ [] →
  (∀ n, 0 ≤ random w n < 2 ^ 53) →
  text (message command) = Some (if b then "/autoreact on" else "/autoreact off") →
  text (message plain) = Some t →
  t ≠ EmptyString →
  Js.startsWith "/" t = false →
  let w1 := exec (handleUpdate (Part002b.bot body env h) command) w in
  let w2 := exec (handleUpdate (Part002b.bot body env h) plain) w1 in
  if b then ∃ e ok, e ∈ autoreact_emojis s ∧ issued w1 w2 = [(react (Some e), ok)]
  else issued w1 w2 = [].
Proof.
  intros Hstore Hs Hne Hrand Hcmd Hplain Hsome Hnoslash w1 w2.
  assert (w1 = set_trace (trace w1)
                 (set_settings (<["global" := set_autoreact b s]> (settings w)) w)) as Hw1.
  { unfold w1, exec. rewrite (bot_002_autoreact h command b Hcmd).
    rewrite (command_autoreact_002 h command b Hcmd), Hstore. cbn.
    unfold set_trace, set_settings. cbn. f_equal.
    apply map_eq. intros k. rewrite lookup_alter, lookup_insert.
    case_decide; subst; by rewrite ?Hs. }
  assert (settings w1 !! "global" = Some (set_autoreact b s)) as Hs1.
  { rewrite Hw1. cbn. by rewrite lookup_insert_eq. }
  unfold w2. rewrite (bot_002_plain h plain t Hplain Hnoslash).
  destruct b; unfold exec at 1.
  - rewrite (on_message_reacts h plain t Hplain Hsome Hnoslash w1 _ Hstore Hs1 eq_refl).
    cbn [set_autoreact autoreact_emojis].
    destruct (random_index_in_range (random w1 (drawn w1)) (autoreact_emojis s))
      as (e & He & Hin); [|done|].
    { rewrite Hw1. cbn. apply Hrand. }
    exists e. eexists. split; [done|]. rewrite He.
    unfold issued. cbn. by rewrite drop_app_length.
  - rewrite (on_message_quiet h plain t Hplain Hnoslash w1).
    + unfold issued. by rewrite drop_all.
    + right. right. by exists (set_autoreact false s).
Qed.

Lemma autoreact_toggle_next_message_witness :
  let bot := Part002b.bot silent full_env all_handles in
  let w1 := exec (handleUpdate bot (plain_ctx alice "/autoreact on")) calm_world in
  let w2 := exec (handleUpdate bot (plain_ctx bob "good morning")) w1 in
  ∃ e ok, e ∈ ["👍"; "❤️"; "🔥"] ∧ issued w1 w2 = [(react (Some e), ok)].
Proof.
  apply (autoreact_toggle_next_message silent full_env all_handles
           (plain_ctx alice "/autoreact on") (plain_ctx bob "good morning")
           "good morning" default_settings calm_world true).
  - reflexivity.
  - reflexivity.
  - discriminate.
  - intros n. cbn. lia.
  - reflexivity.
  - reflexivity.
  - discriminate.
  - reflexivity.
Defined.

(** Without the settings handle /autoreact answers and writes nothing, and
    plain texts get no reaction, whatever was asked for. *)
Lemma autoreact_without_store (body : string → Ctx → M unit) (env : Env) (h : Handles)
    (command plain : Ctx) (t : string) (w : World) (b : bool) :
  settingsCollection h = false →
  text (message command) = Some (if b then "/autoreact on" else "/autoreact off") →
  text (message plain) = Some t →
  Js.startsWith "/" t = false →
  let w1 := exec (handleUpdate (Part002b.bot body env h) command) w in
  let w2 := exec (handleUpdate (Part002b.bot body env h) plain) w1 in
  issued w1 w2 = [].
Proof.
  intros Hstore Hcmd Hplain Hnoslash w1 w2.
  unfold w2. rewrite (bot_002_plain h plain t Hplain Hnoslash). unfold exec at 1.
  rewrite (on_message_quiet h plain t Hplain Hnoslash w1) by (by left).
  unfold issued. by rewrite drop_all.
Qed.

(** C3 (as stated) fails in part_002 when the store is not connected: the
    bot answers [/autoreact on] with [Auto-reactions have been turned ON.] and
    the plain text that follows gets no reaction. *)
Lemma autoreact_on_without_store_no_reaction :
  let bot := Part002b.bot silent full_env no_handles in
  let w1 := exec (handleUpdate bot (plain_ctx alice "/autoreact on")) calm_world in
  let w2 := exec (handleUpdate bot (plain_ctx bob "good morning")) w1 in
  map fst (issued calm_world w1) = [reply false "✅ Auto-reactions have been turned ON."]
  ∧ reactions (issued w1 w2) = []
  ∧ ¬ ∃ e ok, issued w1 w2 = [(react (Some e), ok)].
Proof.
  cbn zeta. split; [by vm_compute|].
  rewrite (autoreact_without_store silent full_env no_handles
             (plain_ctx alice "/autoreact on") (plain_ctx bob "good morning")
             "good morning" calm_world true) by reflexivity.
  split; [done|]. by intros (e & ok & ?).
Qed.

(** ** Commands and the passive handler *)

(** In part_001 and in the first variant of part_002 the handler of every
    message issues no call, command or not. *)
Lemma on_message_minimal (ctx : Ctx) (w : World) :
  Part001.on_message ctx w = (Ok Next, w) ∧ Part002a.on_message ctx w = (Ok Next, w).
Proof.
  unfold Part001.on_message, Part002a.on_message. by destruct (is_command_text ctx).
Qed.

(** X2 — in the first variant of part_000 and the second of part_002 a text
    that opens with [/] passes the handler of every message without a call:
    the world is left as it was and the chain goes on. *)
Lemma commands_bypass_on_message (h : Handles) (ctx : Ctx) (t : string) (w : World) :
  text (message ctx) = Some t → Js.startsWith "/" t = true →
  on_message h ctx w = (Ok Next, w) ∧ reactions (issued w (exec (on_message h ctx) w)) = [].
Proof.
  intros Htext Hslash.
  assert (on_message h ctx w = (Ok Next, w)) as Hrun.
  { apply (on_message_passes_commands ctx t Htext); [|done]. by destruct t. }
  split; [done|]. unfold exec, issued. rewrite Hrun. cbn. by rewrite drop_all.
Qed.

Lemma commands_bypass_on_message_witness :
  on_message all_handles (plain_ctx alice "/ping") calm_world = (Ok Next, calm_world)
  ∧ reactions (issued calm_world
                 (exec (on_message all_handles (plain_ctx alice "/ping")) calm_world)) = [].
Proof.
  apply (commands_bypass_on_message all_handles (plain_ctx alice "/ping") "/ping" calm_world);
    reflexivity.
Defined.

(** The handler of every message of part_000:608 reacts to whatever text
    reaches it, once the settings say so; it has no test for a command. *)
Lemma on_message_000b_reacts (h : Handles) (ctx : Ctx) (w : World) (s : Settings) :
  settingsCollection h = true →
  settings w !! "global" = Some s →
  autoreact s = true →
  has_text ctx = true →
  let i := Z.to_nat (Js.round_double (random w (drawn w) *
                                        Z.of_nat (length (autoreact_emojis s))) / 2 ^ 53) in
  let c := react (autoreact_emojis s !! i) in
  Part000b.on_message h ctx w =
    (Ok Stop, set_trace (trace w ++ [(c, platform w (trace w) c)]) (set_drawn (S (drawn w)) w)).
Proof.
  intros Hstore Hs Hon Htext. unfold Part000b.on_message, Part000b.find_settings.
  rewrite Hstore, Htext. run_monad. rewrite Hs, Hon. cbn [andb].
  unfold await. rewrite issue_plain by done. cbn.
  by destruct (platform w (trace w) _).
Qed.

(** C7 — second variant of part_000, auto-reactions on, user 1001 sends
    [/ping]: no command registered before the handler of every message is
    called ping, so the text reaches that handler, which reacts to it and
    calls no [next()].  The one call issued for the message is a reaction;
    the ping handler, registered after it, never runs. *)
Theorem command_gets_reaction_000b (body : string → Ctx → M unit) :
  let bot := Part000b.bot body full_env all_handles in
  let w' := exec (handleUpdate bot (plain_ctx alice "/ping")) calm_world in
  issued calm_world w' = [(react (Some "❤️"), true)].
Proof.
  cbn zeta. unfold exec, Part000b.bot.
  rewrite !(handleUpdate_miss (plain_ctx alice "/ping") "/ping" eq_refl) by done.
  erewrite handleUpdate_stop
    by (by apply (on_message_000b_reacts all_handles _ calm_world default_settings)).
  by vm_compute.
Qed.

(** ** /stats without a store *)

Lemma includes_skip (needle pre s : string) :
  Js.includes needle s = true → Js.includes needle (pre +:+ s) = true.
Proof.
  intros Hs. induction pre as [|c pre IH]; [done|].
  change (String c pre +:+ s) with (String c (pre +:+ s)).
  cbn [Js.includes]. rewrite IH. by destruct (Js.startsWith _ _).
Qed.

(** Finds [needle] where the text goes on with a label and a count. *)
Ltac find_label pre needle :=
  match goal with
  | |- Js.includes _ (_ +:+ _ +:+ ?rest) = true =>
      change (Js.includes needle (pre +:+ needle +:+ rest) = true);
      apply includes_app
  end.

(** Without a connection string, or with a server that does not answer,
    [connectDB] leaves every handle undefined. *)
Lemma connectDB_unavailable (n : Network) (mongoUri : option string) :
  store_unavailable n mongoUri → snd (connectDB n mongoUri) = no_handles.
Proof.
  unfold store_unavailable, connectDB. destruct mongoUri as [[|c u]|]; try done.
  by intros ->.
Qed.

Lemma stats_index_not_available (env : Env) (ctx : Ctx) (w : World) :
  let body := IndexJs.statsText env "N/A" "N/A" (uptime w) in
  IndexJs.command_stats env no_handles ctx w =
    (Ok tt, set_trace (trace w ++ [(reply true body, platform w (trace w) (reply true body))]) w)
  ∧ shows_not_available "Users" body = true
  ∧ shows_not_available "Groups" body = true.
Proof.
  split; [|split].
  - unfold IndexJs.command_stats, count_both. cbn [no_handles usersCollection andb].
    run_monad. by rewrite detached_reply.
  - unfold shows_not_available, IndexJs.statsText.
    do 4 apply includes_skip. find_label "👥 " "Users: N/A".
  - unfold shows_not_available, IndexJs.statsText.
    do 7 apply includes_skip. find_label "👥 " "Groups: N/A".
Qed.

Lemma stats_personal_not_available (env : Env) (ctx : Ctx) (w : World) :
  let body := personal_statsText env ctx (locale_date w) "N/A" "N/A" (uptime w) in
  personal_stats env no_handles ctx w =
    (Ok tt, set_trace (trace w ++ [(reply true body, platform w (trace w) (reply true body))]) w)
  ∧ shows_not_available "Total Users" body = true
  ∧ shows_not_available "Active Sessions" body = true.
Proof.
  split; [|split].
  - unfold personal_stats, count_both. cbn [no_handles usersCollection andb].
    run_monad. by rewrite detached_reply.
  - unfold shows_not_available, personal_statsText.
    do 10 apply includes_skip. find_label "👥 " "Total Users: N/A".
  - unfold shows_not_available, personal_statsText.
    do 13 apply includes_skip. find_label "🔗 " "Active Sessions: N/A".
Qed.

(** The /stats of the second variant of part_000 reads the counts through
    the handles as they are: called without them it would end in a
    [TypeError]. *)
Lemma stats_000b_unguarded (ctx : Ctx) (w : World) :
  Part000b.command_stats no_handles ctx w = (Throw TypeError, w).
Proof. reflexivity. Qed.

(** That variant has no fallback and needs none: it launches the bot only
    after [connect()] has succeeded, so without a store no /stats is ever
    handled. *)
Lemma boot_000b_needs_store (env : Env) (n : Network) :
  store_unavailable n (MONGO_URI env) →
  ∀ h, outcome (Part000b.boot env n) ≠ Serving h.
Proof.
  intros Hdown h. unfold Part000b.boot, store_unavailable in *.
  destruct (MONGO_URI env) as [[|c u]|]; [done| |done].
  by rewrite Hdown.
Qed.

(** X28 — when the store is unavailable (no connection string, or a server
    that does not answer), /stats of index.js, of the first variant of
    part_000 and of the second variant of part_002 ends normally, whatever
    the platform does with the reply, and its one call is the statistics
    text with [N/A] for both counts.  The second variant of part_000 never
    serves an update without a store. *)
Theorem stats_not_available_without_store
    (env : Env) (n : Network) (ctx : Ctx) (w : World)
    (stats : Env → Handles → Ctx → M unit) (mongoUri : option string)
    (body first second : string) :
  (stats = IndexJs.command_stats ∧ mongoUri = IndexJs.mongoUri env
   ∧ body = IndexJs.statsText env "N/A" "N/A" (uptime w)
   ∧ first = "Users" ∧ second = "Groups")
  ∨ (stats = Part000a.command_stats ∧ mongoUri = MONGO_URL env
     ∧ body = personal_statsText env ctx (locale_date w) "N/A" "N/A" (uptime w)
     ∧ first = "Total Users" ∧ second = "Active Sessions")
  ∨ (stats = Part002b.command_stats ∧ mongoUri = Part002b.mongoUri env
     ∧ body = personal_statsText env ctx (locale_date w) "N/A" "N/A" (uptime w)
     ∧ first = "Total Users" ∧ second = "Active Sessions") →
  store_unavailable n mongoUri →
  let h := snd (connectDB n mongoUri) in
  let w' := exec (stats env h ctx) w in
  fst (stats env h ctx w) = Ok tt
  ∧ map fst (issued w w') = [reply true body]
  ∧ shows_not_available first body = true
  ∧ shows_not_available second body = true
  ∧ (store_unavailable n (MONGO_URI env) → ∀ h', outcome (Part000b.boot env n) ≠ Serving h').
Proof.
  intros Hvariant Hdown h w'. subst h w'. rewrite (connectDB_unavailable n mongoUri Hdown).
  unfold exec.
  destruct Hvariant as [(-> & _ & -> & -> & ->)|[(-> & _ & -> & -> & ->)|(-> & _ & -> & -> & ->)]].
  - destruct (stats_index_not_available env ctx w) as (-> & Hu & Hg).
    repeat split; try done.
    + unfold issued. cbn. by rewrite drop_app_length.
    + apply boot_000b_needs_store.
  - unfold Part000a.command_stats.
    destruct (stats_personal_not_available env ctx w) as (-> & Hu & Hs).
    repeat split; try done.
    + unfold issued. cbn. by rewrite drop_app_length.
    + apply boot_000b_needs_store.
  - unfold Part002b.command_stats.
    destruct (stats_personal_not_available env ctx w) as (-> & Hu & Hs).
    repeat split; try done.
    + unfold issued. cbn. by rewrite drop_app_length.
    + apply boot_000b_needs_store.
Qed.

Lemma stats_not_available_without_store_witness :
  let ctx := plain_ctx alice "/stats" in
  let h := snd (connectDB database_down (IndexJs.mongoUri full_env)) in
  let body := IndexJs.statsText full_env "N/A" "N/A" 93784 in
  fst (IndexJs.command_stats full_env h ctx blocked_world) = Ok tt
  ∧ map fst (issued blocked_world (exec (IndexJs.command_stats full_env h ctx) blocked_world))
    = [reply true body]
  ∧ shows_not_available "Users" body = true
  ∧ shows_not_available "Groups" body = true.
Proof.
  destruct (stats_not_available_without_store full_env database_down
              (plain_ctx alice "/stats") blocked_world IndexJs.command_stats
              (IndexJs.mongoUri full_env)
              (IndexJs.statsText full_env "N/A" "N/A" 93784) "Users" "Groups")
    as (Hok & Hcalls & Hu & Hg & _).
  - left. repeat split; reflexivity.
  - reflexivity.
  - repeat split; assumption.
Defined.

(** C4 — the /stats of the group bot, part_000:663, has no fallback for a
    store that is unavailable.  Its handler reads the counts through the
    handles as they are: without them it ends in a [TypeError] before any
    call, so no text with [N/A] is sent.  And the process does not get as
    far as serving an update: neither when it is started without MONGO_URI
    nor when the database does not answer. *)
Theorem stats_000b_no_fallback :
  (∀ ctx w, Part000b.command_stats no_handles ctx w = (Throw TypeError, w))
  ∧ (∀ h, outcome (Part000b.boot storeless_env online) ≠ Serving h)
  ∧ (∀ h, outcome (Part000b.boot full_env database_down) ≠ Serving h).
Proof. split; [done|]. split; intros h; by apply boot_000b_needs_store. Qed.

(** ** Start-up without a token *)

(** X3 — started without a token, index.js, part_001, the first variant of
    part_000 and both variants of part_002 exit with status 1 before any
    connection is attempted. *)
Lemma boot_without_token_exits (env : Env) (n : Network) :
  Js.truthy (BOT_TOKEN env) = false →
  exits_before_network (IndexJs.boot env n)
  ∧ exits_before_network (Part001.boot env n)
  ∧ exits_before_network (Part000a.boot env n)
  ∧ exits_before_network (Part002a.boot env n)
  ∧ exits_before_network (Part002b.boot env n).
Proof.
  intros Hno.
  unfold IndexJs.boot, Part001.boot, Part000a.boot, Part002a.boot, Part002b.boot.
  rewrite Hno. cbn [negb]. repeat split; try done; by exists 1.
Qed.

Lemma boot_without_token_exits_witness :
  exits_before_network (IndexJs.boot tokenless_env online)
  ∧ exits_before_network (Part001.boot tokenless_env online)
  ∧ exits_before_network (Part000a.boot tokenless_env online)
  ∧ exits_before_network (Part002a.boot tokenless_env online)
  ∧ exits_before_network (Part002b.boot tokenless_env online).
Proof. apply (boot_without_token_exits tokenless_env online). reflexivity. Defined.

(** The second variant of part_000 has no such test: with a connection
    string it attempts the database connection whatever the token is. *)
Lemma boot_000b_connects_first (env : Env) (n : Network) (c : ascii) (u : string) :
  MONGO_URI env = Some (String c u) →
  head (net (Part000b.boot env n)) = Some (MongoConnect (String c u))
  ∧ ¬ exits_before_network (Part000b.boot env n).
Proof.
  intros Huri. unfold Part000b.boot. rewrite Huri.
  destruct (mongo_up n (String c u)); (split; [done|]); by intros [? _].
Qed.

(** C5 — second variant of part_000, started with BOT_TOKEN unset and
    MONGO_URI set, all servers up: the module has no test of the token; the
    process connects to the database, and only then does [bot.launch()]
    reject for the missing token, a rejection nothing handles. *)
Theorem boot_000b_without_token :
  Part000b.boot tokenless_env online =
    Build_Boot [MongoConnect "mongodb://db.example:27017/bot"] Unhandled
  ∧ ¬ exits_before_network (Part000b.boot tokenless_env online).
Proof. split; [reflexivity|]. by intros [? _]. Qed.

(** * Further properties of the code *)

Example parseIntOf_unit : Js.parseIntOf "15m" = Some 15.
Proof. reflexivity. Qed.

Example parseIntOf_hex : Js.parseIntOf "0x10s" = Some 16.
Proof. reflexivity. Qed.

Example parseIntOf_nan : Js.parseIntOf "soon" = None.
Proof. reflexivity. Qed.

Example join_three : Js.join "," ["1"; "2"; "3"] = "1,2,3".
Proof. reflexivity. Qed.

(** ** Up-time, database name, admin list *)

(** X4 — for an up-time of [s] whole seconds, [s] not negative, the text
    shown is [Dd Hh Mm] with H below 24, M below 60, and D days, H hours and
    M minutes are the up-time but for less than a minute. *)
Theorem formatUptime_parts (s : Z) :
  0 ≤ s →
  ∃ d h m,
    formatUptime s = Js.toString d +:+ "d " +:+ Js.toString h +:+ "h " +:+ Js.toString m +:+ "m"
    ∧ 0 ≤ d ∧ 0 ≤ h < 24 ∧ 0 ≤ m < 60
    ∧ d * 86400 + h * 3600 + m * 60 ≤ s < d * 86400 + h * 3600 + m * 60 + 60.
Proof.
  intros Hs. exists (s / (3600 * 24)), ((s mod (3600 * 24)) / 3600), ((s mod 3600) / 60).
  split; [reflexivity|].
  change (3600 * 24) with 86400.
  repeat split; Z.to_euclidean_division_equations; lia.
Qed.

Lemma formatUptime_parts_witness :
  ∃ d h m,
    formatUptime 93784 = Js.toString d +:+ "d " +:+ Js.toString h +:+ "h " +:+ Js.toString m +:+ "m"
    ∧ 0 ≤ d ∧ 0 ≤ h < 24 ∧ 0 ≤ m < 60
    ∧ d * 86400 + h * 3600 + m * 60 ≤ 93784 < d * 86400 + h * 3600 + m * 60 + 60.
Proof. apply (formatUptime_parts 93784). lia. Defined.

Section split_pieces.

Variables sep c : ascii.

(** No piece of a split holds the separator. *)
Lemma split_pieces_free (s : string) :
  Forall (λ p, Js.has_char sep p = false) (Js.split sep s).
Proof.
  induction s as [|a s IH]; simpl; [by repeat constructor|].
  case_decide as Ha; [by constructor|].
  destruct (Js.split sep s) as [|p ps]; [by repeat constructor; simpl; rewrite decide_False|].
  inversion IH as [|? ? Hp Hps]; subst. constructor; [|done].
  simpl. by rewrite decide_False.
Qed.

(** A character that the string does not hold is in none of its pieces. *)
Lemma split_pieces_without (s : string) :
  Js.has_char c s = false →
  Forall (λ p, Js.has_char c p = false) (Js.split sep s).
Proof.
  induction s as [|a s IH]; simpl; [by repeat constructor|].
  case_decide as Hac; [done|]. intros Hs. specialize (IH Hs).
  case_decide as Ha; [by constructor|].
  destruct (Js.split sep s) as [|p ps]; [by repeat constructor; simpl; rewrite decide_False|].
  inversion IH as [|? ? Hp Hps]; subst. constructor; [|done].
  simpl. by rewrite decide_False.
Qed.

End split_pieces.

(** X5 — whatever the connection string, the database name is not empty and
    holds neither [/] nor [?]. *)
Theorem dbName_well_formed (mongoUri : string) :
  dbName mongoUri ≠ EmptyString
  ∧ Js.has_char "/" (dbName mongoUri) = false
  ∧ Js.has_char "?" (dbName mongoUri) = false.
Proof.
  unfold dbName, Js.pop.
  destruct (last (Js.split "/" mongoUri)) as [seg|] eqn:Hseg; [|done].
  assert (Js.has_char "/" seg = false) as Hslash.
  { apply last_Some_elem_of in Hseg.
    by apply (proj1 (Forall_forall _ _) (split_pieces_free "/" mongoUri)) in Hseg. }
  destruct (head (Js.split "?" seg)) as [name|] eqn:Hname; [|done].
  apply head_Some_elem_of in Hname.
  pose proof (proj1 (Forall_forall _ _) (split_pieces_free "?" seg) _ Hname) as Hq.
  pose proof (proj1 (Forall_forall _ _) (split_pieces_without "?" "/" seg Hslash) _ Hname) as Hs.
  by destruct name.
Qed.

Section join_facts.

Variable sep : ascii.

(** [s.split(sep).join(sep)] is [s]. *)
Lemma join_split (s : string) : Js.join (String sep EmptyString) (Js.split sep s) = s.
Proof.
  induction s as [|a s IH]; [done|]. simpl.
  pose proof (split_not_nil sep s) as Hne.
  case_decide as Ha.
  - subst a. destruct (Js.split sep s) as [|p ps]; [done|].
    change (Js.join (String sep EmptyString) (EmptyString :: p :: ps))
      with (EmptyString +:+ String sep EmptyString +:+ Js.join (String sep EmptyString) (p :: ps)).
    by rewrite IH.
  - destruct (Js.split sep s) as [|p ps]; [done|]. rewrite <- IH.
    by destruct ps.
Qed.

(** [a.join(sep).split(sep)] is [a] when [a] is not empty and no entry holds
    the separator. *)
Lemma split_join (a : list string) :
  a ≠ [] → Forall (λ p, Js.has_char sep p = false) a →
  Js.split sep (Js.join (String sep EmptyString) a) = a.
Proof.
  intros Hne Hfree. induction Hfree as [|p ps Hp Hps IH]; [done|].
  destruct ps as [|q ps]; [by apply split_absent|].
  change (Js.join (String sep EmptyString) (p :: q :: ps))
    with (p +:+ String sep EmptyString +:+ Js.join (String sep EmptyString) (q :: ps)).
  change (String sep EmptyString +:+ Js.join (String sep EmptyString) (q :: ps))
    with (String sep (Js.join (String sep EmptyString) (q :: ps))).
  rewrite split_app, (split_absent _ _ Hp), IH by done. done.
Qed.

End join_facts.

Lemma join_not_empty (sep : string) (a : list string) :
  a ≠ [] → Forall (λ p, p ≠ EmptyString) a → Js.join sep a ≠ EmptyString.
Proof.
  intros Hne Hall. destruct Hall as [|p ps Hp Hps]; [done|].
  destruct p as [|x p]; [done|]. by destruct ps.
Qed.

(** X6 — when ADMINS is the entries joined by commas (some entry, none empty,
    none with a comma in it), the admins are exactly the users whose id,
    written in decimal, is one of the entries: nothing is trimmed and nothing
    is matched in part.  The unguarded test of the second variant of
    part_000 then gives the same answer. *)
Theorem isAdmin_exact_entries (env : Env) (ctx : Ctx) (entries : list string) :
  entries ≠ [] →
  Forall (λ e, e ≠ EmptyString ∧ Js.has_char "," e = false) entries →
  ADMINS env = Some (Js.join "," entries) →
  (isAdmin env ctx = true ↔ Js.toString (user_id (from ctx)) ∈ entries)
  ∧ ∀ w, Part000b.isAdmin env ctx w = (Ok (isAdmin env ctx), w).
Proof.
  intros Hne Hall Hadmins.
  assert (Js.join "," entries ≠ EmptyString) as Hjoin.
  { apply join_not_empty; [done|]. eapply Forall_impl; [exact Hall|]. by intros ? [? _]. }
  assert (Js.split "," (Js.join "," entries) = entries) as Hsplit.
  { apply split_join; [done|]. eapply Forall_impl; [exact Hall|]. by intros ? [_ ?]. }
  unfold isAdmin, Part000b.isAdmin, Js.truthy. rewrite Hadmins.
  destruct (Js.join "," entries) as [|x rest] eqn:Hj; [done|].
  cbn [default from_option id]. rewrite Hsplit. split; [|done].
  apply bool_decide_eq_true.
Qed.

Lemma isAdmin_exact_entries_witness :
  (isAdmin full_env (plain_ctx bob "/broadcast hi") = true
   ↔ Js.toString 1002 ∈ ["1001"; "1002"])
  ∧ ∀ w, Part000b.isAdmin full_env (plain_ctx bob "/broadcast hi") w
         = (Ok (isAdmin full_env (plain_ctx bob "/broadcast hi")), w).
Proof.
  apply (isAdmin_exact_entries full_env (plain_ctx bob "/broadcast hi") ["1001"; "1002"]).
  - discriminate.
  - repeat constructor; discriminate.
  - reflexivity.
Defined.

Example isAdmin_untrimmed :
  isAdmin (Build_Env None None None None (Some "1001, 1002")) (plain_ctx bob "/broadcast hi")
  = false.
Proof. reflexivity. Qed.

(** ** The duration of /mute *)

Lemma all_digits_snoc (run : string) (c : ascii) :
  all_digits run = true → Js.is_digit c = true →
  all_digits (run +:+ String c EmptyString) = true.
Proof.
  intros Hrun Hc. induction run as [|a run IH]; [by (simpl; rewrite Hc)|].
  change (String a run +:+ String c EmptyString)
    with (String a (run +:+ String c EmptyString)).
  simpl in *. apply andb_true_iff in Hrun as [Ha Hrun]. by rewrite Ha, IH.
Qed.

(** What the scan returns is a run of digits, not empty, and a unit letter. *)
Lemma match_duration_shape (s : string) : ∀ run ds u,
  all_digits run = true →
  Part000b.match_duration run s = Some (ds, u) →
  ds ≠ EmptyString ∧ all_digits ds = true ∧ Part000b.is_unit u = true.
Proof.
  induction s as [|c s IH]; intros run ds u Hrun Hm; [done|]. simpl in Hm.
  destruct (Js.is_digit c) eqn:Hc.
  - eapply IH; [|exact Hm]. by apply all_digits_snoc.
  - destruct (bool_decide (run = EmptyString)) eqn:He; simpl in Hm.
    + by apply (IH EmptyString).
    + destruct (Part000b.is_unit c) eqn:Hu.
      * injection Hm as <- <-. by apply bool_decide_eq_false in He.
      * by apply (IH EmptyString).
Qed.

(** Where a digit is followed by a unit letter the scan finds a match. *)
Lemma match_duration_some (s : string) : ∀ run,
  has_duration s = true → Part000b.match_duration run s ≠ None.
Proof.
  induction s as [|c s IH]; intros run Hs; [done|]. simpl.
  destruct s as [|u s]; [done|].
  change (Js.is_digit c && Part000b.is_unit u || has_duration (String u s) = true) in Hs.
  destruct (Js.is_digit c) eqn:Hc.
  - destruct (Part000b.is_unit u) eqn:Hu; [|by apply IH].
    simpl. rewrite (unit_not_digit u Hu), Hu.
    by rewrite bool_decide_eq_false_2 by apply append_snoc_not_empty.
  - simpl in Hs. destruct (negb (bool_decide (run = EmptyString)) && Part000b.is_unit c);
      [done|by apply IH].
Qed.

(** X7 — the pattern of /mute matches exactly when somewhere in the text,
    the command and a bot name after it included, a digit is directly
    followed by m, h or d; what it then yields is a run of digits, not
    empty, and one of the three letters. *)
Theorem match_duration_iff (t : string) :
  (Part000b.match_duration EmptyString t = None ↔ has_duration t = false)
  ∧ ∀ ds u, Part000b.match_duration EmptyString t = Some (ds, u) →
            ds ≠ EmptyString ∧ all_digits ds = true ∧ Part000b.is_unit u = true.
Proof.
  split.
  - split.
    + intros Hnone. destruct (has_duration t) eqn:Ht; [|done].
      by destruct (match_duration_some t EmptyString Ht).
    + intros Hno. apply match_duration_none; [done|by left].
  - intros ds u. by apply match_duration_shape.
Qed.

Example match_duration_bot_name :
  Part000b.muteTime (Part000b.match_duration EmptyString "/mute@r2d2_bot") = 2880.
Proof. reflexivity. Qed.

(** ** The first /connect *)

Section connect_first.

Variables (h : Handles) (ctx : Ctx) (w : World).
Hypothesis store : linksCollection h = true.
Hypothesis fresh : links w !! user_id (from ctx) = None.

Let doc := Build_LinkDoc (Js.toString (drawn_code w)) (now w).
Let w0 := set_links (<[user_id (from ctx) := doc]> (links w)) (set_drawn (S (drawn w)) w).

Lemma connect_first_000 :
  let c := reply true
      ("🔗 Your device linking code is:" +:+ Js.nl +:+ Js.nl +:+
       "*" +:+ code doc +:+ "*" +:+ Js.nl +:+ Js.nl +:+
       "Use this code in your app or website to link your device with this bot.") in
  Part000a.command_connect h ctx w =
    (Ok tt, set_trace (trace w ++ [(c, platform w (trace w) c)]) w0).
Proof.
  unfold Part000a.command_connect. rewrite store. cbn [negb].
  unfold bind at 1, get. rewrite fresh. run_monad. by rewrite detached_reply.
Qed.

Lemma connect_first_002 :
  let c := reply true
      ("🔗 Your device linking code has been generated:" +:+ Js.nl +:+ Js.nl +:+
       "*" +:+ code doc +:+ "*" +:+ Js.nl +:+ Js.nl +:+
       "Use this code in your app or website to link your device with this bot.") in
  let failure := reply false "❌ Failed to generate linking code." in
  let w1 := set_trace (trace w ++ [(c, platform w (trace w) c)]) w0 in
  Part002a.command_connect h ctx w =
    (Ok tt, if platform w (trace w) c then w1
            else set_trace (trace w1 ++ [(failure, platform w (trace w1) failure)]) w1).
Proof.
  unfold Part002a.command_connect. rewrite store. cbn [negb].
  unfold try_catch, bind at 1, get. rewrite fresh. run_monad.
  unfold await. rewrite issue_plain by done. cbn.
  destruct (platform w (trace w) _); [done|]. by rewrite detached_reply.
Qed.

End connect_first.

Lemma drawn_code_range (w : World) :
  0 ≤ random w (drawn w) < 2 ^ 53 → 100000 ≤ drawn_code w ≤ 999999.
Proof.
  intros Hk. unfold drawn_code. by apply round_double_code.
Qed.

(** X8 — a first /connect (links collection there, no link yet for the
    caller) stores a link whose code is a number from 100000 to 999999,
    leaves every other link as it is, and its first call is a reply that
    shows that very code, in part_000 and in part_002. *)
Theorem connect_first_shows_stored_code
    (handler : Handles → Ctx → M unit) (h : Handles) (ctx : Ctx) (w : World) :
  handler = Part000a.command_connect ∨ handler = Part002a.command_connect →
  linksCollection h = true →
  links w !! user_id (from ctx) = None →
  0 ≤ random w (drawn w) < 2 ^ 53 →
  let w' := exec (handler h ctx) w in
  ∃ n md body ok rest,
    100000 ≤ n ≤ 999999
    ∧ links w' = <[user_id (from ctx) := Build_LinkDoc (Js.toString n) (now w)]> (links w)
    ∧ issued w w' = (reply md body, ok) :: rest
    ∧ Js.includes (Js.toString n) body = true.
Proof.
  intros Hh Hstore Hfresh Hrand w'. subst w'. unfold exec.
  exists (drawn_code w). destruct Hh as [->| ->].
  - rewrite (connect_first_000 h ctx w Hstore Hfresh). cbn [snd].
    eexists _, _, _, []. split; [by apply drawn_code_range|]. split; [done|].
    split; [unfold issued; cbn; by rewrite drop_app_length|].
    cbn [code]. do 3 apply includes_skip. apply (includes_app _ "*").
  - rewrite (connect_first_002 h ctx w Hstore Hfresh). cbn [snd].
    destruct (platform w (trace w) _) eqn:Hok.
    + eexists _, _, _, []. split; [by apply drawn_code_range|]. split; [done|].
      split; [unfold issued; cbn; by rewrite drop_app_length|].
      cbn [code]. do 3 apply includes_skip. apply (includes_app _ "*").
    + eexists _, _, _, [_]. split; [by apply drawn_code_range|]. split; [done|].
      split; [unfold issued; cbn; by rewrite <- app_assoc, drop_app_length|].
      cbn [code]. do 3 apply includes_skip. apply (includes_app _ "*").
Qed.

Lemma connect_first_shows_stored_code_witness :
  let w' := exec (Part000a.command_connect all_handles (plain_ctx alice "/connect")) calm_world in
  ∃ n md body ok rest,
    100000 ≤ n ≤ 999999
    ∧ links w' = <[1001 := Build_LinkDoc (Js.toString n) 1700000000000]> ∅
    ∧ issued calm_world w' = (reply md body, ok) :: rest
    ∧ Js.includes (Js.toString n) body = true.
Proof.
  apply (connect_first_shows_stored_code Part000a.command_connect all_handles
           (plain_ctx alice "/connect") calm_world).
  - by left.
  - reflexivity.
  - reflexivity.
  - cbn. lia.
Defined.

(** X9 — without the links collection /connect only answers that the
    database is required, in part_000 and in part_002: nothing is stored, no
    code is drawn, and only the trace of the world changes. *)
Theorem connect_without_store
    (handler : Handles → Ctx → M unit) (h : Handles) (ctx : Ctx) (w : World) :
  handler = Part000a.command_connect ∨ handler = Part002a.command_connect →
  linksCollection h = false →
  ∃ ok, exec (handler h ctx) w = set_trace (trace w ++ [(reply false database_required, ok)]) w.
Proof.
  intros Hh Hstore. unfold exec. eexists.
  destruct Hh as [->| ->].
  - unfold Part000a.command_connect. rewrite Hstore. cbn [negb]. by rewrite return_reply.
  - unfold Part002a.command_connect. rewrite Hstore. cbn [negb]. by rewrite return_reply.
Qed.

Lemma connect_without_store_witness :
  ∃ ok, exec (Part002a.command_connect no_handles (plain_ctx alice "/connect")) calm_world
        = set_trace (trace calm_world ++ [(reply false database_required, ok)]) calm_world.
Proof.
  apply (connect_without_store Part002a.command_connect no_handles
           (plain_ctx alice "/connect") calm_world); [by right|reflexivity].
Defined.

(** X10 — in part_002, when the platform rejects the message with the new
    code, the handler still ends normally: it adds the notice that the code
    could not be generated, but the link is already stored, and the next
    /connect of that user answers with the stored code.  The code is the
    one the source computes in doubles from the random fraction, a number
    from 100000 to 999999. *)
Theorem connect_002_undelivered_code_stays
    (h : Handles) (ctx again : Ctx) (w : World) :
  linksCollection h = true →
  links w !! user_id (from ctx) = None →
  0 ≤ random w (drawn w) < 2 ^ 53 →
  (∀ body, platform w (trace w) (reply true body) = false) →
  user_id (from again) = user_id (from ctx) →
  let w' := exec (Part002a.command_connect h ctx) w in
  let w'' := exec (Part002a.command_connect h again) w' in
  let stored := Js.toString (drawn_code w) in
  fst (Part002a.command_connect h ctx w) = Ok tt
  ∧ 100000 ≤ drawn_code w ≤ 999999
  ∧ (∃ body, map fst (issued w w')
             = [reply true body; reply false "❌ Failed to generate linking code."]
             ∧ Js.includes stored body = true)
  ∧ links w' !! user_id (from ctx) = Some (Build_LinkDoc stored (now w))
  ∧ map fst (issued w' w'')
    = [reply true ("🔗 You are already linked! Your code: *" +:+ stored +:+ "*")].
Proof.
  intros Hstore Hfresh Hrandom Hdeaf Hsame w' w'' stored.
  assert (links w' !! user_id (from ctx) = Some (Build_LinkDoc stored (now w))) as Hlink.
  { subst w'. unfold exec. rewrite (connect_first_002 h ctx w Hstore Hfresh), Hdeaf.
    cbn. by rewrite lookup_insert_eq. }
  split; [by rewrite (connect_first_002 h ctx w Hstore Hfresh)|].
  split; [by apply drawn_code_range|].
  split; [|split; [done|]].
  - subst w'. unfold exec. rewrite (connect_first_002 h ctx w Hstore Hfresh), Hdeaf.
    eexists. split; [unfold issued; cbn; by rewrite <- app_assoc, drop_app_length|].
    cbn [code]. do 3 apply includes_skip. apply (includes_app _ "*").
  - subst w''. unfold exec. rewrite <- Hsame in Hlink.
    rewrite (connect_repeat_002 h again Hstore w' _ Hlink).
    unfold issued. cbn. by rewrite drop_app_length.
Qed.

Lemma connect_002_undelivered_code_stays_witness :
  let ctx := plain_ctx alice "/connect" in
  let w' := exec (Part002a.command_connect all_handles ctx) deaf_world in
  let w'' := exec (Part002a.command_connect all_handles ctx) w' in
  links w' !! 1001 = Some (Build_LinkDoc "550000" 1700000000000)
  ∧ map fst (issued w' w'')
    = [reply true "🔗 You are already linked! Your code: *550000*"].
Proof.
  destruct (connect_002_undelivered_code_stays all_handles (plain_ctx alice "/connect")
              (plain_ctx alice "/connect") deaf_world eq_refl eq_refl
              ltac:(split; [discriminate|reflexivity]) (λ _, eq_refl) eq_refl)
    as (_ & _ & _ & Hlink & Hagain).
  split; [exact Hlink|exact Hagain].
Defined.

(** ** What /broadcast leaves alone *)

Lemma set_trace_same (w : World) : set_trace (trace w ++ []) w = w.
Proof. destruct w. unfold set_trace. cbn. by rewrite app_nil_r. Qed.

Lemma set_trace_twice (w : World) (a b : list (Call * bool)) :
  set_trace (trace (set_trace (trace w ++ a) w) ++ b) (set_trace (trace w ++ a) w)
  = set_trace (trace w ++ a ++ b) w.
Proof. unfold set_trace. cbn. by rewrite <- app_assoc. Qed.

Lemma sends_to_stored (f : UserDoc → Call) (us : list UserDoc) : ∀ new : list (Call * bool),
  map fst new = map f us → Forall (λ c, ∃ u, u ∈ us ∧ fst c = f u) new.
Proof.
  induction us as [|u us IH]; intros [|c new] Hmap; simplify_eq/=; constructor.
  - exists u. split; [left|done].
  - eapply Forall_impl; [by apply IH|]. intros c' (u' & Hin & Hc). exists u'.
    split; [by right|done].
Qed.

Lemma broadcast_pass_world (message0 : string) (w : World) :
  ∃ new, broadcast_pass message0 w = (Ok tt, set_trace (trace w ++ new) w)
         ∧ Forall (broadcast_call w) new.
Proof.
  unfold broadcast_pass, bind, get. rewrite detached_reply.
  set (c1 := reply false _). set (ok1 := platform w (trace w) c1).
  destruct (broadcast_loop message0 (users w) (set_trace (trace w ++ [(c1, ok1)]) w) 0 0)
    as (new & -> & Hmap).
  rewrite detached_reply, !set_trace_twice.
  eexists. split; [done|].
  constructor; [by left|]. apply Forall_app. split.
  - eapply Forall_impl; [exact (sends_to_stored _ (users w) new Hmap)|].
    intros c (u & Hin & Hc). right. by exists u, (broadcast_body message0).
  - constructor; [by left|done].
Qed.

Lemma return_reply_world md body w :
  ∃ new, snd (return_call (reply md body) w) = set_trace (trace w ++ new) w
         ∧ Forall (broadcast_call w) new.
Proof. rewrite return_reply. eexists. split; [done|]. constructor; [by left|done]. Qed.

Lemma broadcast_try_world (body : M unit) (w : World) :
  (∃ new, body w = (Ok tt, set_trace (trace w ++ new) w) ∧ Forall (broadcast_call w) new)
  ∨ body w = (Throw TypeError, w) →
  ∃ new, snd (try_catch body (λ _, detached (reply false broadcast_failed)) w)
         = set_trace (trace w ++ new) w
         ∧ Forall (broadcast_call w) new.
Proof.
  unfold try_catch. intros [(new & -> & Hnew)| ->]; [by exists new|].
  rewrite detached_reply. eexists. split; [done|]. constructor; [by left|done].
Qed.

(** X11 — whatever the caller, the configuration and the platform, a
    /broadcast of any of the three variants changes nothing but the trace of
    calls: no collection, no link, no chat member; and every call it issues
    is a reply to the caller or a message to a user of the collection. *)
Theorem broadcast_changes_only_trace
    (handler : Env → Handles → Ctx → M unit) (env : Env) (h : Handles) (ctx : Ctx) (w : World) :
  handler = Part000a.command_broadcast ∨ handler = Part002b.command_broadcast
    ∨ handler = Part000b.command_broadcast →
  ∃ new, exec (handler env h ctx) w = set_trace (trace w ++ new) w
         ∧ Forall (broadcast_call w) new.
Proof.
  assert (∃ new, w = set_trace (trace w ++ new) w ∧ Forall (broadcast_call w) new) as Hsame.
  { exists []. by rewrite set_trace_same. }
  intros [->|[->| ->]]; unfold exec.
  - unfold Part000a.command_broadcast.
    destruct (isAdmin env ctx); cbn [negb]; [|apply return_reply_world].
    destruct (usersCollection h); cbn [negb]; [|apply return_reply_world].
    unfold message_text, bind at 1. destruct (text (message ctx)) as [t|]; [|done].
    unfold ret. case_decide; [apply return_reply_world|].
    apply broadcast_try_world. left. apply broadcast_pass_world.
  - unfold Part002b.command_broadcast.
    destruct (isAdmin env ctx); cbn [negb]; [|apply return_reply_world].
    unfold message_text, bind at 1. destruct (text (message ctx)) as [t|]; [|done].
    unfold ret. case_decide; [apply return_reply_world|].
    apply broadcast_try_world. left.
    destruct (usersCollection h); [apply broadcast_pass_world|].
    rewrite detached_reply. eexists. split; [done|]. constructor; [by left|done].
  - unfold Part000b.command_broadcast, Part000b.isAdmin, bind at 1.
    destruct (ADMINS env) as [list|]; [|done]. unfold ret at 1.
    destruct (bool_decide _); cbn [negb]; [|apply return_reply_world].
    unfold message_text, bind at 1. destruct (text (message ctx)) as [t|]; [|done].
    unfold ret. case_decide; [apply return_reply_world|].
    apply broadcast_try_world.
    destruct (usersCollection h); [left; apply broadcast_pass_world|by right].
Qed.

Lemma broadcast_changes_only_trace_witness :
  ∃ new, exec (Part000b.command_broadcast full_env all_handles
                 (plain_ctx alice "/broadcast hello")) blocked_world
         = set_trace (trace blocked_world ++ new) blocked_world
         ∧ Forall (broadcast_call blocked_world) new.
Proof.
  apply (broadcast_changes_only_trace Part000b.command_broadcast full_env all_handles
           (plain_ctx alice "/broadcast hello") blocked_world).
  right. right. reflexivity.
Defined.

(** ** /broadcast without a message, and without the users collection *)

Lemma drop_chars_app (p s : string) : Js.drop_chars (String.length p) (p +:+ s) = s.
Proof. induction p as [|c p IH]; [done|]. exact IH. Qed.

Lemma replace_prefix (pat s : string) : Js.replace pat EmptyString (pat +:+ s) = s.
Proof.
  destruct pat as [|a p].
  - change (EmptyString +:+ s) with s. by destruct s.
  - change (String a p +:+ s) with (String a (p +:+ s)).
    change (Js.replace (String a p) EmptyString (String a (p +:+ s)))
      with (if Js.startsWith (String a p) (String a p +:+ s)
            then EmptyString +:+ Js.drop_chars (String.length (String a p)) (String a p +:+ s)
            else String a (Js.replace (String a p) EmptyString (p +:+ s))).
    by rewrite startsWith_app, drop_chars_app.
Qed.

Lemma trim_all_space (s : string) : all_space s = true → Js.trim s = EmptyString.
Proof.
  intros Hs. unfold Js.trim.
  assert (Js.trimStart s = EmptyString) as ->; [|done].
  induction s as [|c s IH]; [done|]. simpl in *.
  apply andb_prop in Hs as [-> Hs]. by apply IH.
Qed.

Lemma broadcast_message_blank (blank : string) :
  all_space blank = true → broadcast_message ("/broadcast" +:+ blank) = EmptyString.
Proof.
  intros Hs. unfold broadcast_message. by rewrite replace_prefix, trim_all_space.
Qed.

(** The name of the bot after the command is not removed: it is broadcast
    with the message. *)
Example broadcast_message_bot_name :
  broadcast_message "/broadcast@md_bot hello" = "@md_bot hello".
Proof. reflexivity. Qed.

(** X12 — an admin who sends /broadcast followed by nothing, or by white
    space only, gets the usage notice as the only call, in all three
    variants (for part_000:245 with the users collection at hand): nothing
    is sent to any user. *)
Theorem broadcast_blank_message
    (handler : Env → Handles → Ctx → M unit) (env : Env) (h : Handles) (ctx : Ctx) (w : World)
    (blank : string) :
  handler = Part000a.command_broadcast ∨ handler = Part002b.command_broadcast
    ∨ handler = Part000b.command_broadcast →
  isAdmin env ctx = true →
  usersCollection h = true →
  text (message ctx) = Some ("/broadcast" +:+ blank) →
  all_space blank = true →
  ∃ ok, exec (handler env h ctx) w = set_trace (trace w ++ [(reply false no_message, ok)]) w.
Proof.
  intros Hh Hadmin Hstore Ht Hblank. unfold exec. eexists.
  pose proof (broadcast_message_blank blank Hblank) as Hmsg.
  destruct Hh as [->|[->| ->]].
  - unfold Part000a.command_broadcast, message_text.
    rewrite Hadmin, Hstore, Ht. cbn [negb]. unfold bind at 1, ret.
    rewrite decide_True by done. by rewrite return_reply.
  - unfold Part002b.command_broadcast, message_text.
    rewrite Hadmin, Ht. cbn [negb]. unfold bind at 1, ret.
    rewrite decide_True by done. by rewrite return_reply.
  - unfold Part000b.command_broadcast, message_text. unfold bind at 1.
    rewrite (isAdmin_unguarded env ctx w Hadmin), Ht. cbn [negb].
    unfold bind at 1, ret.
    rewrite decide_True by done. by rewrite return_reply.
Qed.

Lemma broadcast_blank_message_witness :
  ∃ ok, exec (Part002b.command_broadcast full_env all_handles
                (plain_ctx alice "/broadcast   ")) calm_world
        = set_trace (trace calm_world ++ [(reply false no_message, ok)]) calm_world.
Proof.
  apply (broadcast_blank_message Part002b.command_broadcast full_env all_handles
           (plain_ctx alice "/broadcast   ") calm_world "   ");
    [by right; left|reflexivity|reflexivity|reflexivity|reflexivity].
Defined.

(** X13 — an admin's /broadcast with a message but without the users
    collection sends nothing and ends normally with one notice: that the
    database is not available in part_000:245 and part_002:426, and the
    general failure notice in part_000:463, whose [catch] takes the
    [TypeError] of the missing handle. *)
Theorem broadcast_without_users
    (env : Env) (h : Handles) (ctx : Ctx) (w : World) (t : string) :
  isAdmin env ctx = true →
  usersCollection h = false →
  text (message ctx) = Some t →
  broadcast_message t ≠ EmptyString →
  let notice (handler : Env → Handles → Ctx → M unit) (body : string) :=
    ∃ ok, exec (handler env h ctx) w = set_trace (trace w ++ [(reply false body, ok)]) w in
  notice Part000a.command_broadcast "❌ Database not available for broadcast."
  ∧ notice Part002b.command_broadcast "❌ Database not available for broadcast."
  ∧ notice Part000b.command_broadcast "❌ An error occurred during broadcast."
  ∧ fst (Part002b.command_broadcast env h ctx w) = Ok tt
  ∧ fst (Part000b.command_broadcast env h ctx w) = Ok tt.
Proof.
  intros Hadmin Hstore Ht Hmsg. cbn zeta. unfold exec.
  assert (Part002b.command_broadcast env h ctx w
          = detached (reply false no_database) w) as H2.
  { unfold Part002b.command_broadcast, message_text.
    rewrite Hadmin, Hstore, Ht. cbn [negb]. unfold bind at 1, ret.
    rewrite decide_False by done. unfold try_catch. by rewrite detached_reply. }
  assert (Part000b.command_broadcast env h ctx w
          = detached (reply false broadcast_failed) w) as H0.
  { unfold Part000b.command_broadcast, message_text. unfold bind at 1.
    rewrite (isAdmin_unguarded env ctx w Hadmin), Hstore, Ht. cbn [negb].
    unfold bind at 1, ret.
    by rewrite decide_False by done. }
  rewrite H2, H0, !detached_reply.
  split; [|repeat split; by eexists].
  unfold Part000a.command_broadcast. rewrite Hadmin, Hstore. cbn [negb].
  rewrite return_reply. by eexists.
Qed.

Lemma broadcast_without_users_witness :
  ∃ ok, exec (Part000b.command_broadcast full_env no_handles
                (plain_ctx alice "/broadcast hello")) calm_world
        = set_trace (trace calm_world ++
                     [(reply false "❌ An error occurred during broadcast.", ok)]) calm_world.
Proof.
  destruct (broadcast_without_users full_env no_handles (plain_ctx alice "/broadcast hello")
              calm_world "/broadcast hello" eq_refl eq_refl eq_refl ltac:(discriminate))
    as (_ & _ & Hb & _).
  exact Hb.
Defined.

(** ** The handler of every message *)

Lemma at_most_a_reaction_none (w : World) : at_most_a_reaction w w.
Proof.
  unfold at_most_a_reaction, same_store, issued. rewrite drop_all. cbn.
  repeat split; lia.
Qed.

Lemma at_most_a_reaction_one (w : World) (e : option string) (ok : bool) (n : nat) :
  at_most_a_reaction w (set_trace (trace w ++ [(react e, ok)]) (set_drawn n w)).
Proof.
  unfold at_most_a_reaction, same_store, issued. cbn. rewrite drop_app_length. cbn.
  repeat split; lia.
Qed.

Lemma on_message_run (h : Handles) (ctx : Ctx) (w : World) :
  ∃ w', on_message h ctx w = (Ok Next, w') ∧ at_most_a_reaction w w'
        ∧ (has_text ctx = false → w' = w).
Proof.
  unfold on_message.
  destruct (is_command_text ctx); [exists w; by auto using at_most_a_reaction_none|].
  run_monad.
  destruct (settingsCollection h); [|exists w; by auto using at_most_a_reaction_none].
  destruct (settings w !! "global") as [s|];
    [|exists w; by auto using at_most_a_reaction_none].
  destruct (autoreact s); cbn [andb];
    [|exists w; by auto using at_most_a_reaction_none].
  destruct (has_text ctx); [|exists w; by auto using at_most_a_reaction_none].
  unfold await. rewrite issue_plain by done. cbn.
  destruct (platform w (trace w) _); eexists;
    (split; [reflexivity|]); (split; [apply at_most_a_reaction_one|done]).
Qed.

Lemma on_message_000b_run (h : Handles) (ctx : Ctx) (w : World) :
  ∃ w', Part000b.on_message h ctx w = (Ok Stop, w') ∧ at_most_a_reaction w w'
        ∧ (has_text ctx = false → w' = w).
Proof.
  unfold Part000b.on_message, Part000b.find_settings. run_monad.
  destruct (settingsCollection h); [|exists w; by auto using at_most_a_reaction_none].
  destruct (settings w !! "global") as [s|];
    [|exists w; by auto using at_most_a_reaction_none].
  destruct (autoreact s); cbn [andb];
    [|exists w; by auto using at_most_a_reaction_none].
  destruct (has_text ctx); [|exists w; by auto using at_most_a_reaction_none].
  unfold await. rewrite issue_plain by done. cbn.
  destruct (platform w (trace w) _); eexists;
    (split; [reflexivity|]); (split; [apply at_most_a_reaction_one|done]).
Qed.

(** X14 — the handler of every message never fails and never answers with
    text, whatever the update, the store and the platform: in part_000:100
    and part_002:225 it always passes the update on, in part_000:608 it
    always ends the chain; the store is left as it was and at most one call
    is issued, a reaction, and none for a message without text. *)
Theorem on_message_never_fails (h : Handles) (ctx : Ctx) (w : World) :
  (∃ w', on_message h ctx w = (Ok Next, w') ∧ at_most_a_reaction w w'
         ∧ (has_text ctx = false → w' = w))
  ∧ (∃ w', Part000b.on_message h ctx w = (Ok Stop, w') ∧ at_most_a_reaction w w'
           ∧ (has_text ctx = false → w' = w)).
Proof. split; [apply on_message_run|apply on_message_000b_run]. Qed.

(** ** /autoreact beyond the two switches *)

Section autoreact_words.

Variables (h : Handles) (ctx : Ctx) (w : World) (t cmd arg : string) (rest : list string).
Hypothesis Htext : text (message ctx) = Some t.
Hypothesis Hwords : Js.split " " t = cmd :: arg :: rest.

Lemma autoreact_other_002 :
  Js.toLowerCase arg ≠ "on" → Js.toLowerCase arg ≠ "off" →
  Part002b.command_autoreact h ctx w = return_call (reply false specify_on_off) w.
Proof.
  intros Hon Hoff. unfold Part002b.command_autoreact. run_monad.
  rewrite Htext, Hwords. rewrite bool_decide_eq_false_2 by (cbn; lia).
  cbn [lookup list_lookup default from_option id].
  by rewrite bool_decide_eq_true_2.
Qed.

Lemma autoreact_other_000 :
  Js.toLowerCase arg ≠ "on" → Js.toLowerCase arg ≠ "off" →
  Part000b.command_autoreact h ctx w = return_call (reply false specify_on_off) w.
Proof.
  intros Hon Hoff. unfold Part000b.command_autoreact. run_monad.
  rewrite Htext, Hwords. rewrite bool_decide_eq_false_2 by (cbn; lia).
  cbn [lookup list_lookup default from_option id].
  by rewrite bool_decide_eq_true_2.
Qed.

Lemma autoreact_switch_002 (b : bool) :
  settingsCollection h = true →
  Js.toLowerCase arg = (if b then "on" else "off") →
  let c := reply false (if b then "✅ Auto-reactions have been turned ON."
                        else "✅ Auto-reactions have been turned OFF.") in
  Part002b.command_autoreact h ctx w =
    (Ok tt, set_trace (trace w ++ [(c, platform w (trace w) c)])
              (set_settings (alter (set_autoreact b) "global" (settings w)) w)).
Proof.
  intros Hstore Hb. unfold Part002b.command_autoreact. run_monad.
  rewrite Htext, Hwords. rewrite bool_decide_eq_false_2 by (cbn; lia).
  cbn [lookup list_lookup default from_option id]. rewrite Hb, Hstore.
  destruct b.
  - rewrite bool_decide_eq_false_2 by (by intros [? _]).
    rewrite bool_decide_eq_true_2 by done. by rewrite detached_reply.
  - rewrite bool_decide_eq_false_2 by (by intros [_ ?]).
    rewrite bool_decide_eq_false_2 by done. by rewrite detached_reply.
Qed.

Lemma autoreact_switch_000 (b : bool) :
  settingsCollection h = true →
  Js.toLowerCase arg = (if b then "on" else "off") →
  let c := reply false (if b then "✅ Autoreact has been turned ON."
                        else "✅ Autoreact has been turned OFF.") in
  Part000b.command_autoreact h ctx w =
    (Ok tt, set_trace (trace w ++ [(c, platform w (trace w) c)])
              (set_settings (alter (set_autoreact b) "global" (settings w)) w)).
Proof.
  intros Hstore Hb. unfold Part000b.command_autoreact. run_monad.
  rewrite Htext, Hwords. rewrite bool_decide_eq_false_2 by (cbn; lia).
  cbn [lookup list_lookup default from_option id]. rewrite Hb, Hstore.
  destruct b.
  - rewrite bool_decide_eq_false_2 by (by intros [? _]).
    rewrite bool_decide_eq_true_2 by done. by rewrite detached_reply.
  - rewrite bool_decide_eq_false_2 by (by intros [_ ?]).
    rewrite bool_decide_eq_false_2 by done. by rewrite detached_reply.
Qed.

End autoreact_words.

(** X15 — /autoreact followed by a word that is neither on nor off in any
    mix of cases answers with the request to specify one of them and does
    nothing else, in part_002:336 and in part_000:562, with or without the
    settings collection. *)
Theorem autoreact_rejects_other_words
    (handler : Handles → Ctx → M unit) (h : Handles) (ctx : Ctx) (w : World)
    (t cmd arg : string) (rest : list string) :
  handler = Part002b.command_autoreact ∨ handler = Part000b.command_autoreact →
  text (message ctx) = Some t →
  Js.split " " t = cmd :: arg :: rest →
  Js.toLowerCase arg ≠ "on" →
  Js.toLowerCase arg ≠ "off" →
  ∃ ok, exec (handler h ctx) w = set_trace (trace w ++ [(reply false specify_on_off, ok)]) w.
Proof.
  intros Hh Ht Hwords Hon Hoff. unfold exec. eexists.
  destruct Hh as [->| ->].
  - rewrite (autoreact_other_002 h ctx w t cmd arg rest Ht Hwords Hon Hoff).
    by rewrite return_reply.
  - rewrite (autoreact_other_000 h ctx w t cmd arg rest Ht Hwords Hon Hoff).
    by rewrite return_reply.
Qed.

Lemma autoreact_rejects_other_words_witness :
  ∃ ok, exec (Part002b.command_autoreact all_handles (plain_ctx alice "/autoreact  on"))
          calm_world
        = set_trace (trace calm_world ++ [(reply false specify_on_off, ok)]) calm_world.
Proof.
  apply (autoreact_rejects_other_words Part002b.command_autoreact all_handles
           (plain_ctx alice "/autoreact  on") calm_world "/autoreact  on"
           "/autoreact" EmptyString ["on"]);
    [by left|reflexivity|reflexivity|discriminate|discriminate].
Defined.

(** X16 — /autoreact without an argument writes nothing.  Without the
    settings collection both handlers end in a [TypeError] before any call.
    With it, part_002:336 reports the flag of the settings document and OFF
    when there is no document; part_000:562 reports the flag and ends in a
    [TypeError] when there is no document. *)
Theorem autoreact_query (h : Handles) (ctx : Ctx) (w : World) (t : string) :
  text (message ctx) = Some t →
  Js.has_char " " t = false →
  let report (handler : Handles → Ctx → M unit) (body : string) :=
    ∃ ok : bool, handler h ctx w =
            (if ok then Ok tt else Rejected PlatformError,
             set_trace (trace w ++ [(reply false body, ok)]) w) in
  let fails (handler : Handles → Ctx → M unit) :=
    handler h ctx w = (Throw TypeError, w) in
  if settingsCollection h then
    report Part002b.command_autoreact
      ("Auto-reactions are currently " +:+
       on_off (from_option autoreact false (settings w !! "global")) +:+
       ". Use /autoreact on or /autoreact off")
    ∧ match settings w !! "global" with
      | Some s => report Part000b.command_autoreact
                    ("Autoreact is currently " +:+ on_off (autoreact s) +:+
                     ". Use /autoreact on or /autoreact off")
      | None => fails Part000b.command_autoreact
      end
  else fails Part002b.command_autoreact ∧ fails Part000b.command_autoreact.
Proof.
  intros Ht Hone. cbn zeta.
  pose proof (split_absent " " t Hone) as Hsplit.
  unfold Part002b.command_autoreact, Part000b.command_autoreact, Part000b.find_settings.
  run_monad. rewrite Ht, Hsplit. rewrite !bool_decide_eq_true_2 by (cbn; lia).
  destruct (settingsCollection h); [|done].
  split; [rewrite return_reply; by eexists|].
  destruct (settings w !! "global") as [s|]; [|done].
  rewrite return_reply. by eexists.
Qed.

Lemma autoreact_query_witness :
  Part002b.command_autoreact no_handles (plain_ctx alice "/autoreact") calm_world
    = (Throw TypeError, calm_world)
  ∧ Part000b.command_autoreact no_handles (plain_ctx alice "/autoreact") calm_world
    = (Throw TypeError, calm_world).
Proof.
  exact (autoreact_query no_handles (plain_ctx alice "/autoreact") calm_world "/autoreact"
           eq_refl eq_refl).
Defined.

(** X17 — with the settings collection, /autoreact followed by on or off in
    any mix of cases, and by whatever else, ends normally and writes one
    field: the flag of the settings document.  The emojis and the other
    flags of the document, every other document and the other collections
    stay; a missing document is not created, though the confirmation is
    sent all the same.  So in part_002:336 and in part_000:562. *)
Theorem autoreact_switch_flag_only
    (handler : Handles → Ctx → M unit) (h : Handles) (ctx : Ctx) (w : World)
    (t cmd arg : string) (rest : list string) (b : bool) :
  handler = Part002b.command_autoreact ∨ handler = Part000b.command_autoreact →
  settingsCollection h = true →
  text (message ctx) = Some t →
  Js.split " " t = cmd :: arg :: rest →
  Js.toLowerCase arg = (if b then "on" else "off") →
  let w' := exec (handler h ctx) w in
  fst (handler h ctx w) = Ok tt
  ∧ settings w' !! "global" = set_autoreact b <$> settings w !! "global"
  ∧ (∀ k, k ≠ "global" → settings w' !! k = settings w !! k)
  ∧ users w' = users w ∧ links w' = links w ∧ muted w' = muted w
  ∧ ∃ body ok, issued w w' = [(reply false body, ok)]
               ∧ Js.includes (if b then "turned ON." else "turned OFF.") body = true.
Proof.
  intros Hh Hstore Ht Hwords Hb w'. subst w'. unfold exec.
  destruct Hh as [->| ->].
  - rewrite (autoreact_switch_002 h ctx w t cmd arg rest Ht Hwords b Hstore Hb).
    cbn [fst snd]. split; [done|]. split; [apply lookup_alter_eq|].
    split; [intros k Hk; by apply lookup_alter_ne|]. do 3 (split; [done|]).
    eexists _, _. split; [unfold issued; cbn; by rewrite drop_app_length|].
    by destruct b.
  - rewrite (autoreact_switch_000 h ctx w t cmd arg rest Ht Hwords b Hstore Hb).
    cbn [fst snd]. split; [done|]. split; [apply lookup_alter_eq|].
    split; [intros k Hk; by apply lookup_alter_ne|]. do 3 (split; [done|]).
    eexists _, _. split; [unfold issued; cbn; by rewrite drop_app_length|].
    by destruct b.
Qed.

Lemma autoreact_switch_flag_only_witness :
  let w' := exec (Part000b.command_autoreact all_handles
                    (plain_ctx alice "/autoreact OFF please")) calm_world in
  settings w' !! "global" = Some (set_autoreact false default_settings).
Proof.
  destruct (autoreact_switch_flag_only Part000b.command_autoreact all_handles
              (plain_ctx alice "/autoreact OFF please") calm_world "/autoreact OFF please"
              "/autoreact" "OFF" ["please"] false (or_intror eq_refl) eq_refl eq_refl
              eq_refl eq_refl) as (_ & Hflag & _).
  exact Hflag.
Defined.

(** ** /mute and /unmute on the chat member *)

Section restrictions.

Variables (ctx : Ctx) (target : User) (w : World).
Hypothesis Hto : reply_to_message (message ctx) = Some target.

Lemma command_mute_run (t : string) :
  text (message ctx) = Some t →
  let minutes := Part000b.muteTime (Part000b.match_duration EmptyString t) in
  let until := now w / 1000 + minutes * 60 in
  let c := restrictChatMember (chat_id ctx) (user_id target) (Some until) false in
  let done := reply true ("🔇 User @" +:+ Part000b.display_name target +:+
                          " has been muted for " +:+ Js.toString minutes +:+ " minutes.") in
  let refused := reply false "❌ I need admin permissions to mute users." in
  Part000b.command_mute ctx w =
    (Ok tt,
     if platform w (trace w) c
     then set_trace (trace w ++ [(c, true); (done, platform w (trace w ++ [(c, true)]) done)])
            (set_muted (<[(chat_id ctx, user_id target) := until]> (muted w)) w)
     else set_trace (trace w ++ [(c, false);
                                 (refused, platform w (trace w ++ [(c, false)]) refused)]) w).
Proof.
  intros Ht. unfold Part000b.command_mute, message_text. rewrite Hto, Ht.
  unfold bind, try_catch, ret, get, await, detached, issue. cbn.
  destruct (platform w (trace w) _); cbn; rewrite <- !app_assoc;
    by destruct (platform w (trace w ++ _) _).
Qed.

Lemma command_unmute_run :
  let c := restrictChatMember (chat_id ctx) (user_id target) None true in
  let done := reply true ("🔊 User @" +:+ Part000b.display_name target +:+
                          " has been unmuted.") in
  let refused := reply false "❌ I need admin permissions to unmute users." in
  Part000b.command_unmute ctx w =
    (Ok tt,
     if platform w (trace w) c
     then set_trace (trace w ++ [(c, true); (done, platform w (trace w ++ [(c, true)]) done)])
            (set_muted (delete (chat_id ctx, user_id target) (muted w)) w)
     else set_trace (trace w ++ [(c, false);
                                 (refused, platform w (trace w ++ [(c, false)]) refused)]) w).
Proof.
  unfold Part000b.command_unmute. rewrite Hto.
  unfold bind, try_catch, ret, get, await, detached, issue. cbn.
  destruct (platform w (trace w) _); cbn; rewrite <- !app_assoc;
    by destruct (platform w (trace w ++ _) _).
Qed.

End restrictions.

(** X18 — on a platform that accepts restrictions, a /mute in reply to a
    user records that member as muted until the current time in seconds
    plus the minutes of the command, and an /unmute in reply to the same
    user in the same chat removes the record again: after both, the chat
    members are as if only the /unmute had run, and every other member is
    untouched throughout.  Both handlers end normally.  The last two
    hypotheses keep the numbers where JavaScript computes them exactly: the
    time of [Date.now()] and the date the restriction runs until. *)
Theorem mute_then_unmute (mute unmute : Ctx) (target : User) (t : string) (w : World) :
  reply_to_message (message mute) = Some target →
  reply_to_message (message unmute) = Some target →
  chat_id unmute = chat_id mute →
  text (message mute) = Some t →
  (∀ tr chat user until_date can,
     platform w tr (restrictChatMember chat user until_date can) = true) →
  0 ≤ now w < 2 ^ 53 →
  safe_integer (now w / 1000
                + Part000b.muteTime (Part000b.match_duration EmptyString t) * 60) →
  let w1 := exec (Part000b.command_mute mute) w in
  let w2 := exec (Part000b.command_unmute unmute) w1 in
  let member := (chat_id mute, user_id target) in
  let minutes := Part000b.muteTime (Part000b.match_duration EmptyString t) in
  fst (Part000b.command_mute mute w) = Ok tt
  ∧ fst (Part000b.command_unmute unmute w1) = Ok tt
  ∧ muted w1 = <[member := now w / 1000 + minutes * 60]> (muted w)
  ∧ muted w2 = delete member (muted w)
  ∧ muted w2 !! member = None
  ∧ ∀ other, other ≠ member → muted w2 !! other = muted w !! other.
Proof.
  intros Hto Hto' Hchat Ht Hok _ _ w1 w2 member minutes.
  assert (muted w1 = <[member := now w / 1000 + minutes * 60]> (muted w)
          ∧ platform w1 = platform w) as [Hw1 Hp1].
  { subst w1. unfold exec. rewrite (command_mute_run mute target w Hto t Ht), Hok. done. }
  assert (muted w2 = delete member (muted w)) as Hw2.
  { subst w2. unfold exec. rewrite (command_unmute_run unmute target w1 Hto'), Hp1, Hok.
    cbn. by rewrite Hw1, Hchat, delete_insert_eq. }
  split; [by rewrite (command_mute_run mute target w Hto t Ht)|].
  split; [by rewrite (command_unmute_run unmute target w1 Hto')|].
  split; [done|]. split; [done|]. rewrite Hw2.
  split; [apply lookup_delete_eq|]. intros other Hother. by apply lookup_delete_ne.
Qed.

Lemma mute_then_unmute_witness :
  let w1 := exec (Part000b.command_mute (reply_ctx alice bob "/mute 2h spam")) calm_world in
  let w2 := exec (Part000b.command_unmute (reply_ctx alice bob "/unmute")) w1 in
  muted w1 = <[(-100500, 1002) := 1700000000 + 120 * 60]> ∅
  ∧ muted w2 !! (-100500, 1002) = None.
Proof.
  destruct (mute_then_unmute (reply_ctx alice bob "/mute 2h spam")
              (reply_ctx alice bob "/unmute") bob "/mute 2h spam" calm_world
              eq_refl eq_refl eq_refl eq_refl (λ _ _ _ _ _, eq_refl)
              ltac:(split; [discriminate|reflexivity]) (conj eq_refl eq_refl))
    as (_ & _ & Hmuted & _ & Hgone & _).
  split; [exact Hmuted|exact Hgone].
Defined.

(** X19 — when the platform refuses the restriction, as it does for a bot
    that is no administrator of the chat, /mute and /unmute in reply to a
    user end normally: the refused call is followed by the notice that
    admin permissions are needed, no confirmation is sent, and no chat
    member changes. *)
Theorem restriction_refused (ctx : Ctx) (target : User) (t : string) (w : World) :
  reply_to_message (message ctx) = Some target →
  text (message ctx) = Some t →
  (∀ until_date can,
     platform w (trace w)
       (restrictChatMember (chat_id ctx) (user_id target) until_date can) = false) →
  let refused (handler : Ctx → M unit) (notice : string) :=
    fst (handler ctx w) = Ok tt
    ∧ muted (exec (handler ctx) w) = muted w
    ∧ ∃ c ok, issued w (exec (handler ctx) w) = [(c, false); (reply false notice, ok)]
              ∧ is_restriction (c, false) = true in
  refused Part000b.command_mute "❌ I need admin permissions to mute users."
  ∧ refused Part000b.command_unmute "❌ I need admin permissions to unmute users.".
Proof.
  intros Hto Ht Hno. cbn zeta. unfold exec.
  rewrite (command_mute_run ctx target w Hto t Ht), (command_unmute_run ctx target w Hto).
  rewrite !Hno. cbn [fst snd]. unfold issued. cbn. rewrite !drop_app_length.
  repeat split; by eexists _, _.
Qed.

Lemma restriction_refused_witness :
  let ctx := reply_ctx alice bob "/mute 2h spam" in
  muted (exec (Part000b.command_mute ctx) deaf_world) = muted deaf_world
  ∧ ∃ c ok, issued deaf_world (exec (Part000b.command_mute ctx) deaf_world)
            = [(c, false); (reply false "❌ I need admin permissions to mute users.", ok)]
            ∧ is_restriction (c, false) = true.
Proof.
  destruct (restriction_refused (reply_ctx alice bob "/mute 2h spam") bob "/mute 2h spam"
              deaf_world eq_refl eq_refl (λ _ _, eq_refl)) as [(_ & Hmuted & Hcalls) _].
  split; [exact Hmuted|exact Hcalls].
Defined.

(** ** Which handlers an update reaches *)

Lemma handleUpdate_pass (name : string) (handler : Ctx → M unit) chain ctx w :
  update_command ctx ≠ Some name →
  handleUpdate (command name handler :: chain) ctx w = handleUpdate chain ctx w.
Proof.
  intros Hmiss. cbn [handleUpdate]. unfold bind at 1, command.
  by rewrite bool_decide_eq_false_2.
Qed.

(** X20 — in the group bot of part_000:339 the handler of every message ends
    the chain, so what is registered after it never runs: an update that is
    none of the seven commands registered before it (a /stats, a /ping, a
    user joining, a plain text) is handled by that handler alone.  The
    update ends normally with at most one call, a reaction: no statistics,
    no pong, no welcome. *)
Theorem handlers_after_on_message_never_run
    (body : string → Ctx → M unit) (env : Env) (h : Handles) (ctx : Ctx) (w : World) :
  update_command ctx
    ∉ Some <$> ["start"; "help"; "broadcast"; "mute"; "unmute"; "autoreact"; "public"] →
  let w' := exec (handleUpdate (Part000b.bot body env h) ctx) w in
  fst (handleUpdate (Part000b.bot body env h) ctx w) = Ok tt
  ∧ w' = exec (Part000b.on_message h ctx) w
  ∧ at_most_a_reaction w w'.
Proof.
  intros Hnone. cbn zeta. unfold exec, Part000b.bot.
  rewrite !handleUpdate_pass
    by (intros Heq; apply Hnone; rewrite Heq; cbn; by repeat constructor).
  destruct (on_message_000b_run h ctx w) as (w' & Hrun & Hw' & _).
  rewrite (handleUpdate_stop _ _ ctx w w' Hrun), Hrun. done.
Qed.

Lemma handlers_after_on_message_never_run_witness :
  let bot := Part000b.bot silent full_env all_handles in
  exec (handleUpdate bot (plain_ctx alice "/stats")) calm_world
    = exec (Part000b.on_message all_handles (plain_ctx alice "/stats")) calm_world
  ∧ exec (handleUpdate bot (join_ctx bob)) calm_world = calm_world.
Proof.
  split.
  - apply (handlers_after_on_message_never_run silent full_env all_handles
             (plain_ctx alice "/stats") calm_world).
    apply (bool_decide_unpack _). vm_compute. exact I.
  - destruct (handlers_after_on_message_never_run silent full_env all_handles
                (join_ctx bob) calm_world) as (_ & -> & _).
    + apply (bool_decide_unpack _). vm_compute. exact I.
    + reflexivity.
Defined.

Lemma handleUpdate_table (table : list (string * (Ctx → M unit))) (ctx : Ctx) (w : World)
    (name : string) :
  update_command ctx = Some name →
  handleUpdate (map (λ entry, command entry.1 entry.2) table) ctx w =
    match registered name table with
    | Some handler => handler ctx w
    | None => (Ok tt, w)
    end.
Proof.
  intros Hname. induction table as [|[n handler] table IH]; [done|].
  cbn [map registered fst snd]. case_decide as Hn.
  - subst n. cbn [handleUpdate]. unfold bind, command.
    rewrite bool_decide_eq_true_2 by done.
    unfold bind, ret. by destruct (handler ctx w) as [[[]| |] ?].
  - rewrite handleUpdate_pass; [done|]. rewrite Hname. by intros [= ->].
Qed.

(** X21 — the chain of part_002:225-515 is the handler of every message
    followed by the ten commands, and an update whose text opens with a
    command for this bot (addressed to it by name, in any mix of cases, or
    to no bot) runs the handler registered under that name, from the world
    as it was, and nothing else; a command that is not registered runs
    nothing: no call is issued and the update ends normally. *)
Theorem commands_reach_their_handler
    (body : string → Ctx → M unit) (env : Env) (h : Handles) (ctx : Ctx) (w : World)
    (name : string) :
  update_command ctx = Some name →
  Part002b.bot body env h
    = on_message h :: map (λ entry, command entry.1 entry.2) (Part002b.commands body env h)
  ∧ handleUpdate (Part002b.bot body env h) ctx w =
      match registered name (Part002b.commands body env h) with
      | Some handler => handler ctx w
      | None => (Ok tt, w)
      end.
Proof.
  intros Hname. split; [done|].
  change (Part002b.bot body env h)
    with (on_message h :: map (λ entry, command entry.1 entry.2)
                            (Part002b.commands body env h)).
  assert (on_message h ctx w = (Ok Next, w)) as Hpass.
  { unfold update_command in Hname.
    destruct (text (message ctx)) as [t|] eqn:Ht; [|done].
    cbn [default from_option id] in Hname.
    apply (on_message_passes_commands ctx t Ht).
    - by intros ->.
    - destruct t as [|c t]; [done|]. unfold command_of in Hname.
      destruct (decide (c = "/"%char)) as [->|Hc]; [done|].
      by destruct c as [[] [] [] [] [] [] [] []]. }
  rewrite (handleUpdate_next _ _ ctx w w Hpass).
  by apply handleUpdate_table.
Qed.

(** A command addressed to another bot is none for this one: nothing runs. *)
Example command_for_another_bot :
  let ctx := plain_ctx alice "/autoreact@other_bot off" in
  update_command ctx = None
  ∧ handleUpdate (Part002b.bot silent full_env all_handles) ctx calm_world
    = (Ok tt, calm_world).
Proof. split; reflexivity. Qed.

Example command_for_this_bot :
  update_command (plain_ctx alice "/autoreact@MD_Bot off") = Some "autoreact".
Proof. reflexivity. Qed.

Lemma commands_reach_their_handler_witness :
  handleUpdate (Part002b.bot silent full_env all_handles) (plain_ctx alice "/stats") calm_world
    = Part002b.command_stats full_env all_handles (plain_ctx alice "/stats") calm_world
  ∧ handleUpdate (Part002b.bot silent full_env all_handles) (plain_ctx alice "/mute 5m")
      calm_world = (Ok tt, calm_world).
Proof.
  split.
  - exact (proj2 (commands_reach_their_handler silent full_env all_handles
                    (plain_ctx alice "/stats") calm_world "stats" eq_refl)).
  - exact (proj2 (commands_reach_their_handler silent full_env all_handles
                    (plain_ctx alice "/mute 5m") calm_world "mute" eq_refl)).
Defined.

(** ** /start and the users collection *)

Lemma upsert_user_ids (d : UserDoc) (us : list UserDoc) :
  map _id (upsert_user d us)
  = if decide (_id d ∈ map _id us) then map _id us else map _id us ++ [_id d].
Proof.
  induction us as [|x us IH]; cbn [upsert_user map].
  - rewrite decide_False; [done|]. apply not_elem_of_nil.
  - destruct (decide (_id x = _id d)) as [Hx|Hx].
    + rewrite decide_True by (rewrite Hx; left). cbn. by rewrite Hx.
    + cbn [map]. rewrite IH. destruct (decide (_id d ∈ map _id us)) as [Hin|Hout].
      * by rewrite decide_True by (by right).
      * rewrite decide_False; [done|]. intros [?|?]%elem_of_cons; by auto.
Qed.

Lemma upsert_user_in (d : UserDoc) (us : list UserDoc) : d ∈ upsert_user d us.
Proof.
  induction us as [|x us IH]; cbn [upsert_user]; [left|].
  case_decide; [left|by right].
Qed.

Lemma upsert_user_others (d x : UserDoc) (us : list UserDoc) :
  x ∈ us → _id x ≠ _id d → x ∈ upsert_user d us.
Proof.
  intros Hin Hx. induction us as [|y us IH]; [by apply elem_of_nil in Hin|].
  cbn [upsert_user]. apply elem_of_cons in Hin as [->|Hin].
  - rewrite decide_False by done. left.
  - case_decide; right; by auto.
Qed.

Lemma start_run (start : Handles → Ctx → M unit) (h : Handles) (ctx : Ctx) (w : World) :
  start = Part001.start ∨ start = Part002a.start ∨ start = Part000a.start
    ∨ start = Part002b.start →
  ∃ c, is_reply (c, true) = true
       ∧ start h ctx w =
           (Ok tt,
            set_trace (trace w ++ [(c, platform w (trace w) c)])
              (if usersCollection h
               then set_users (upsert_user (Build_UserDoc (user_id (from ctx))
                                              (first_name (from ctx))) (users w)) w
               else w)).
Proof.
  intros [->|[->|[->| ->]]];
    unfold Part001.start, Part002a.start, Part000a.start, Part002b.start,
      minimal_start, personal_start, save_user;
    run_monad; eexists; (split; [|destruct (usersCollection h); by rewrite detached_reply]);
    done.
Qed.

(** X22 — /start of part_001:53, part_002:49, part_000:127 and part_002:254
    with the users collection: the caller's document is in the collection
    afterwards, once per id (an id already stored keeps its place, a new one
    goes to the end), the documents of the other users are untouched, and a
    broadcast that follows attempts a message to the caller.  Without the
    collection nothing is stored.  Either way the handler ends normally with
    one call, the greeting. *)
Theorem start_registers_user
    (start : Handles → Ctx → M unit) (h : Handles) (ctx : Ctx) (w : World) (message0 : string) :
  start = Part001.start ∨ start = Part002a.start ∨ start = Part000a.start
    ∨ start = Part002b.start →
  let w' := exec (start h ctx) w in
  let uid := user_id (from ctx) in
  fst (start h ctx w) = Ok tt
  ∧ (∃ md body ok, issued w w' = [(reply md body, ok)])
  ∧ (usersCollection h = false → users w' = users w)
  ∧ (usersCollection h = true →
       Build_UserDoc uid (first_name (from ctx)) ∈ users w'
       ∧ map _id (users w')
         = (if decide (uid ∈ map _id (users w)) then map _id (users w)
            else map _id (users w) ++ [uid])
       ∧ (∀ d, d ∈ users w → _id d ≠ uid → d ∈ users w')
       ∧ sendMessage uid (broadcast_body message0)
           ∈ map fst (sends (issued w' (exec (broadcast_pass message0) w')))).
Proof.
  intros Hstart w' uid. subst w'. unfold exec.
  destruct (start_run start h ctx w Hstart) as (c & Hc & ->). cbn [fst snd].
  split; [done|]. split.
  { destruct c as [md body| | |]; try done. eexists md, body, _.
    unfold issued. destruct (usersCollection h); cbn; by rewrite drop_app_length. }
  split; [by intros ->|]. intros ->.
  set (d := Build_UserDoc uid (first_name (from ctx))).
  set (w' := set_trace _ _).
  assert (users w' = upsert_user d (users w)) as Husers by done.
  rewrite Husers. split; [apply upsert_user_in|]. split; [apply (upsert_user_ids d)|].
  split; [intros x Hin Hx; by apply upsert_user_others|].
  destruct (broadcast_pass_outcome message0 w') as (_ & Hsends & _).
  unfold exec in Hsends. rewrite Hsends, Husers. apply list_elem_of_fmap. exists d. split; [done|apply upsert_user_in].
Qed.

Lemma start_registers_user_witness :
  let dave := Build_User 1004 None "Dave" in
  let w' := exec (Part002b.start all_handles (plain_ctx dave "/start")) calm_world in
  map _id (users w') = [1001; 1002; 1003; 1004]
  ∧ sendMessage 1004 (broadcast_body "hello")
      ∈ map fst (sends (issued w' (exec (broadcast_pass "hello") w'))).
Proof.
  destruct (start_registers_user Part002b.start all_handles
              (plain_ctx (Build_User 1004 None "Dave") "/start") calm_world "hello")
    as (_ & _ & _ & Hstored); [by repeat right|].
  destruct (Hstored eq_refl) as (_ & Hids & _ & Hsend).
  split; [exact Hids|exact Hsend].
Defined.

(** ** /schedule *)

Lemma digit_facts (c : ascii) :
  Js.is_digit c = true →
  Js.digit_value 10 c = Z.of_nat <$> Ascii.is_nat c
  ∧ is_Some (Ascii.is_nat c)
  ∧ Ascii.is_space c = false
  ∧ c ≠ " "%char ∧ c ≠ "x"%char ∧ c ≠ "X"%char.
Proof.
  intros Hc.
  destruct c as [[] [] [] [] [] [] [] []]; try (by vm_compute in Hc);
    (split; [reflexivity|]); (split; [by eexists|]); by repeat split.
Qed.

Lemma schedule_unit_facts (u : ascii) :
  is_schedule_unit u = true →
  Js.digit_value 10 u = None ∧ Js.is_digit u = false
  ∧ u ≠ " "%char ∧ u ≠ "x"%char ∧ u ≠ "X"%char ∧ u ≠ "0"%char.
Proof. intros [->|[->| ->]]%bool_decide_eq_true; by repeat split. Qed.

Lemma digits_prefix_run (ds : string) : ∀ (acc : option Z) (u : ascii) (rest : string),
  ds ≠ EmptyString → all_digits ds = true → Js.digit_value 10 u = None →
  Js.digits_prefix 10 acc (ds +:+ String u rest)
  = Some ((fix go (acc : Z) (s : string) : Z :=
             match s with
             | EmptyString => acc
             | String c s' =>
                 match Ascii.is_nat c with
                 | Some d => go (10 * acc + Z.of_nat d) s'
                 | None => acc
                 end
             end) (default 0 acc) ds).
Proof.
  induction ds as [|d ds IH]; intros acc u rest Hne Hds Hu; [done|].
  simpl in Hds. apply andb_true_iff in Hds as [Hd Hds].
  destruct (digit_facts d Hd) as (Hv & [n Hn] & _).
  change (String d ds +:+ String u rest) with (String d (ds +:+ String u rest)).
  cbn [Js.digits_prefix]. rewrite Hv, Hn. cbn [fmap option_fmap option_map].
  destruct ds as [|d' ds].
  - change (EmptyString +:+ String u rest) with (String u rest).
    cbn [Js.digits_prefix]. by rewrite Hu.
  - by rewrite IH.
Qed.

Lemma startsWith_other (a b : ascii) (p s : string) :
  a ≠ b → Js.startsWith (String a p) (String b s) = false.
Proof. intros Hab. simpl. by rewrite decide_False. Qed.

Lemma startsWith_0x_digits (ds : string) (u x : ascii) (rest : string) :
  all_digits ds = true → Js.is_digit x = false → u ≠ x → u ≠ "0"%char →
  Js.startsWith (String "0" (String x EmptyString)) (ds +:+ String u rest) = false.
Proof.
  intros Hds Hx Hu Hu0.
  assert (∀ s, all_digits s = true →
               Js.startsWith (String x EmptyString) (s +:+ String u rest) = false) as Hsecond.
  { intros [|d s] Hs.
    - change (EmptyString +:+ String u rest) with (String u rest).
      by apply startsWith_other.
    - change (String d s +:+ String u rest) with (String d (s +:+ String u rest)).
      apply startsWith_other. intros ->. simpl in Hs. by rewrite Hx in Hs. }
  destruct ds as [|d ds].
  - change (EmptyString +:+ String u rest) with (String u rest).
    by apply startsWith_other.
  - change (String d ds +:+ String u rest) with (String d (ds +:+ String u rest)).
    simpl in Hds. apply andb_true_iff in Hds as [_ Hds].
    change (Js.startsWith (String "0" (String x EmptyString))
              (String d (ds +:+ String u rest)))
      with (if decide ("0"%char = d)
            then Js.startsWith (String x EmptyString) (ds +:+ String u rest) else false).
    case_decide; [by apply Hsecond|done].
Qed.

Lemma parseIntOf_decimal (d : ascii) (tail : string) :
  Js.is_digit d = true →
  Js.startsWith "0x" (String d tail) = false →
  Js.startsWith "0X" (String d tail) = false →
  Js.parseIntOf (String d tail) = Js.digits_prefix 10 None (String d tail).
Proof.
  intros Hd Hx HX.
  destruct d as [[] [] [] [] [] [] [] []]; try (by vm_compute in Hd);
    unfold Js.parseIntOf;
    match goal with
    | |- context [Js.trimStart (String ?c tail)] =>
        change (Js.trimStart (String c tail)) with (String c tail)
    end;
    cbv beta iota zeta; cbn [fst snd]; rewrite Hx, HX; cbn [orb fst snd];
    by destruct (Js.digits_prefix _ _ _).
Qed.

(** [parseInt] of a run of digits and a unit letter reads the digits. *)
Lemma parseIntOf_duration (ds : string) (u : ascii) :
  ds ≠ EmptyString → all_digits ds = true → is_schedule_unit u = true →
  Js.parseIntOf (ds +:+ String u EmptyString) = Some (Js.parseInt ds).
Proof.
  intros Hne Hds Hu.
  destruct (schedule_unit_facts u Hu) as (Hv & Hnd & _ & Hx & HX & H0).
  pose proof (digits_prefix_run ds None u EmptyString Hne Hds Hv) as Hrun.
  pose proof (startsWith_0x_digits ds u "x" EmptyString Hds eq_refl Hx H0) as Hsx.
  pose proof (startsWith_0x_digits ds u "X" EmptyString Hds eq_refl HX H0) as HsX.
  destruct ds as [|d ds]; [done|].
  change (String d ds +:+ String u EmptyString)
    with (String d (ds +:+ String u EmptyString)) in *.
  simpl in Hds. apply andb_true_iff in Hds as [Hd _].
  by rewrite parseIntOf_decimal.
Qed.

Lemma endsWith_snoc (c a : ascii) (s : string) :
  Js.endsWith c (s +:+ String a EmptyString) = bool_decide (a = c).
Proof.
  induction s as [|x s IH]; [done|].
  change (String x s +:+ String a EmptyString) with (String x (s +:+ String a EmptyString)).
  rewrite <- IH. simpl. by destruct s.
Qed.

Lemma has_char_digits (ds : string) (u : ascii) :
  all_digits ds = true → is_schedule_unit u = true →
  Js.has_char " " (ds +:+ String u EmptyString) = false.
Proof.
  intros Hds Hu. destruct (schedule_unit_facts u Hu) as (_ & _ & Hsp & _).
  induction ds as [|d ds IH].
  - change (EmptyString +:+ String u EmptyString) with (String u EmptyString).
    simpl. by rewrite decide_False.
  - change (String d ds +:+ String u EmptyString)
      with (String d (ds +:+ String u EmptyString)).
    simpl in *. apply andb_true_iff in Hds as [Hd Hds].
    destruct (digit_facts d Hd) as (_ & _ & _ & Hdsp & _).
    rewrite decide_False by done. by apply IH.
Qed.

Lemma schedule_delay_duration (ds : string) (u : ascii) :
  ds ≠ EmptyString → all_digits ds = true → is_schedule_unit u = true →
  Part002b.schedule_delay (ds +:+ String u EmptyString)
  = Some (Some (Js.parseInt ds * unit_milliseconds u)).
Proof.
  intros Hne Hds Hu. unfold Part002b.schedule_delay.
  rewrite !endsWith_snoc, (parseIntOf_duration ds u Hne Hds Hu).
  apply bool_decide_eq_true in Hu.
  destruct Hu as [->|[->| ->]]; repeat case_bool_decide; try done;
    unfold unit_milliseconds; repeat case_decide; try done;
    cbn [mbind option_bind]; do 2 f_equal; lia.
Qed.

(** What reaches [setTimeout] when the time has no number: [NaN]. *)
Example schedule_delay_no_number : Part002b.schedule_delay "m" = Some None.
Proof. reflexivity. Qed.

(** X25 — /schedule with a word, a space, a number directly followed by s,
    m or h, a space and a message: the handler confirms with the time as it
    was written and registers one timer; its delay is the number times 1000,
    60000 or 3600000 milliseconds, and when it fires it sends the message as
    it was written, spaces included, and ends normally whether or not the
    platform takes the message. *)
Theorem schedule_keeps_message (ctx : Ctx) (w : World) (cmd ds message0 : string) (u : ascii) :
  text (message ctx) = Some (cmd +:+ " " +:+ ds +:+ String u (" " +:+ message0)) →
  Js.has_char " " cmd = false →
  ds ≠ EmptyString → all_digits ds = true →
  is_schedule_unit u = true →
  safe_integer (Js.parseInt ds * unit_milliseconds u) →
  ∃ timer ok,
    Part002b.command_schedule ctx w =
      (Ok (Some timer),
       set_trace (trace w ++ [(reply false ("✅ Message scheduled to be sent in " +:+
                                            (ds +:+ String u EmptyString) +:+ "."), ok)]) w)
    ∧ Part002b.delay timer = Some (Js.parseInt ds * unit_milliseconds u)
    ∧ ∀ later, ∃ sent,
        Part002b.fires timer later =
          (Ok tt, set_trace (trace later ++
                             [(reply false ("⏰ Scheduled message: " +:+ message0), sent)])
                    later).
Proof.
  intros Ht Hcmd Hne Hds Hu _.
  set (time := ds +:+ String u EmptyString).
  assert (Js.split " " (cmd +:+ " " +:+ ds +:+ String u (" " +:+ message0))
          = cmd :: time :: Js.split " " message0) as Hsplit.
  { change (cmd +:+ " " +:+ ds +:+ String u (" " +:+ message0))
      with (cmd +:+ String " " (ds +:+ String u (String " " message0))).
    rewrite split_app, (split_absent _ _ Hcmd).
    assert (ds +:+ String u (String " " message0) = time +:+ String " " message0) as ->.
    { unfold time. by rewrite append_assoc. }
    by rewrite split_app, (split_absent " " time (has_char_digits ds u Hds Hu)). }
  unfold Part002b.command_schedule. run_monad. rewrite Ht, Hsplit.
  rewrite bool_decide_eq_false_2
    by (pose proof (split_not_nil " " message0); destruct (Js.split " " message0);
        [done|cbn; lia]).
  cbn [lookup list_lookup default from_option id drop].
  unfold time at 1. rewrite (schedule_delay_duration ds u Hne Hds Hu).
  rewrite detached_reply. eexists _, _. split; [reflexivity|]. split; [done|].
  intros later. cbn [Part002b.fires]. rewrite drop_0.
  change (Js.join " " (Js.split " " message0))
    with (Js.join (String " " EmptyString) (Js.split " " message0)).
  rewrite join_split. unfold await. rewrite issue_plain by done. cbn.
  destruct (platform later (trace later) _); by eexists.
Qed.

Lemma schedule_keeps_message_witness :
  ∃ timer ok,
    Part002b.command_schedule (plain_ctx alice "/schedule 15m call  the bank") calm_world =
      (Ok (Some timer),
       set_trace (trace calm_world ++
                  [(reply false "✅ Message scheduled to be sent in 15m.", ok)]) calm_world)
    ∧ Part002b.delay timer = Some 900000
    ∧ ∀ later, ∃ sent,
        Part002b.fires timer later =
          (Ok tt, set_trace (trace later ++
                             [(reply false "⏰ Scheduled message: call  the bank", sent)])
                    later).
Proof.
  apply (schedule_keeps_message (plain_ctx alice "/schedule 15m call  the bank") calm_world
           "/schedule" "15" "call  the bank" "m"%char);
    [reflexivity|reflexivity|discriminate|reflexivity|reflexivity
    |split; vm_compute; reflexivity].
Defined.

(** ** Start-up with a token *)

Lemma launch_token (n : Network) (token : string) :
  token ≠ EmptyString →
  launch n (Some token) = ([TelegramLaunch token], telegram_up n token).
Proof. by destruct token. Qed.

Lemma connectDB_available (n : Network) (mongoUri : option string) :
  ¬ store_unavailable n mongoUri → snd (connectDB n mongoUri) = all_handles.
Proof.
  unfold store_unavailable, connectDB. destruct mongoUri as [[|c u]|]; try done.
  by destruct (mongo_up n (String c u)).
Qed.

(** X23 — started with a token, index.js, part_001, the first variant of
    part_000 and both variants of part_002 always go on to launch the bot,
    whatever became of the database: the launch is the last connection
    attempted.  When the platform answers they serve, without the
    collections if the connection string is missing or the database does
    not answer, with them otherwise.  When it does not, index.js is left
    with a rejection nothing handles, part_001 and the first variant of
    part_002 log and stay idle, the other two exit with status 1. *)
Theorem boot_launches_without_database (env : Env) (n : Network) (token : string) :
  BOT_TOKEN env = Some token →
  token ≠ EmptyString →
  let starts (boot : Env → Network → Boot) (mongoUri : option string) (stopped : Outcome) :=
    last (net (boot env n)) = Some (TelegramLaunch token)
    ∧ (telegram_up n token = false → outcome (boot env n) = stopped)
    ∧ (telegram_up n token = true →
         (store_unavailable n mongoUri → outcome (boot env n) = Serving no_handles)
         ∧ (¬ store_unavailable n mongoUri → outcome (boot env n) = Serving all_handles)) in
  starts IndexJs.boot (env_or (MONGO_URL env) (MONGODB_URI env)) Unhandled
  ∧ starts Part001.boot (MONGO_URL env) Idle
  ∧ starts Part000a.boot (MONGO_URL env) (Exit 1)
  ∧ starts Part002a.boot (MONGO_URL env) Idle
  ∧ starts Part002b.boot (env_or (MONGO_URL env) (MONGODB_URI env)) (Exit 1).
Proof.
  intros Htoken Hne. cbn zeta.
  assert (Js.truthy (BOT_TOKEN env) = true) as Htruthy.
  { rewrite Htoken. by destruct token. }
  unfold IndexJs.boot, Part001.boot, Part000a.boot, Part002a.boot, Part002b.boot,
    IndexJs.mongoUri, Part002b.mongoUri.
  rewrite Htruthy, Htoken, (launch_token n token Hne). cbn [negb fst snd net outcome].
  rewrite !last_snoc.
  repeat split; try done;
    try (by intros ->).
  all:
    intros Hstore;
    match goal with H : telegram_up _ _ = true |- _ => rewrite H end;
    first [by rewrite (connectDB_unavailable _ _ Hstore)
          |by rewrite (connectDB_available _ _ Hstore)].
Qed.

Lemma boot_launches_without_database_witness :
  outcome (IndexJs.boot full_env database_down) = Serving no_handles
  ∧ outcome (Part002b.boot full_env online) = Serving all_handles.
Proof.
  destruct (boot_launches_without_database full_env database_down "123456:token"
              eq_refl ltac:(discriminate)) as ((_ & _ & Hdown) & _).
  destruct (boot_launches_without_database full_env online "123456:token"
              eq_refl ltac:(discriminate)) as (_ & _ & _ & _ & _ & _ & Hup).
  split.
  - apply (Hdown eq_refl). reflexivity.
  - apply (Hup eq_refl). by intros ?.
Defined.

(** X24 — the group bot of part_000:339 serves in one case only: the
    connection string is set, the database has answered, the token is set
    and the platform has answered.  It then has every collection, so none of
    its handlers ever runs without the store. *)
Theorem boot_000b_serves_iff (env : Env) (n : Network) (h : Handles) :
  outcome (Part000b.boot env n) = Serving h
  ↔ h = all_handles
    ∧ ∃ uri token,
        MONGO_URI env = Some uri ∧ uri ≠ EmptyString ∧ mongo_up n uri = true
        ∧ BOT_TOKEN env = Some token ∧ token ≠ EmptyString ∧ telegram_up n token = true.
Proof.
  unfold Part000b.boot. split.
  - destruct (MONGO_URI env) as [[|c u]|]; [done| |done].
    destruct (mongo_up n (String c u)) eqn:Hmongo; [|done].
    destruct (BOT_TOKEN env) as [[|c' t]|]; [done| |done].
    cbn. destruct (telegram_up n (String c' t)) eqn:Htg; [|done].
    intros [= <-]. split; [done|]. by exists (String c u), (String c' t).
  - intros (-> & uri & token & -> & Huri & Hmongo & -> & Htoken & Htg).
    destruct uri as [|c u]; [done|]. rewrite Hmongo.
    destruct token as [|c' t]; [done|]. cbn. by rewrite Htg.
Qed.

(** ** The default settings *)

(** X26 — [initSettings] of part_000:65 and part_002:187 ends normally and
    never overwrites: a settings document that is there stays as it is (a
    switch made with /autoreact survives a restart), every other document
    stays, without the settings collection nothing is written, and a second
    run changes nothing.  With the collection there is a settings document
    afterwards, the stored one or the defaults. *)
Theorem initSettings_keeps_existing (h : Handles) (w : World) :
  let w1 := exec (initSettings h) w in
  fst (initSettings h w) = Ok tt
  ∧ exec (initSettings h) w1 = w1
  ∧ (is_Some (settings w !! "global") ∨ settingsCollection h = false → w1 = w)
  ∧ (settingsCollection h = true →
       settings w1 !! "global"
       = Some (default personal_defaults (settings w !! "global")))
  ∧ (∀ k, k ≠ "global" → settings w1 !! k = settings w !! k)
  ∧ trace w1 = trace w.
Proof.
  cbn zeta.
  assert (∀ v, initSettings h v =
               (Ok tt,
                if settingsCollection h then
                  match settings v !! "global" with
                  | Some _ => v
                  | None => set_settings (<["global" := personal_defaults]> (settings v)) v
                  end
                else v)) as Hrun.
  { intros v. unfold initSettings. destruct (settingsCollection h); [|done].
    cbn [negb]. run_monad. by destruct (settings v !! "global"). }
  unfold exec. rewrite !Hrun. cbn [fst snd].
  destruct (settingsCollection h).
  - destruct (settings w !! "global") as [s|] eqn:Hs.
    + split; [done|]. split; [by rewrite Hs|]. split; [done|].
      split; [done|]. done.
    + cbn [settings set_settings]. rewrite lookup_insert_eq.
      split; [done|]. split; [done|]. split; [by intros [[? ?]|?]|].
      split; [done|]. split; [|done]. intros k Hk. by rewrite lookup_insert_ne.
  - split; [done|]. split; [done|]. split; [done|]. split; [done|]. done.
Qed.

(** ** /stats with the store *)

Lemma personal_stats_counts (env : Env) (h : Handles) (ctx : Ctx) (w : World) :
  usersCollection h = true → sessionsCollection h = true →
  let userCount := Js.toString (Z.of_nat (length (users w))) in
  let sessionCount := Js.toString (Z.of_nat (length (sessions w))) in
  let body := personal_statsText env ctx (locale_date w) userCount sessionCount (uptime w) in
  personal_stats env h ctx w =
    (Ok tt, set_trace (trace w ++ [(reply true body, platform w (trace w) (reply true body))]) w)
  ∧ Js.includes ("Total Users: " +:+ userCount) body = true.
Proof.
  intros Hu Hs. split.
  - unfold personal_stats, count_both. rewrite Hu, Hs. cbn [andb].
    run_monad. by rewrite detached_reply.
  - unfold personal_statsText. do 10 apply includes_skip.
    find_label "👥 " ("Total Users: " +:+ Js.toString (Z.of_nat (length (users w)))).
Qed.

(** X27 — in the first variant of part_000 and the second of part_002, with
    the users and sessions collections, a /stats that follows a /start
    counts the caller of /start: its one call is the statistics text with
    the number of users stored before, plus one when the caller was not
    among them.  /stats itself ends normally and leaves the store as it
    is. *)
Theorem stats_counts_started_users
    (start : Handles → Ctx → M unit) (stats : Env → Handles → Ctx → M unit)
    (env : Env) (h : Handles) (ctx asker : Ctx) (w : World) :
  (start = Part000a.start ∧ stats = Part000a.command_stats)
  ∨ (start = Part002b.start ∧ stats = Part002b.command_stats) →
  usersCollection h = true →
  sessionsCollection h = true →
  let w1 := exec (start h ctx) w in
  let w2 := exec (stats env h asker) w1 in
  let known := bool_decide (user_id (from ctx) ∈ map _id (users w)) in
  let n := (length (users w) + (if known then 0 else 1))%nat in
  fst (stats env h asker w1) = Ok tt
  ∧ same_store w1 w2
  ∧ ∃ body ok, issued w1 w2 = [(reply true body, ok)]
               ∧ Js.includes ("Total Users: " +:+ Js.toString (Z.of_nat n)) body = true.
Proof.
  intros Hvariant Hu Hs w1 w2 known n.
  assert (stats = personal_stats) as -> by (by destruct Hvariant as [[_ ->]|[_ ->]]).
  assert (length (users w1) = n) as Hn.
  { subst w1 n known. unfold exec.
    destruct (start_run start h ctx w) as (c & _ & ->);
      [destruct Hvariant as [[-> _]|[-> _]]; by auto|].
    rewrite Hu. cbn [snd users set_trace set_users].
    rewrite <- (length_map _id (upsert_user _ _)), upsert_user_ids.
    cbn [_id]. case_bool_decide as Hin.
    - rewrite decide_True by done. rewrite length_map. lia.
    - rewrite decide_False by done. rewrite length_app, length_map. cbn. lia. }
  destruct (personal_stats_counts env h asker w1 Hu Hs) as [Hrun Hshown].
  cbn zeta in Hrun, Hshown. rewrite Hn in Hrun, Hshown.
  subst w2. unfold exec. rewrite Hrun. cbn [fst snd].
  split; [done|]. split; [done|]. eexists _, _.
  split; [unfold issued; cbn; by rewrite drop_app_length|done].
Qed.

Lemma stats_counts_started_users_witness :
  let dave := plain_ctx (Build_User 1004 None "Dave") "/start" in
  let w1 := exec (Part002b.start all_handles dave) calm_world in
  let w2 := exec (Part002b.command_stats full_env all_handles (plain_ctx alice "/stats")) w1 in
  ∃ body ok, issued w1 w2 = [(reply true body, ok)]
             ∧ Js.includes "Total Users: 4" body = true.
Proof.
  destruct (stats_counts_started_users Part002b.start Part002b.command_stats full_env
              all_handles (plain_ctx (Build_User 1004 None "Dave") "/start")
              (plain_ctx alice "/stats") calm_world)
    as (_ & _ & Hshown); [by right|reflexivity|reflexivity|].
  exact Hshown.
Defined.
